(** * DiscNote: the status tracker of [app.py]

    A shallow embedding of the state-reconciliation and fan-out engine of
    [src/app.py] (storage, broadcast hub, webhook notifier, EventSub
    handlers and lifecycle, streamer administration), followed by the
    properties of its specification.

    Python dictionaries with a fixed set of string keys whose order is
    irrelevant (a streamer record, the [discord] section, [GAME_CACHE], the
    file system) are finite maps; [store["streamers"]], which the handlers
    iterate in insertion order and leave at the first match, is an
    insertion-ordered association list.  Coroutines are run to completion
    one at a time: the model has no interleaving at [await].  The working
    directory is a finite map from paths to texts: reading a file that is
    not there raises, a write goes through.  What the built-in string
    methods [str.strip] and [str.lower] return is, like the answer of every
    other library call, given by the environment of a run. *)

From Stdlib Require Import ZArith Ascii String List.
From stdpp Require Import base tactics option list strings gmap pretty.

#[local] Set Warnings "-register-all".
Local Open Scope string_scope.
Local Open Scope Z_scope.
Local Open Scope list_scope.

(** ** Python values *)

(** The scalar values a record field holds once loaded from JSON. *)
Inductive value :=
| VNone
| VBool (b : bool)
| VStr (s : string)
| VInt (z : Z).

#[global] Instance value_eq_dec : EqDecision value.
Proof. solve_decision. Defined.

(** Truthiness, as used by [if x], [not x] and [x or y]. *)
Definition truthy (v : value) : bool :=
  match v with
  | VNone => false
  | VBool b => b
  | VStr s => negb (bool_decide (s = ""))
  | VInt z => negb (bool_decide (z = 0))
  end.

(** [x or y] *)
Definition py_or (x y : value) : value := if truthy x then x else y.

(** [str(x)], which is what an f-string field prints. *)
Definition py_str (v : value) : string :=
  match v with
  | VNone => "None"
  | VBool true => "True"
  | VBool false => "False"
  | VStr s => s
  | VInt z => pretty z
  end.

(** [d.get(k)] and [d.get(k, default)] on a record. *)
Definition py_get (k : string) (d : gmap string value) : value :=
  default VNone (d !! k).

Definition py_get_default (k : string) (dflt : value) (d : gmap string value) : value :=
  default dflt (d !! k).

(** ** Insertion-ordered dictionaries

    [store["streamers"]]: assignment to an existing key keeps its position,
    a new key goes last, [del] removes the entry. *)

Definition odict (V : Type) := list (string * V).

Fixpoint od_get {V} (k : string) (d : odict V) : option V :=
  match d with
  | [] => None
  | (k', v) :: r => if decide (k = k') then Some v else od_get k r
  end.

Fixpoint od_set {V} (k : string) (v : V) (d : odict V) : odict V :=
  match d with
  | [] => [(k, v)]
  | (k', v') :: r =>
      if decide (k = k') then (k', v) :: r else (k', v') :: od_set k v r
  end.

Fixpoint od_del {V} (k : string) (d : odict V) : odict V :=
  match d with
  | [] => []
  | (k', v') :: r =>
      if decide (k = k') then r else (k', v') :: od_del k r
  end.

(** [k in d] *)
Definition od_mem {V} (k : string) (d : odict V) : bool :=
  match od_get k d with Some _ => true | None => false end.

(** In-place change of the value stored under [k]: what a mutation through
    an alias [s = d[k]] does to [d]. *)
Fixpoint od_alter {V} (f : V -> V) (k : string) (d : odict V) : odict V :=
  match d with
  | [] => []
  | (k', v') :: r =>
      if decide (k = k') then (k', f v') :: r else (k', v') :: od_alter f k r
  end.

(** ** JSON documents *)

Inductive json :=
| JNull
| JBool (b : bool)
| JInt (z : Z)
| JStr (s : string)
| JList (l : list json)
| JDict (l : list (string * json)).

Definition value_to_json (v : value) : json :=
  match v with
  | VNone => JNull
  | VBool b => JBool b
  | VStr s => JStr s
  | VInt z => JInt z
  end.

Definition record_to_json (r : gmap string value) : json :=
  JDict (map (fun kv => (kv.1, value_to_json kv.2)) (map_to_list r)).

Definition streamers_to_json (d : odict (gmap string value)) : json :=
  JDict (map (fun kv => (kv.1, record_to_json kv.2)) d).

(** ** The store *)

Record Twitch_section := {
  client_id : string;
  client_secret : string;
  token_obtained_at : Z;
  expires_in : Z
}.

Record Store := {
  admin_username : string;
  admin_password : string;
  twitch_section : Twitch_section;
  discord : gmap string value;
  streamers : odict (gmap string value)
}.

Definition store_to_json (s : Store) : json :=
  JDict [
    ("admin", JDict [("username", JStr (admin_username s));
                     ("password", JStr (admin_password s))]);
    ("twitch", JDict [("client_id", JStr (client_id (twitch_section s)));
                      ("client_secret", JStr (client_secret (twitch_section s)));
                      ("token_obtained_at", JInt (token_obtained_at (twitch_section s)));
                      ("expires_in", JInt (expires_in (twitch_section s)))]);
    ("discord", record_to_json (discord s));
    ("streamers", streamers_to_json (streamers s))
  ].

Definition DEFAULT_STORE : json :=
  JDict [
    ("admin", JDict [("username", JStr "admin"); ("password", JStr "changeme")]);
    ("twitch", JDict [("client_id", JStr ""); ("client_secret", JStr "");
                      ("token_obtained_at", JInt 0); ("expires_in", JInt 0)]);
    ("discord", JDict [("webhook", JStr "")]);
    ("streamers", JDict [])
  ].

(** The typed reading of [DEFAULT_STORE]. *)
Definition default_store : Store := {|
  admin_username := "admin";
  admin_password := "changeme";
  twitch_section := {| client_id := ""; client_secret := "";
                       token_obtained_at := 0; expires_in := 0 |};
  discord := {[ "webhook" := VStr "" ]};
  streamers := []
|}.

Lemma default_store_json : store_to_json default_store = DEFAULT_STORE.
Proof. vm_compute. reflexivity. Qed.

(** ** Exceptions, effects and the monad of the program

    A computation runs on a state, returns normally or raises, keeps the
    state changes made before a raise, and leaves a trace of the outside
    calls it made. *)

Inductive exn :=
| ValueError
| JSONDecodeError        (* a subclass of ValueError *)
| KeyError
| TypeError
| AttributeError
| OSError
| RuntimeError
| WebSocketDisconnect
| HTTPError              (* httpx: timeouts, connection and protocol errors *)
| TwitchAPIException.

(** [except Exception]: every class above derives from [Exception]. *)
Definition is_Exception (e : exn) : bool := true.

(** [except ValueError] *)
Definition is_ValueError (e : exn) : bool :=
  match e with
  | ValueError | JSONDecodeError => true
  | _ => false
  end.

Inductive result (A : Type) :=
| Ok (a : A)
| Raise (e : exn).
Arguments Ok {A} a.
Arguments Raise {A} e.

(** Object identity of a connected browser socket. *)
Definition WebSocket := nat.

Inductive Topic := stream_online | stream_offline | channel_update.

#[global] Instance Topic_eq_dec : EqDecision Topic.
Proof. solve_decision. Defined.

Inductive Effect :=
| FsWrite (path text : string)                 (* Path.write_text *)
| FsReplace (src dst : string)                 (* Path.replace *)
| WsSend (ws : WebSocket) (text : string) (delivered : bool)   (* ws.send_text *)
| HttpPost (url : value) (content : string)    (* client.post(url, json={"content": ...}) *)
| TwitchNew (cid csec : string)                (* Twitch(cid, csec) *)
| GetUsers (login : string)                    (* client.get_users(logins=[login]) *)
| GetGames (game_id : string)                  (* client.get_games(game_ids=[game_id]) *)
| EsNew                                        (* EventSubWebsocket(client) *)
| EsListen                                     (* es.listen() *)
| EsSubscribe (uid : value) (t : Topic)        (* es.listen_stream_online(...) and the like *)
| EsRun.                                       (* asyncio.create_task(es.run()) *)

Definition M (S A : Type) : Type := S -> result A * S * list Effect.

#[global] Instance M_ret {S} : MRet (M S) :=
  fun A a s => (Ok a, s, []).

#[global] Instance M_bind {S} : MBind (M S) :=
  fun A B f m s =>
    match m s with
    | (Ok a, s1, t1) =>
        match f a s1 with
        | (r, s2, t2) => (r, s2, t1 ++ t2)
        end
    | (Raise e, s1, t1) => (Raise e, s1, t1)
    end.

Definition raise {S A} (e : exn) : M S A := fun s => (Raise e, s, []).
Definition gets {S A} (f : S -> A) : M S A := fun s => (Ok (f s), s, []).
Definition modify {S} (f : S -> S) : M S unit := fun s => (Ok tt, f s, []).
Definition emit {S} (e : Effect) : M S unit := fun s => (Ok tt, s, [e]).

(** [try: m  except C: h] for the exception classes [C] that [catches]
    accepts. *)
Definition try_except {S A} (m : M S A) (catches : exn -> bool) (h : M S A) : M S A :=
  fun s =>
    match m s with
    | (Ok a, s1, t1) => (Ok a, s1, t1)
    | (Raise e, s1, t1) =>
        if catches e then
          match h s1 with
          | (r, s2, t2) => (r, s2, t1 ++ t2)
          end
        else (Raise e, s1, t1)
    end.

(** The outcome of an outside call that returns nothing. *)
Definition outcome {S} (o : option exn) : M S unit :=
  match o with
  | None => mret tt
  | Some e => raise e
  end.

Definition of_result {S A} (r : result A) : M S A :=
  match r with
  | Ok a => mret a
  | Raise e => raise e
  end.

(** [for x in l: body], where the body says whether it ran into [break].
    [continue] is a body that ends early with [Next]. *)
Inductive flow := Next | Break.

Fixpoint for_in {S A} (l : list A) (body : A -> M S flow) : M S unit :=
  match l with
  | [] => mret tt
  | x :: r =>
      fl ← body x;
      match fl with
      | Break => mret tt
      | Next => for_in r body
      end
  end.

(** A loop that threads a local variable. *)
Fixpoint for_acc {S A B} (l : list A) (acc : B) (body : B -> A -> M S B) : M S B :=
  match l with
  | [] => mret acc
  | x :: r => acc' ← body acc x; for_acc r acc' body
  end.

(** ** What the outside world answers

    Library and network calls are not part of the program: their answers
    during one run are given by an environment. *)

Record Env := {
  (* s.strip() and s.lower() of the built-in str *)
  str_strip : string -> string;
  str_lower : string -> string;
  (* json.dumps(x, indent=...) and json.loads *)
  json_dumps : option nat -> json -> string;
  json_loads : string -> result json;
  (* datetime.now(timezone.utc).isoformat() *)
  utc_now_isoformat : string;
  (* datetime.fromisoformat(s).strftime("%Y-%m-%d %H:%M UTC"); None: ValueError *)
  fromisoformat_strftime : string -> option string;
  (* await ws.send_text(text) *)
  ws_send_text : WebSocket -> string -> option exn;
  (* await client.post(url, json={"content": content}) *)
  httpx_post : value -> string -> option exn;
  (* await Twitch(cid, csec) *)
  Twitch_new : string -> string -> option exn;
  (* (await client.get_users(logins=[login])).get("data", []), as (id, display_name) *)
  get_users : string -> result (list (string * string));
  (* (await client.get_games(game_ids=[id])).get("data", []), the names *)
  get_games : string -> result (list string);
  (* await es.listen() *)
  es_listen : option exn;
  (* await es.listen_stream_online / listen_stream_offline / listen_channel_update *)
  es_listen_topic : value -> Topic -> option exn
}.

(** ** Process state *)

Record TwitchClient := { app_id : string; app_secret : string }.

(** The EventSub socket object: the subscriptions registered on it. *)
Record EventSubWebsocket := { subscriptions : list (value * Topic) }.

Record World := {
  store : Store;
  files : gmap string string;           (* the working directory *)
  twitch : option TwitchClient;
  es : option EventSubWebsocket;
  GAME_CACHE : gmap string string;
  WS_CLIENTS : list WebSocket
}.

Definition set_store (f : Store -> Store) (w : World) : World :=
  {| store := f (store w); files := files w; twitch := twitch w; es := es w;
     GAME_CACHE := GAME_CACHE w; WS_CLIENTS := WS_CLIENTS w |}.

Definition set_files (f : gmap string string -> gmap string string) (w : World) : World :=
  {| store := store w; files := f (files w); twitch := twitch w; es := es w;
     GAME_CACHE := GAME_CACHE w; WS_CLIENTS := WS_CLIENTS w |}.

Definition set_twitch (t : option TwitchClient) (w : World) : World :=
  {| store := store w; files := files w; twitch := t; es := es w;
     GAME_CACHE := GAME_CACHE w; WS_CLIENTS := WS_CLIENTS w |}.

Definition set_es (e : option EventSubWebsocket) (w : World) : World :=
  {| store := store w; files := files w; twitch := twitch w; es := e;
     GAME_CACHE := GAME_CACHE w; WS_CLIENTS := WS_CLIENTS w |}.

Definition set_GAME_CACHE (f : gmap string string -> gmap string string) (w : World) : World :=
  {| store := store w; files := files w; twitch := twitch w; es := es w;
     GAME_CACHE := f (GAME_CACHE w); WS_CLIENTS := WS_CLIENTS w |}.

Definition set_WS_CLIENTS (l : list WebSocket) (w : World) : World :=
  {| store := store w; files := files w; twitch := twitch w; es := es w;
     GAME_CACHE := GAME_CACHE w; WS_CLIENTS := l |}.

Definition set_streamers (f : odict (gmap string value) -> odict (gmap string value))
    (s : Store) : Store :=
  {| admin_username := admin_username s; admin_password := admin_password s;
     twitch_section := twitch_section s; discord := discord s;
     streamers := f (streamers s) |}.

(** Run a computation on the files inside a computation on the process. *)
Definition on_files {A} (m : M (gmap string string) A) : M World A :=
  fun w =>
    match m (files w) with
    | (r, fs, t) => (r, set_files (fun _ => fs) w, t)
    end.

(** ** Text helpers *)

Definition nl : string := String "010"%char EmptyString.

(** [str.strip] and [str.lower] follow the Unicode tables of the
    interpreter; the program takes their answers from the environment.  On
    text made of ASCII characters only they are the two functions below,
    which the example environments use. *)
Definition is_space (c : ascii) : bool :=
  let n := nat_of_ascii c in
  ((9 <=? n) && (n <=? 13) || (28 <=? n) && (n <=? 32))%nat.

Fixpoint lstrip_chars (l : list ascii) : list ascii :=
  match l with
  | [] => []
  | c :: r => if is_space c then lstrip_chars r else l
  end.

Definition ascii_strip (s : string) : string :=
  string_of_list_ascii
    (rev (lstrip_chars (rev (lstrip_chars (list_ascii_of_string s))))).

Definition lower_char (c : ascii) : ascii :=
  let n := nat_of_ascii c in
  if ((65 <=? n) && (n <=? 90))%nat then ascii_of_nat (n + 32) else c.

Fixpoint ascii_lower (s : string) : string :=
  match s with
  | EmptyString => EmptyString
  | String c r => String (lower_char c) (ascii_lower r)
  end.

(** [s.replace("Z", "+00:00")] *)
Fixpoint replace_Z (s : string) : string :=
  match s with
  | EmptyString => EmptyString
  | String c r =>
      if Ascii.eqb c "Z"%char then "+00:00" +:+ replace_Z r
      else String c (replace_Z r)
  end.

(** [WS_CLIENTS.remove(d)]: drops the first occurrence, [None] stands for
    the ValueError raised when there is none. *)
Fixpoint list_remove (d : WebSocket) (l : list WebSocket) : option (list WebSocket) :=
  match l with
  | [] => None
  | x :: r =>
      if decide (x = d) then Some r
      else match list_remove d r with
           | Some r' => Some (x :: r')
           | None => None
           end
  end.

Inductive Response :=
| RedirectResponse (url : string) (status_code : Z)
| PlainTextResponse (content : string) (status_code : Z).

(** The [data["event"]] of an EventSub notification. *)
Inductive Event :=
| StreamOnline (broadcaster_user_id started_at : string)
| StreamOffline (broadcaster_user_id : string)
| ChannelUpdate (broadcaster_user_id : string) (title category_id : option string).

(** ** The program *)

Definition STORE_PATH : string := "store.json".

(** [STORE_PATH.with_suffix(".tmp")] *)
Definition STORE_TMP : string := "store.tmp".

Section Program.
Context (env : Env).

(** *** Storage *)

Definition path_exists (p : string) : M (gmap string string) bool :=
  gets (fun fs => bool_decide (is_Some (fs !! p))).

Definition read_text (p : string) : M (gmap string string) string :=
  fs ← gets id;
  match fs !! p with
  | Some t => mret t
  | None => raise OSError
  end.

Definition write_text (p t : string) : M (gmap string string) unit :=
  emit (FsWrite p t);;
  modify (insert p t).

Definition path_replace (src dst : string) : M (gmap string string) unit :=
  fs ← gets id;
  match fs !! src with
  | Some t =>
      emit (FsReplace src dst);;
      modify (fun fs => <[dst := t]> (delete src fs))
  | None => raise OSError
  end.

Definition load_store : M (gmap string string) json :=
  ex ← path_exists STORE_PATH;
  loaded ← (if ex : bool then
              try_except
                (t ← read_text STORE_PATH;
                 j ← of_result (json_loads env t);
                 mret (Some j))
                is_Exception
                (mret None)
            else mret None);
  match loaded with
  | Some j => mret j
  | None =>
      write_text STORE_PATH (json_dumps env (Some 2%nat) DEFAULT_STORE);;
      t ← read_text STORE_PATH;
      of_result (json_loads env t)
  end.

Definition save_store (s : Store) : M (gmap string string) unit :=
  let tmp := STORE_TMP in
  write_text tmp (json_dumps env (Some 2%nat) (store_to_json s));;
  path_replace tmp STORE_PATH.

(** *** Twitch client and lookups *)

Definition now_iso : string := utc_now_isoformat env.

Definition iso_to_hhmm (iso_str : value) : value :=
  match iso_str with
  | VStr s =>
      match fromisoformat_strftime env (replace_Z s) with
      | Some formatted => VStr formatted
      | None => py_or iso_str (VStr "")
      end
  | _ => py_or iso_str (VStr "")   (* no [replace] on it: AttributeError, caught *)
  end.

Definition ensure_twitch_client : M World (option TwitchClient) :=
  cid ← gets (fun w => client_id (twitch_section (store w)));
  csec ← gets (fun w => client_secret (twitch_section (store w)));
  if bool_decide (cid = "") || bool_decide (csec = "") then mret None
  else
    tw ← gets twitch;
    match tw with
    | None =>
        emit (TwitchNew cid csec);;
        outcome (Twitch_new env cid csec);;
        modify (set_twitch (Some {| app_id := cid; app_secret := csec |}));;
        gets twitch
    | Some _ => gets twitch
    end.

Definition resolve_login_to_user (login : string) : M World (option (string * string)) :=
  client ← ensure_twitch_client;
  match client with
  | None => mret None
  | Some _ =>
      emit (GetUsers login);;
      data ← of_result (get_users env login);
      match data with
      | [] => mret None
      | u :: _ => mret (Some u)
      end
  end.

Definition game_name_for (game_id : option string) : M World (option string) :=
  match game_id with
  | None => mret None
  | Some g =>
      if bool_decide (g = "") then mret None
      else
        cache ← gets GAME_CACHE;
        match cache !! g with
        | Some name => mret (Some name)
        | None =>
            client ← ensure_twitch_client;
            match client with
            | None => mret None
            | Some _ =>
                emit (GetGames g);;
                data ← of_result (get_games env g);
                match data with
                | name :: _ =>
                    modify (set_GAME_CACHE (insert g name));;
                    mret (Some name)
                | [] => mret None
                end
            end
        end
  end.

(** *** Broadcast *)

Definition full_update (sts : odict (gmap string value)) : json :=
  JDict [("type", JStr "full_update"); ("streamers", streamers_to_json sts)].

Definition send_text (ws : WebSocket) (text : string) : M World unit :=
  match ws_send_text env ws text with
  | None => emit (WsSend ws text true)
  | Some e => emit (WsSend ws text false);; raise e
  end.

Definition WS_CLIENTS_remove (d : WebSocket) : M World unit :=
  l ← gets WS_CLIENTS;
  match list_remove d l with
  | Some l' => modify (set_WS_CLIENTS l')
  | None => raise ValueError
  end.

Definition push_update_to_clients : M World unit :=
  sts ← gets (fun w => streamers (store w));
  let payload := full_update sts in
  clients ← gets WS_CLIENTS;
  dead ← for_acc clients [] (fun dead ws =>
            try_except
              (send_text ws (json_dumps env None payload);; mret dead)
              is_Exception
              (mret (dead ++ [ws])));
  for_in dead (fun d =>
    try_except (WS_CLIENTS_remove d) is_ValueError (mret tt);;
    mret Next).

(** *** Discord *)

Definition online_message (login : string) (s : gmap string value) : string :=
  let title := py_or (py_get "title" s) (VStr "is live!") in
  let game := py_or (py_get "game_name" s) (VStr "") in
  let started := iso_to_hhmm (py_get_default "started_at" (VStr "") s) in
  "**" +:+ py_str (py_get_default "display_name" (VStr login) s) +:+ "** went live."
    +:+ nl +:+ nl +:+ "**Title:** " +:+ py_str title
    +:+ nl +:+ "**Game:** " +:+ py_str game
    +:+ nl +:+ "**Live since:** " +:+ py_str started
    +:+ nl +:+ "https://twitch.tv/" +:+ login.

Definition offline_message (login : string) (s : gmap string value) : string :=
  let last := iso_to_hhmm (py_get_default "last_live" (VStr "") s) in
  "**" +:+ py_str (py_get_default "display_name" (VStr login) s)
    +:+ "** went offline at " +:+ py_str last +:+ "."
    +:+ nl +:+ "https://twitch.tv/" +:+ login.

(** [await client.post(webhook, json={"content": desc})] *)
Definition post (webhook : value) (desc : string) : M World unit :=
  emit (HttpPost webhook desc);;
  outcome (httpx_post env webhook desc).

Definition discord_notify_online (login : string) (s : gmap string value) : M World unit :=
  d ← gets (fun w => discord (store w));
  let webhook := py_or (py_get "webhook" d) (VStr "") in
  if negb (truthy webhook) then mret tt
  else
    let desc := online_message login s in
    try_except (post webhook desc) is_Exception (mret tt).

Definition discord_notify_offline (login : string) (s : gmap string value) : M World unit :=
  d ← gets (fun w => discord (store w));
  let webhook := py_or (py_get "webhook" d) (VStr "") in
  if negb (truthy webhook) then mret tt
  else
    let desc := offline_message login s in
    try_except (post webhook desc) is_Exception (mret tt).

(** *** EventSub handlers

    In the loop [for login, s in store["streamers"].items()] the name [s]
    is an alias of the record inside the store: [s[k] = v] changes the
    store.  [setitem] does the change in the store and hands back the
    record as [s] then reads. *)

Definition setitem (login : string) (s : gmap string value) (k : string) (v : value)
    : M World (gmap string value) :=
  modify (set_store (set_streamers (od_alter (insert k v) login)));;
  mret (<[k := v]> s).

Definition persist : M World unit :=
  st ← gets store;
  on_files (save_store st).

Definition on_online (uid started_at : string) : M World unit :=
  items ← gets (fun w => streamers (store w));
  for_in items (fun '(login, s) =>
    if bool_decide (py_get "user_id" s = VStr uid) then
      (s ← setitem login s "is_live" (VBool true);
       s ← setitem login s "started_at" (VStr started_at);
       persist;;
       push_update_to_clients;;
       discord_notify_online login s);;
      mret Break
    else mret Next).

Definition on_offline (uid : string) : M World unit :=
  items ← gets (fun w => streamers (store w));
  for_in items (fun '(login, s) =>
    if bool_decide (py_get "user_id" s = VStr uid) then
      (s ← setitem login s "is_live" (VBool false);
       s ← setitem login s "last_live" (VStr now_iso);
       persist;;
       push_update_to_clients;;
       discord_notify_offline login s);;
      mret Break
    else mret Next).

Definition opt_str_value (o : option string) : value :=
  match o with
  | Some s => VStr s
  | None => VNone
  end.

Definition on_channel_update (uid : string) (title game_id : option string) : M World unit :=
  items ← gets (fun w => streamers (store w));
  for_in items (fun '(login, s) =>
    if bool_decide (py_get "user_id" s = VStr uid) then
      (s ← match title with
           | Some t => setitem login s "title" (VStr t)
           | None => mret s
           end;
       s ← (if truthy (opt_str_value game_id) then
              s ← setitem login s "game_id" (opt_str_value game_id);
              name ← game_name_for game_id;
              setitem login s "game_name" (opt_str_value name)
            else mret s);
       persist;;
       push_update_to_clients);;
      mret Break
    else mret Next).

(** The callback the EventSub socket runs for a notification. *)
Definition handle (ev : Event) : M World unit :=
  match ev with
  | StreamOnline uid started_at => on_online uid started_at
  | StreamOffline uid => on_offline uid
  | ChannelUpdate uid title game_id => on_channel_update uid title game_id
  end.

(** *** EventSub lifecycle *)

Definition es_subscribe (uid : value) (t : Topic) : M World unit :=
  emit (EsSubscribe uid t);;
  outcome (es_listen_topic env uid t);;
  modify (fun w =>
    set_es (match es w with
            | Some e => Some {| subscriptions := subscriptions e ++ [(uid, t)] |}
            | None => None
            end) w).

Definition start_eventsub : M World unit :=
  client ← ensure_twitch_client;
  match client with
  | None => mret tt
  | Some _ =>
      e ← gets es;
      match e with
      | Some _ => mret tt
      | None =>
          emit EsNew;;
          modify (set_es (Some {| subscriptions := [] |}));;
          emit EsListen;;
          outcome (es_listen env);;
          items ← gets (fun w => streamers (store w));
          for_in items (fun '(login, s) =>
            let uid := py_get "user_id" s in
            if negb (truthy uid) then mret Next
            else
              es_subscribe uid stream_online;;
              es_subscribe uid stream_offline;;
              es_subscribe uid channel_update;;
              mret Next);;
          emit EsRun
      end
  end.

(** *** Streamer administration *)

Definition new_record (user_id display_name : string) (last_live : value)
    : gmap string value :=
  list_to_map [
    ("user_id", VStr user_id);
    ("display_name", VStr display_name);
    ("is_live", VBool false);
    ("last_live", last_live);
    ("started_at", VStr "");
    ("title", VStr "");
    ("game_id", VStr "");
    ("game_name", VStr "")
  ].

Definition admin_streamer_add (login : string) : M World Response :=
  let login := str_lower env (str_strip env login) in
  if bool_decide (login = "") then mret (RedirectResponse "/admin" 302)
  else
    user ← resolve_login_to_user login;
    match user with
    | None => mret (PlainTextResponse "User not found" 400)
    | Some (user_id, display_name) =>
        sts ← gets (fun w => streamers (store w));
        let last := py_get_default "last_live" (VStr "") (default ∅ (od_get login sts)) in
        modify (set_store (set_streamers
                  (od_set login (new_record user_id display_name last))));;
        persist;;
        start_eventsub;;
        e ← gets es;
        match e with
        | Some _ =>
            es_subscribe (VStr user_id) stream_online;;
            es_subscribe (VStr user_id) stream_offline;;
            es_subscribe (VStr user_id) channel_update
        | None => mret tt
        end;;
        push_update_to_clients;;
        mret (RedirectResponse "/admin" 302)
    end.

Definition admin_streamer_remove (login : string) : M World Response :=
  let login := str_lower env (str_strip env login) in
  sts ← gets (fun w => streamers (store w));
  (if od_mem login sts then
     modify (set_store (set_streamers (od_del login)));;
     persist;;
     push_update_to_clients
   else mret tt);;
  mret (RedirectResponse "/admin" 302).
End Program.

(** ** A small JSON printer and reader

    Enough of [json.dumps] and [json.loads] to run the program on examples:
    objects, arrays, strings with the common escapes, integers, booleans
    and null.  The properties below hold for any printer and reader; this
    pair serves the examples. *)

Module MiniJson.

Definition dq : ascii := "034"%char.
Definition backslash : ascii := "092"%char.

Fixpoint escape (s : string) : string :=
  match s with
  | EmptyString => EmptyString
  | String c r =>
      if Ascii.eqb c dq then String backslash (String dq (escape r))
      else if Ascii.eqb c backslash then String backslash (String backslash (escape r))
      else if Ascii.eqb c "010"%char then String backslash (String "n"%char (escape r))
      else if Ascii.eqb c "009"%char then String backslash (String "t"%char (escape r))
      else if Ascii.eqb c "013"%char then String backslash (String "r"%char (escape r))
      else String c (escape r)
  end.

Definition quote (s : string) : string :=
  String dq (escape s) +:+ String dq EmptyString.

Fixpoint spaces (n : nat) : string :=
  match n with
  | O => EmptyString
  | S n' => String " "%char (spaces n')
  end.

Fixpoint join (sep : string) (l : list string) : string :=
  match l with
  | [] => EmptyString
  | [x] => x
  | x :: r => x +:+ sep +:+ join sep r
  end.

Definition newline_indent (indent : option nat) (level : nat) : string :=
  match indent with
  | Some n => nl +:+ spaces (n * level)
  | None => EmptyString
  end.

Definition item_separator (indent : option nat) (level : nat) : string :=
  match indent with
  | Some n => "," +:+ nl +:+ spaces (n * level)
  | None => ", "
  end.

Fixpoint dumps_at (indent : option nat) (level : nat) (j : json) : string :=
  match j with
  | JNull => "null"
  | JBool true => "true"
  | JBool false => "false"
  | JInt z => pretty z
  | JStr s => quote s
  | JList [] => "[]"
  | JList l =>
      "[" +:+ newline_indent indent (S level)
        +:+ join (item_separator indent (S level))
              (map (dumps_at indent (S level)) l)
        +:+ newline_indent indent level +:+ "]"
  | JDict [] => "{}"
  | JDict l =>
      "{" +:+ newline_indent indent (S level)
        +:+ join (item_separator indent (S level))
              (map (fun kv => quote (fst kv) +:+ ": "
                                +:+ dumps_at indent (S level) (snd kv)) l)
        +:+ newline_indent indent level +:+ "}"
  end.

Definition dumps (indent : option nat) (j : json) : string :=
  dumps_at indent 0 j.

Fixpoint skip_ws (l : list ascii) : list ascii :=
  match l with
  | c :: r =>
      if Ascii.eqb c " "%char || Ascii.eqb c "010"%char
         || Ascii.eqb c "009"%char || Ascii.eqb c "013"%char
      then skip_ws r else l
  | [] => []
  end.

Fixpoint strip_prefix (p l : list ascii) : option (list ascii) :=
  match p, l with
  | [], _ => Some l
  | a :: p', b :: l' => if Ascii.eqb a b then strip_prefix p' l' else None
  | _ :: _, [] => None
  end.

(** The characters of a string literal after its opening quote. *)
Fixpoint read_string (l : list ascii) (acc : list ascii) : option (string * list ascii) :=
  match l with
  | [] => None
  | c :: r =>
      if Ascii.eqb c dq then Some (string_of_list_ascii (rev acc), r)
      else if Ascii.eqb c backslash then
        match r with
        | e :: r' =>
            if Ascii.eqb e "n"%char then read_string r' ("010"%char :: acc)
            else if Ascii.eqb e "t"%char then read_string r' ("009"%char :: acc)
            else if Ascii.eqb e "r"%char then read_string r' ("013"%char :: acc)
            else if Ascii.eqb e dq || Ascii.eqb e backslash || Ascii.eqb e "/"%char
            then read_string r' (e :: acc)
            else None
        | [] => None
        end
      else read_string r (c :: acc)
  end.

Definition digit_of (c : ascii) : option Z :=
  let n := nat_of_ascii c in
  if ((48 <=? n) && (n <=? 57))%nat then Some (Z.of_nat (n - 48)) else None.

Fixpoint read_digits (l : list ascii) (acc : Z) : Z * list ascii :=
  match l with
  | c :: r =>
      match digit_of c with
      | Some d => read_digits r (10 * acc + d)
      | None => (acc, l)
      end
  | [] => (acc, [])
  end.

(** An integer; a fraction or an exponent is refused. *)
Definition read_int (l : list ascii) : option (Z * list ascii) :=
  let '(neg, l1) := match l with
                    | c :: r => if Ascii.eqb c "-"%char then (true, r) else (false, l)
                    | [] => (false, l)
                    end in
  match l1 with
  | c :: _ =>
      match digit_of c with
      | Some _ =>
          let '(n, rest) := read_digits l1 0 in
          match rest with
          | d :: _ =>
              if Ascii.eqb d "."%char || Ascii.eqb d "e"%char || Ascii.eqb d "E"%char
              then None
              else Some (if neg : bool then - n else n, rest)
          | [] => Some (if neg : bool then - n else n, rest)
          end
      | None => None
      end
  | [] => None
  end.

Fixpoint read_value (fuel : nat) (l : list ascii) : option (json * list ascii) :=
  match fuel with
  | O => None
  | S f =>
      let elements :=
        fix elements (n : nat) (l : list ascii) (acc : list json)
            : option (list json * list ascii) :=
          match n with
          | O => None
          | S n' =>
              match read_value f l with
              | Some (v, r) =>
                  match skip_ws r with
                  | c :: r' =>
                      if Ascii.eqb c ","%char then elements n' r' (v :: acc)
                      else if Ascii.eqb c "]"%char then Some (rev (v :: acc), r')
                      else None
                  | [] => None
                  end
              | None => None
              end
          end in
      let members :=
        fix members (n : nat) (l : list ascii) (acc : list (string * json))
            : option (list (string * json) * list ascii) :=
          match n with
          | O => None
          | S n' =>
              match skip_ws l with
              | q :: l1 =>
                  if Ascii.eqb q dq then
                    match read_string l1 [] with
                    | Some (k, l2) =>
                        match skip_ws l2 with
                        | c :: l3 =>
                            if Ascii.eqb c ":"%char then
                              match read_value f l3 with
                              | Some (v, r) =>
                                  match skip_ws r with
                                  | c' :: r' =>
                                      if Ascii.eqb c' ","%char
                                      then members n' r' ((k, v) :: acc)
                                      else if Ascii.eqb c' "}"%char
                                      then Some (rev ((k, v) :: acc), r')
                                      else None
                                  | [] => None
                                  end
                              | None => None
                              end
                            else None
                        | [] => None
                        end
                    | None => None
                    end
                  else None
              | [] => None
              end
          end in
      match skip_ws l with
      | [] => None
      | c :: r =>
          if Ascii.eqb c "n"%char then
            match strip_prefix (list_ascii_of_string "ull") r with
            | Some r' => Some (JNull, r')
            | None => None
            end
          else if Ascii.eqb c "t"%char then
            match strip_prefix (list_ascii_of_string "rue") r with
            | Some r' => Some (JBool true, r')
            | None => None
            end
          else if Ascii.eqb c "f"%char then
            match strip_prefix (list_ascii_of_string "alse") r with
            | Some r' => Some (JBool false, r')
            | None => None
            end
          else if Ascii.eqb c dq then
            match read_string r [] with
            | Some (s, r') => Some (JStr s, r')
            | None => None
            end
          else if Ascii.eqb c "["%char then
            match skip_ws r with
            | c' :: r' =>
                if Ascii.eqb c' "]"%char then Some (JList [], r')
                else
                  match elements f r [] with
                  | Some (vs, rest) => Some (JList vs, rest)
                  | None => None
                  end
            | [] => None
            end
          else if Ascii.eqb c "{"%char then
            match skip_ws r with
            | c' :: r' =>
                if Ascii.eqb c' "}"%char then Some (JDict [], r')
                else
                  match members f r [] with
                  | Some (kvs, rest) => Some (JDict kvs, rest)
                  | None => None
                  end
            | [] => None
            end
          else
            match read_int (c :: r) with
            | Some (z, rest) => Some (JInt z, rest)
            | None => None
            end
      end
  end.

Definition loads (text : string) : result json :=
  let l := list_ascii_of_string text in
  match read_value (S (length l)) l with
  | Some (j, rest) =>
      match skip_ws rest with
      | [] => Ok j
      | _ :: _ => Raise JSONDecodeError
      end
  | None => Raise JSONDecodeError
  end.

End MiniJson.

(** ** Worked example: the scenario of the specification

    Channel [alice] with id 42, a configured webhook whose endpoint is
    unreachable, three connected browsers of which the second has gone. *)

Module Example.

Definition env0 : Env := {|
  str_strip := ascii_strip;
  str_lower := ascii_lower;
  json_dumps := MiniJson.dumps;
  json_loads := MiniJson.loads;
  utc_now_isoformat := "2024-01-02T03:04:05+00:00";
  fromisoformat_strftime := fun _ => None;
  ws_send_text := fun ws _ =>
    if decide (ws = 2%nat) then Some WebSocketDisconnect else None;
  httpx_post := fun _ _ => Some HTTPError;
  Twitch_new := fun _ _ => None;
  get_users := fun login =>
    if decide (login = "alice") then Ok [("42", "Alice")] else Ok [];
  get_games := fun _ => Ok ["Chess"];
  es_listen := None;
  es_listen_topic := fun _ _ => None
|}.

Definition alice : gmap string value := new_record "42" "Alice" (VStr "").

Definition store0 : Store := {|
  admin_username := "admin";
  admin_password := "changeme";
  twitch_section := {| client_id := "id"; client_secret := "secret";
                       token_obtained_at := 0; expires_in := 0 |};
  discord := {[ "webhook" := VStr "https://discord.example/hook" ]};
  streamers := [("alice", alice)]
|}.

Definition w0 : World := {|
  store := store0;
  files := ∅;
  twitch := None;
  es := None;
  GAME_CACHE := ∅;
  WS_CLIENTS := [1; 2; 3]%nat
|}.

(** The world after a first [live] event: [alice] is live. *)
Definition w_live : World := (on_online env0 "42" "T1" w0).1.2.

(** The world after an [offline] event: [alice] is offline again. *)
Definition w_off : World := (on_offline env0 "42" w_live).1.2.

(** The world once the administrator has removed [alice]. *)
Definition w_removed : World := (admin_streamer_remove env0 "alice" w_off).1.2.

(** Text typed with a no-break space, U+00A0, which [str.strip] takes for
    white space; in UTF-8 it is the two bytes 194 160. *)
Definition nbsp : string := String "194"%char (String "160"%char EmptyString).

(** Leading white space of a UTF-8 text whose only white space outside
    ASCII is the no-break space; [hi] and [lo] are its two bytes in the
    order in which the list meets them. *)
Fixpoint lstrip_utf8 (hi lo : ascii) (l : list ascii) : list ascii :=
  match l with
  | [] => []
  | c :: r =>
      if is_space c then lstrip_utf8 hi lo r
      else
        match r with
        | d :: r' =>
            if Ascii.eqb c hi && Ascii.eqb d lo then lstrip_utf8 hi lo r' else l
        | [] => l
        end
  end.

Definition utf8_strip (s : string) : string :=
  string_of_list_ascii
    (rev (lstrip_utf8 "160"%char "194"%char
            (rev (lstrip_utf8 "194"%char "160"%char (list_ascii_of_string s))))).

(** The same outside world, with the answers of [str.strip] on such
    text. *)
Definition env_utf8 : Env := {|
  str_strip := utf8_strip;
  str_lower := ascii_lower;
  json_dumps := MiniJson.dumps;
  json_loads := MiniJson.loads;
  utc_now_isoformat := utc_now_isoformat env0;
  fromisoformat_strftime := fromisoformat_strftime env0;
  ws_send_text := ws_send_text env0;
  httpx_post := httpx_post env0;
  Twitch_new := Twitch_new env0;
  get_users := get_users env0;
  get_games := get_games env0;
  es_listen := es_listen env0;
  es_listen_topic := es_listen_topic env0
|}.

End Example.

(** ** Vocabulary of the statements *)

(** The first record that an event for [uid] matches. *)
Fixpoint find_uid (uid : string) (sts : odict (gmap string value))
    : option (string * gmap string value) :=
  match sts with
  | [] => None
  | (login, s) :: r =>
      if bool_decide (py_get "user_id" s = VStr uid) then Some (login, s)
      else find_uid uid r
  end.

(** Python dictionaries have one entry per key. *)
Definition od_wf {V} (d : odict V) : Prop := NoDup d.*1.

Definition event_uid (ev : Event) : string :=
  match ev with
  | StreamOnline uid _ => uid
  | StreamOffline uid => uid
  | ChannelUpdate uid _ _ => uid
  end.

(** The configured webhook, as the notifier reads it. *)
Definition webhook_of (st : Store) : value :=
  py_or (py_get "webhook" (discord st)) (VStr "").

(** What is written to disk for a store. *)
Definition persisted_text (env : Env) (st : Store) : string :=
  json_dumps env (Some 2%nat) (store_to_json st).

(** The snapshot message of a registry, spelled out: a JSON object whose
    [type] is ["full_update"] and whose [streamers] member holds, login by
    login and in registry order, every record with all its fields. *)
Definition snapshot_message (sts : odict (gmap string value)) : json :=
  JDict [("type", JStr "full_update");
         ("streamers", JDict (map (fun kv => (kv.1, record_to_json kv.2)) sts))].

Definition broadcast_text (env : Env) (st : Store) : string :=
  json_dumps env None (snapshot_message (streamers st)).

(** [j[k]] on a JSON object. *)
Definition json_member (k : string) (j : json) : option json :=
  match j with
  | JDict l => od_get k l
  | _ => None
  end.

Definition delivered (env : Env) (text : string) (ws : WebSocket) : bool :=
  match ws_send_text env ws text with
  | None => true
  | Some _ => false
  end.

Definition persist_effects (env : Env) (st : Store) : list Effect :=
  [FsWrite STORE_TMP (persisted_text env st); FsReplace STORE_TMP STORE_PATH].

Definition broadcast_effects (env : Env) (st : Store) (clients : list WebSocket)
    : list Effect :=
  map (fun ws => WsSend ws (broadcast_text env st)
                   (delivered env (broadcast_text env st) ws)) clients.

Definition notify_effects (st : Store) (message : string) : list Effect :=
  if truthy (webhook_of st) then [HttpPost (webhook_of st) message] else [].

Definition is_post (e : Effect) : bool :=
  match e with
  | HttpPost _ _ => true
  | _ => false
  end.

Definition is_eventsub (e : Effect) : bool :=
  match e with
  | EsNew | EsListen | EsSubscribe _ _ | EsRun => true
  | _ => false
  end.

(** The files after [save_store]. *)
Definition saved (env : Env) (st : Store) (fs : gmap string string)
    : gmap string string :=
  <[STORE_PATH := persisted_text env st]>
    (delete STORE_TMP (<[STORE_TMP := persisted_text env st]> fs)).

(** The subscribers left after a broadcast of [st]. *)
Definition survivors (env : Env) (st : Store) (clients : list WebSocket)
    : list WebSocket :=
  filter (fun ws => delivered env (broadcast_text env st) ws) clients.

(** The world after persisting and broadcasting its store. *)
Definition committed (env : Env) (w : World) : World :=
  set_WS_CLIENTS (survivors env (store w) (WS_CLIENTS w))
    (set_files (fun fs => saved env (store w) fs) w).

(** [l.remove(d)] for each [d] of [dead], a missing one being skipped. *)
Fixpoint remove_each (dead l : list WebSocket) : list WebSocket :=
  match dead with
  | [] => l
  | d :: ds => remove_each ds (default l (list_remove d l))
  end.

(** A change of the record stored under [login]. *)
Definition on_record (f : gmap string value -> gmap string value) (login : string)
    (w : World) : World :=
  set_store (set_streamers (od_alter f login)) w.

(** The field assignments of the three handlers. *)
Definition live_fields (started_at : string) (s : gmap string value)
    : gmap string value :=
  <["started_at" := VStr started_at]> (<["is_live" := VBool true]> s).

Definition offline_fields (now : string) (s : gmap string value)
    : gmap string value :=
  <["last_live" := VStr now]> (<["is_live" := VBool false]> s).

Definition title_field (title : option string) (s : gmap string value)
    : gmap string value :=
  match title with
  | Some t => <["title" := VStr t]> s
  | None => s
  end.

Definition metadata_fields (title game_id name : option string)
    (s : gmap string value) : gmap string value :=
  if truthy (opt_str_value game_id) then
    <["game_name" := opt_str_value name]>
      (<["game_id" := opt_str_value game_id]> (title_field title s))
  else title_field title s.

(** The invariant of the data model: no two records carry the same
    [user_id]. *)
Definition unique_ids (sts : odict (gmap string value)) : Prop :=
  NoDup ((fun kv => py_get "user_id" kv.2) <$> sts).

(** The world is what the administrator's removal of [login] left of [w0],
    in which [login] was the channel with id [uid]. *)
Definition removed_from (uid : string) (w : World) : Prop :=
  exists (env' : Env) (login : string) (w0 : World) (s : gmap string value),
    od_wf (streamers (store w0))
    ∧ unique_ids (streamers (store w0))
    ∧ od_get (str_lower env' (str_strip env' login)) (streamers (store w0)) = Some s
    ∧ py_get "user_id" s = VStr uid
    ∧ w = (admin_streamer_remove env' login w0).1.2.

Definition is_lookup (e : Effect) : bool :=
  match e with
  | TwitchNew _ _ | GetGames _ | GetUsers _ => true
  | _ => false
  end.

Definition is_persist (e : Effect) : bool :=
  match e with
  | FsWrite _ _ | FsReplace _ _ => true
  | _ => false
  end.

Definition is_send (e : Effect) : bool :=
  match e with
  | WsSend _ _ _ => true
  | _ => false
  end.

(** The webhook POSTs of a trace. *)
Definition posts (tr : list Effect) : list Effect := filter is_post tr.

(** The [is_live] field of the record of [login]. *)
Definition is_live_of (login : string) (w : World) : value :=
  py_get "is_live" (default ∅ (od_get login (streamers (store w)))).

Definition liveness_event (ev : Event) : bool :=
  match ev with
  | StreamOnline _ _ | StreamOffline _ => true
  | ChannelUpdate _ _ _ => false
  end.

(** The lookups an event makes before it commits, and the notification it
    ends with, for the record [s] of [login] that it matches. *)
Definition lookup_effects (env : Env) (ev : Event) (w : World) : list Effect :=
  match ev with
  | ChannelUpdate _ _ gid => (game_name_for env gid w).2
  | _ => []
  end.

Definition notification (env : Env) (ev : Event) (login : string)
    (s : gmap string value) (st : Store) : list Effect :=
  match ev with
  | StreamOnline _ started_at =>
      notify_effects st (online_message env login (live_fields started_at s))
  | StreamOffline _ =>
      notify_effects st
        (offline_message env login (offline_fields (now_iso env) s))
  | ChannelUpdate _ _ _ => []
  end.

(** C1 as the specification words it: with a webhook configured, a live or
    offline event on a tracked channel posts a notification exactly when it
    changes [is_live]. *)
Definition notifies_iff_edge : Prop :=
  forall (env : Env) (ev : Event) (w : World) (login : string)
         (s : gmap string value),
    od_wf (streamers (store w)) ->
    find_uid (event_uid ev) (streamers (store w)) = Some (login, s) ->
    liveness_event ev = true ->
    truthy (webhook_of (store w)) = true ->
    (posts (handle env ev w).2 ≠ []
     <-> is_live_of login (handle env ev w).1.2 ≠ is_live_of login w).

(** C2 as the specification words it: persist, then broadcast, then a
    notification only if [is_live] changed. *)
Definition notifies_last_only_on_edge : Prop :=
  forall (env : Env) (ev : Event) (w : World) (login : string)
         (s : gmap string value),
    od_wf (streamers (store w)) ->
    find_uid (event_uid ev) (streamers (store w)) = Some (login, s) ->
    (handle env ev w).1.1 = Ok tt ->
    let w' := (handle env ev w).1.2 in
    exists note : list Effect,
      (handle env ev w).2
        = lookup_effects env ev w
            ++ persist_effects env (store w')
            ++ broadcast_effects env (store w') (WS_CLIENTS w)
            ++ note
      ∧ Forall is_post note
      ∧ (note ≠ [] -> is_live_of login w' ≠ is_live_of login w).

(** The change an event makes to the record it matches. *)
Definition event_fields (env : Env) (ev : Event) (w : World)
    : gmap string value -> gmap string value :=
  match ev with
  | StreamOnline _ started_at => live_fields started_at
  | StreamOffline _ => offline_fields (now_iso env)
  | ChannelUpdate _ title gid =>
      match (game_name_for env gid w).1.1 with
      | Ok name => metadata_fields title gid name
      | Raise _ =>
          fun s => <["game_id" := opt_str_value gid]> (title_field title s)
      end
  end.

(** The events the EventSub socket delivers, one callback after the other,
    each with the answers the outside world gives during it. *)
Fixpoint run_events (evs : list (Env * Event)) (w : World) : World :=
  match evs with
  | [] => w
  | (env, ev) :: rest => run_events rest (handle env ev w).1.2
  end.

(** Whether [ev] is a live ([true]) or offline ([false]) event for [uid]. *)
Definition liveness_of (uid : string) (ev : Event) : option bool :=
  match ev with
  | StreamOnline u _ => if decide (u = uid) then Some true else None
  | StreamOffline u => if decide (u = uid) then Some false else None
  | ChannelUpdate _ _ _ => None
  end.

(** The kind of the last live or offline event for [uid] in a sequence. *)
Fixpoint last_liveness (uid : string) (evs : list (Env * Event)) : option bool :=
  match evs with
  | [] => None
  | (_, ev) :: rest =>
      match last_liveness uid rest with
      | Some b => Some b
      | None => liveness_of uid ev
      end
  end.

(** The subscriptions [start_eventsub] asks for: the three topics for each
    record with a usable [user_id], in the order of the registry. *)
Definition topics : list Topic := [stream_online; stream_offline; channel_update].

Definition wanted_subscriptions (sts : odict (gmap string value))
    : list (value * Topic) :=
  flat_map (fun kv =>
      let uid := py_get "user_id" kv.2 in
      if truthy uid then map (pair uid) topics else []) sts.

Definition subscribe_effects (subs : list (value * Topic)) : list Effect :=
  map (fun ut => EsSubscribe ut.1 ut.2) subs.

(** ** Properties *)

(** *** The monad *)

Lemma bind_run {S A B} (m : M S A) (f : A -> M S B) (s : S) :
  (m ≫= f) s =
  match m s with
  | (Ok a, s1, t1) => match f a s1 with (r, s2, t2) => (r, s2, t1 ++ t2) end
  | (Raise e, s1, t1) => (Raise e, s1, t1)
  end.
Proof. reflexivity. Qed.

Ltac munfold :=
  unfold mbind, M_bind, mret, M_ret, gets, modify, emit, raise, outcome,
    of_result, try_except.

Lemma set_WS_CLIENTS_same (w : World) : set_WS_CLIENTS (WS_CLIENTS w) w = w.
Proof. destruct w; reflexivity. Qed.

(** *** Broadcast *)

Section Broadcast.
Context (env : Env).

Lemma list_remove_app (d : WebSocket) (pre l : list WebSocket) :
  d ∉ pre -> list_remove d (pre ++ d :: l) = Some (pre ++ l).
Proof.
  induction pre as [|x pre IH]; intros Hd; simpl.
  - rewrite decide_True; done.
  - rewrite decide_False; [|set_solver].
    rewrite IH; [done|set_solver].
Qed.

Lemma remove_each_filter (P : WebSocket -> Prop) `{!forall x, Decision (P x)}
    (pre l : list WebSocket) :
  Forall (fun x => ¬ P x) pre ->
  remove_each (filter P l) (pre ++ l) = pre ++ filter (fun x => ¬ P x) l.
Proof.
  revert pre. induction l as [|x l IH]; intros pre Hpre.
  - done.
  - destruct (decide (P x)) as [Hx|Hx].
    + rewrite filter_cons_True; [|done].
      rewrite (filter_cons_False (fun x => ¬ P x)); [|tauto].
      simpl. rewrite list_remove_app.
      * simpl. by apply IH.
      * intros Hin. rewrite Forall_forall in Hpre. by apply (Hpre x).
    + rewrite filter_cons_False; [|done].
      rewrite (filter_cons_True (fun x => ¬ P x)); [|done].
      rewrite (cons_middle x pre l), app_assoc.
      rewrite IH; [by rewrite <- app_assoc|].
      apply Forall_app; split; [done|by constructor].
Qed.

Lemma send_loop (text : string) (clients dead : list WebSocket) (w : World) :
  for_acc clients dead (fun dead ws =>
      try_except (send_text env ws text;; mret dead) is_Exception
        (mret (dead ++ [ws]))) w
  = (Ok (dead ++ filter (fun ws => ¬ delivered env text ws) clients), w,
     map (fun ws => WsSend ws text (delivered env text ws)) clients).
Proof.
  revert dead. induction clients as [|ws clients IH]; intros dead.
  - simpl. munfold. by rewrite app_nil_r.
  - simpl. rewrite bind_run.
    unfold try_except at 1, send_text at 1.
    rewrite bind_run.
    destruct (ws_send_text env ws text) as [e|] eqn:Hsend.
    + assert (Hd : delivered env text ws = false)
        by (unfold delivered; by rewrite Hsend).
      rewrite filter_cons_True; [|rewrite Hd; simpl; tauto].
      rewrite Hd. munfold. simpl. rewrite IH. by rewrite <- app_assoc.
    + assert (Hd : delivered env text ws = true)
        by (unfold delivered; by rewrite Hsend).
      rewrite filter_cons_False; [|rewrite Hd; simpl; tauto].
      rewrite Hd. munfold. simpl. by rewrite IH.
Qed.

Lemma remove_loop (dead : list WebSocket) (w : World) :
  for_in dead (fun d =>
      try_except (WS_CLIENTS_remove d) is_ValueError (mret tt);; mret Next) w
  = (Ok tt, set_WS_CLIENTS (remove_each dead (WS_CLIENTS w)) w, []).
Proof.
  revert w. induction dead as [|d dead IH]; intros w.
  - simpl. munfold. by rewrite set_WS_CLIENTS_same.
  - simpl. rewrite !bind_run. unfold try_except, WS_CLIENTS_remove.
    rewrite bind_run. unfold gets at 1.
    destruct (list_remove d (WS_CLIENTS w)) as [l'|] eqn:Hrm; munfold; simpl.
    + rewrite IH. by destruct w.
    + rewrite IH. by destruct w.
Qed.

Lemma push_run (w : World) :
  push_update_to_clients env w
  = (Ok tt, set_WS_CLIENTS (survivors env (store w) (WS_CLIENTS w)) w,
     broadcast_effects env (store w) (WS_CLIENTS w)).
Proof.
  unfold push_update_to_clients.
  rewrite bind_run. unfold gets at 1.
  rewrite bind_run. unfold gets at 1.
  rewrite bind_run, send_loop, remove_loop. simpl.
  rewrite (remove_each_filter _ []); [|constructor].
  rewrite app_nil_r. unfold survivors, broadcast_effects, broadcast_text. simpl.
  f_equal. f_equal. f_equal.
  apply list_filter_iff. intros ws. destruct (delivered _ _ ws); simpl; naive_solver.
Qed.
End Broadcast.

(** What a snapshot holds: its [type] is ["full_update"], and under
    [streamers] every tracked login has its record and no other login has
    one. *)
Lemma snapshot_message_members (sts : odict (gmap string value)) :
  json_member "type" (snapshot_message sts) = Some (JStr "full_update")
  ∧ forall login,
      json_member "streamers" (snapshot_message sts) ≫= json_member login
      = record_to_json <$> od_get login sts.
Proof.
  split; [reflexivity|]. intros login.
  change (json_member "streamers" (snapshot_message sts))
    with (Some (JDict (map (fun kv => (kv.1, record_to_json kv.2)) sts))).
  cbn [mbind option_bind json_member].
  induction sts as [|[k s] sts IH]; [done|]. cbn.
  case_decide; [done|exact IH].
Qed.

(** C6. A broadcast in which some sends fail returns normally, every
    subscriber whose send does not fail gets the snapshot -- the
    serialised [full_update] message that holds every record of the
    registry -- and the subscribers left in [WS_CLIENTS] are exactly those
    whose send did not fail (in their order); nothing else of the process
    changes. *)
Theorem broadcast_tolerates_failures (env : Env) (w : World) :
  let text := json_dumps env None (snapshot_message (streamers (store w))) in
  let w' := (push_update_to_clients env w).1.2 in
  let tr := (push_update_to_clients env w).2 in
  (push_update_to_clients env w).1.1 = Ok tt
  ∧ tr = map (fun ws => WsSend ws text (delivered env text ws)) (WS_CLIENTS w)
  ∧ (forall ws, ws ∈ WS_CLIENTS w -> ws_send_text env ws text = None ->
       WsSend ws text true ∈ tr)
  ∧ (forall ws, ws ∈ WS_CLIENTS w' <->
       ws ∈ WS_CLIENTS w ∧ ws_send_text env ws text = None)
  ∧ WS_CLIENTS w' = filter (fun ws => delivered env text ws) (WS_CLIENTS w)
  ∧ store w' = store w ∧ files w' = files w ∧ twitch w' = twitch w
  ∧ es w' = es w ∧ GAME_CACHE w' = GAME_CACHE w.
Proof.
  intros text w' tr. subst w' tr. rewrite push_run. simpl.
  unfold broadcast_effects, survivors, broadcast_text. fold text.
  assert (Hd : forall ws, delivered env text ws <-> ws_send_text env ws text = None).
  { intros ws. unfold delivered.
    destruct (ws_send_text env ws text); simpl; split; try done. }
  split; [done|]. split; [done|]. split.
  { intros ws Hin Hok. apply list_elem_of_fmap. exists ws. split; [|done].
    apply Hd in Hok. by destruct (delivered env text ws). }
  split; [|done].
  intros ws. rewrite list_elem_of_filter, Hd. tauto.
Qed.

(** *** Notifier *)

Section Notifier.
Context (env : Env).

Lemma post_swallowed (hook : value) (desc : string) (w : World) :
  try_except (post env hook desc) is_Exception (mret tt) w
  = (Ok tt, w, [HttpPost hook desc]).
Proof.
  unfold try_except, post. rewrite bind_run. unfold emit.
  destruct (httpx_post env hook desc); reflexivity.
Qed.

Lemma notify_online_run (login : string) (s : gmap string value) (w : World) :
  discord_notify_online env login s w
  = (Ok tt, w, notify_effects (store w) (online_message env login s)).
Proof.
  unfold discord_notify_online, notify_effects, webhook_of.
  rewrite bind_run. unfold gets at 1.
  destruct (truthy _) eqn:Ht; simpl.
  - by rewrite post_swallowed.
  - reflexivity.
Qed.

Lemma notify_offline_run (login : string) (s : gmap string value) (w : World) :
  discord_notify_offline env login s w
  = (Ok tt, w, notify_effects (store w) (offline_message env login s)).
Proof.
  unfold discord_notify_offline, notify_effects, webhook_of.
  rewrite bind_run. unfold gets at 1.
  destruct (truthy _) eqn:Ht; simpl.
  - by rewrite post_swallowed.
  - reflexivity.
Qed.
End Notifier.

(** C7. The notifier, for [went_live] and for [went_offline]: without a
    configured webhook it does nothing at all; with one it makes a single
    POST, and whatever that POST does (it may raise) the call returns
    normally and leaves the whole process state, the registry included, as
    it was. *)
Theorem notifier_never_raises (env : Env) (login : string)
    (s : gmap string value) (w : World) :
  let hook := webhook_of (store w) in
  discord_notify_online env login s w
    = (Ok tt, w,
       if truthy hook then [HttpPost hook (online_message env login s)] else [])
  ∧ discord_notify_offline env login s w
    = (Ok tt, w,
       if truthy hook then [HttpPost hook (offline_message env login s)] else []).
Proof.
  intros hook. split.
  - apply notify_online_run.
  - apply notify_offline_run.
Qed.

(** *** Storage *)

Section Storage.
Context (env : Env).

Lemma save_store_run (st : Store) (fs : gmap string string) :
  save_store env st fs = (Ok tt, saved env st fs, persist_effects env st).
Proof.
  unfold save_store, write_text, path_replace.
  rewrite !bind_run. unfold emit at 1, modify at 1, gets at 1.
  cbv beta iota. rewrite bind_run. cbv beta iota. unfold id.
  rewrite lookup_insert_eq. reflexivity.
Qed.

Lemma persist_run (w : World) :
  persist env w
  = (Ok tt, set_files (fun fs => saved env (store w) fs) w,
     persist_effects env (store w)).
Proof.
  unfold persist, on_files. rewrite bind_run. unfold gets at 1.
  rewrite save_store_run. reflexivity.
Qed.
End Storage.

(** *** Ordered dictionaries *)

Section Odict.
Context {V : Type}.
Implicit Types (d : odict V) (k : string).

Lemma od_alter_keys (f : V -> V) k d : (od_alter f k d).*1 = d.*1.
Proof.
  induction d as [|[k' v'] d IH]; [done|]. simpl.
  case_decide; csimpl; [done|by rewrite IH].
Qed.

Lemma od_alter_wf (f : V -> V) k d : od_wf d -> od_wf (od_alter f k d).
Proof. unfold od_wf. by rewrite od_alter_keys. Qed.

Lemma od_alter_alter (f g : V -> V) k d :
  od_alter g k (od_alter f k d) = od_alter (fun v => g (f v)) k d.
Proof.
  induction d as [|[k' v'] d IH]; [done|]. simpl.
  case_decide as Hk; simpl.
  - by rewrite decide_True.
  - rewrite decide_False; [|done]. by rewrite IH.
Qed.

Lemma od_get_alter (f : V -> V) k d :
  od_get k (od_alter f k d) = f <$> od_get k d.
Proof.
  induction d as [|[k' v'] d IH]; [done|]. simpl.
  case_decide as Hk; simpl.
  - by rewrite decide_True.
  - by rewrite decide_False.
Qed.

Lemma od_get_alter_ne (f : V -> V) k k' d :
  k ≠ k' -> od_get k' (od_alter f k d) = od_get k' d.
Proof.
  intros Hne. induction d as [|[k0 v0] d IH]; [done|]. simpl.
  case_decide as Hk; simpl.
  - subst k0. case_decide; [congruence|done].
  - case_decide; [done|apply IH].
Qed.

Lemma od_get_None k d : k ∉ d.*1 -> od_get k d = None.
Proof.
  induction d as [|[k' v'] d IH]; [done|]. csimpl. intros Hk.
  apply not_elem_of_cons in Hk as [Hne Hk].
  rewrite decide_False; [by apply IH|done].
Qed.

Lemma od_get_elem k (v : V) d : od_wf d -> (k, v) ∈ d -> od_get k d = Some v.
Proof.
  unfold od_wf. induction d as [|[k' v'] d IH]; simpl; intros Hwf Hin.
  - by apply elem_of_nil in Hin.
  - apply NoDup_cons in Hwf as [Hk' Hwf].
    apply elem_of_cons in Hin as [Heq|Hin].
    + inversion Heq; subst. by rewrite decide_True.
    + rewrite decide_False; [by apply IH|].
      intros ->. apply Hk'. apply list_elem_of_fmap. by exists (k', v).
Qed.

Lemma od_get_Some_elem k (v : V) d : od_get k d = Some v -> (k, v) ∈ d.
Proof.
  induction d as [|[k' v'] d IH]; [done|]. simpl.
  case_decide as Hk.
  - intros [= ->]. subst. apply elem_of_cons. by left.
  - intros H. apply elem_of_cons. right. by apply IH.
Qed.

Lemma od_del_keys k d : od_wf d -> k ∉ (od_del k d).*1.
Proof.
  unfold od_wf. induction d as [|[k' v'] d IH]; simpl; intros Hwf.
  - apply not_elem_of_nil.
  - apply NoDup_cons in Hwf as [Hk' Hwf]. case_decide as Hk.
    + by subst.
    + simpl. apply not_elem_of_cons. split; [done|by apply IH].
Qed.

Lemma od_del_subseteq k d : od_del k d ⊆ d.
Proof.
  induction d as [|[k' v'] d IH]; [done|]. simpl.
  case_decide; intros x Hx.
  - apply elem_of_cons. by right.
  - apply elem_of_cons in Hx as [->|Hx]; apply elem_of_cons; [by left|].
    right. by apply IH.
Qed.

Lemma od_del_wf k d : od_wf d -> od_wf (od_del k d).
Proof.
  unfold od_wf. induction d as [|[k' v'] d IH]; simpl; [done|]. intros Hwf.
  apply NoDup_cons in Hwf as [Hk' Hwf]. case_decide as Hk; [done|].
  simpl. apply NoDup_cons. split; [|by apply IH].
  intros Hin. apply Hk'.
  apply list_elem_of_fmap in Hin as [[k0 v0] [-> Hin]].
  apply list_elem_of_fmap. exists (k0, v0). split; [done|].
  by apply (od_del_subseteq k d).
Qed.

Lemma od_get_set k (v : V) d : od_get k (od_set k v d) = Some v.
Proof.
  induction d as [|[k' v'] d IH]; simpl.
  - by rewrite decide_True.
  - case_decide as Hk; simpl.
    + by rewrite decide_True.
    + by rewrite decide_False.
Qed.

Lemma od_get_set_ne k k' (v : V) d :
  k ≠ k' -> od_get k' (od_set k v d) = od_get k' d.
Proof.
  intros Hne. induction d as [|[k0 v0] d IH]; simpl.
  - rewrite decide_False; [done|congruence].
  - case_decide as Hk; simpl.
    + subst k0. case_decide; [congruence|done].
    + case_decide; [done|apply IH].
Qed.
End Odict.

(** *** The handlers' loop *)

Lemma find_uid_elem (uid login : string) (s : gmap string value)
    (sts : odict (gmap string value)) :
  find_uid uid sts = Some (login, s) ->
  (login, s) ∈ sts ∧ py_get "user_id" s = VStr uid.
Proof.
  induction sts as [|[l0 s0] sts IH]; [done|]. simpl.
  case_bool_decide as Hm.
  - intros [= -> ->]. split; [apply elem_of_cons; by left|done].
  - intros H. destruct (IH H) as [Hin Hs]. split; [|done].
    apply elem_of_cons. by right.
Qed.

Lemma find_uid_None (uid : string) (sts : odict (gmap string value)) :
  find_uid uid sts = None <->
  forall login s, (login, s) ∈ sts -> py_get "user_id" s ≠ VStr uid.
Proof.
  induction sts as [|[l0 s0] sts IH]; simpl.
  - split; [|done]. intros _ login s Hin. by apply elem_of_nil in Hin.
  - case_bool_decide as Hm.
    + split; [done|]. intros H. exfalso. apply (H l0 s0); [|done].
      apply elem_of_cons. by left.
    + rewrite IH. split.
      * intros H login s Hin. apply elem_of_cons in Hin as [[= -> ->]|Hin]; [done|].
        by apply (H login s).
      * intros H login s Hin. apply (H login s). apply elem_of_cons. by right.
Qed.

Lemma for_in_find (uid : string) (k : string -> gmap string value -> M World unit)
    (items : odict (gmap string value)) (w : World) :
  for_in items (fun '(login, s) =>
      if bool_decide (py_get "user_id" s = VStr uid) then k login s;; mret Break
      else mret Next) w
  = match find_uid uid items with
    | Some (login, s) => k login s w
    | None => (Ok tt, w, [])
    end.
Proof.
  induction items as [|[l0 s0] items IH]; [done|]. simpl.
  rewrite bind_run. case_bool_decide as Hm.
  - rewrite bind_run. destruct (k l0 s0 w) as [[[[]|e] w'] t]; simpl.
    + by rewrite !app_nil_r.
    + done.
  - change ((mret Next : M World flow) w) with (Ok Next, w, @nil Effect).
    cbv beta iota.
    rewrite IH.
    destruct (find_uid uid items) as [[login s]|]; [|done].
    by destruct (k login s w) as [[r w'] t].
Qed.

Lemma setitem_run (login : string) (s : gmap string value) (k : string) (v : value)
    (w : World) :
  setitem login s k v w = (Ok (<[k := v]> s), on_record (insert k v) login w, []).
Proof. reflexivity. Qed.

Lemma on_record_on_record (f g : gmap string value -> gmap string value)
    (login : string) (w : World) :
  on_record g login (on_record f login w) = on_record (fun s => g (f s)) login w.
Proof.
  unfold on_record, set_store, set_streamers. simpl. by rewrite od_alter_alter.
Qed.

Section Handlers.
Context (env : Env).

(** What [on_online] does, whether or not the channel is tracked. *)
Lemma on_online_run (uid started_at : string) (w : World) :
  on_online env uid started_at w
  = match find_uid uid (streamers (store w)) with
    | None => (Ok tt, w, [])
    | Some (login, s) =>
        let w1 := on_record (live_fields started_at) login w in
        (Ok tt, committed env w1,
         persist_effects env (store w1)
           ++ broadcast_effects env (store w1) (WS_CLIENTS w)
           ++ notify_effects (store w1)
                (online_message env login (live_fields started_at s)))
    end.
Proof.
  unfold on_online. rewrite bind_run. unfold gets at 1. cbv beta iota.
  rewrite for_in_find.
  destruct (find_uid uid (streamers (store w))) as [[login s]|]; [|done].
  repeat (rewrite bind_run;
          first [rewrite setitem_run | rewrite persist_run | rewrite push_run];
          cbv beta iota).
  rewrite notify_online_run, on_record_on_record. reflexivity.
Qed.

(** What [on_offline] does, whether or not the channel is tracked. *)
Lemma on_offline_run (uid : string) (w : World) :
  on_offline env uid w
  = match find_uid uid (streamers (store w)) with
    | None => (Ok tt, w, [])
    | Some (login, s) =>
        let w1 := on_record (offline_fields (now_iso env)) login w in
        (Ok tt, committed env w1,
         persist_effects env (store w1)
           ++ broadcast_effects env (store w1) (WS_CLIENTS w)
           ++ notify_effects (store w1)
                (offline_message env login (offline_fields (now_iso env) s)))
    end.
Proof.
  unfold on_offline. rewrite bind_run. unfold gets at 1. cbv beta iota.
  rewrite for_in_find.
  destruct (find_uid uid (streamers (store w))) as [[login s]|]; [|done].
  repeat (rewrite bind_run;
          first [rewrite setitem_run | rewrite persist_run | rewrite push_run];
          cbv beta iota).
  rewrite notify_offline_run, on_record_on_record. reflexivity.
Qed.
End Handlers.

(** *** Lookups leave the registry alone *)

Lemma od_alter_id {V} (k : string) (d : odict V) : od_alter (fun v => v) k d = d.
Proof.
  induction d as [|[k' v'] d IH]; [done|]. simpl.
  case_decide; [done|by rewrite IH].
Qed.

Lemma on_record_id (login : string) (w : World) : on_record (fun s => s) login w = w.
Proof.
  unfold on_record, set_store, set_streamers. rewrite od_alter_id.
  by destruct w as [[] ? ? ? ? ?].
Qed.

Section Lookups.
Context (env : Env).

Lemma ensure_twitch_client_frame (f : gmap string value -> gmap string value)
    (login : string) (w : World) :
  ensure_twitch_client env (on_record f login w)
  = match ensure_twitch_client env w with
    | (r, w', t) => (r, on_record f login w', t)
    end.
Proof.
  destruct w as [[au ap [cid csec ta ex] dc sts] fs tw e gc cl].
  unfold ensure_twitch_client. munfold. cbn.
  destruct (bool_decide (cid = "") || bool_decide (csec = "")); [done|].
  destruct tw; [done|].
  by destruct (Twitch_new env cid csec).
Qed.

Lemma ensure_twitch_client_keeps (w : World) :
  match ensure_twitch_client env w with
  | (r, w', t) =>
      store w' = store w ∧ files w' = files w ∧ es w' = es w
      ∧ WS_CLIENTS w' = WS_CLIENTS w ∧ GAME_CACHE w' = GAME_CACHE w
      ∧ Forall is_lookup t
      ∧ (forall c, r = Ok (Some c) -> twitch w' = Some c)
      ∧ (is_Some (twitch w) -> w' = w ∧ t = [] ∧ exists o, r = Ok o)
  end.
Proof.
  destruct w as [[au ap [cid csec ta ex] dc sts] fs tw e gc cl].
  unfold ensure_twitch_client. munfold. cbn.
  destruct (bool_decide (cid = "") || bool_decide (csec = "")).
  { split_and!; try done. intros _. split_and!; try done. by exists None. }
  destruct tw as [c|].
  { split_and!; try done.
    - by intros c' [= <-].
    - intros _. split_and!; try done. by exists (Some c). }
  destruct (Twitch_new env cid csec); cbn.
  - split_and!; try done; try (by repeat constructor); by intros [? ?].
  - split_and!; try done; try (by repeat constructor);
      try (by intros [? ?]); by intros c [= <-].
Qed.

Lemma game_name_for_frame (f : gmap string value -> gmap string value)
    (login : string) (g : option string) (w : World) :
  game_name_for env g (on_record f login w)
  = match game_name_for env g w with
    | (r, w', t) => (r, on_record f login w', t)
    end.
Proof.
  unfold game_name_for. destruct g as [g|]; [|done].
  destruct (bool_decide (g = "")); [done|].
  rewrite !bind_run. unfold gets. cbv beta iota.
  change (GAME_CACHE (on_record f login w)) with (GAME_CACHE w).
  destruct (GAME_CACHE w !! g) as [name|]; [done|].
  rewrite !bind_run, ensure_twitch_client_frame.
  destruct (ensure_twitch_client env w) as [[[[c|]|e] w'] t]; try done.
  munfold. simpl. destruct (get_games env g) as [[|name names]|e]; done.
Qed.

Lemma game_name_for_falsy (g : option string) (w : World) :
  truthy (opt_str_value g) = false -> game_name_for env g w = (Ok None, w, []).
Proof.
  destruct g as [g|]; [|done]. simpl. unfold game_name_for.
  by destruct (bool_decide (g = "")).
Qed.

Lemma game_name_for_keeps (g : option string) (w : World) :
  match game_name_for env g w with
  | (r, w', t) =>
      store w' = store w ∧ files w' = files w ∧ es w' = es w
      ∧ WS_CLIENTS w' = WS_CLIENTS w
      ∧ Forall is_lookup t
  end.
Proof.
  unfold game_name_for. destruct g as [g|]; [|by repeat split].
  destruct (bool_decide (g = "")); [by repeat split|].
  rewrite bind_run. unfold gets at 1. cbv beta iota.
  destruct (GAME_CACHE w !! g) as [name|]; [by repeat split|].
  rewrite bind_run.
  pose proof (ensure_twitch_client_keeps w) as Hk.
  destruct (ensure_twitch_client env w) as [[[[c|]|e] w'] t];
    destruct Hk as (Hs & Hf & He & Hc & _ & Ht & _).
  - munfold. simpl. destruct (get_games env g) as [[|name names]|e]; simpl;
      (repeat split; try done);
      apply Forall_app; (split; [done|by repeat constructor]).
  - simpl. rewrite app_nil_r. by repeat split.
  - by repeat split.
Qed.
End Lookups.

Section ChannelUpdate.
Context (env : Env).

(** What [on_channel_update] does, whether or not the channel is tracked;
    the category lookup runs first and may raise. *)
Lemma on_channel_update_run (uid : string) (title gid : option string) (w : World) :
  on_channel_update env uid title gid w
  = match find_uid uid (streamers (store w)) with
    | None => (Ok tt, w, [])
    | Some (login, s) =>
        match game_name_for env gid w with
        | (Ok name, wg, t) =>
            let w1 := on_record (metadata_fields title gid name) login wg in
            (Ok tt, committed env w1,
             t ++ persist_effects env (store w1)
               ++ broadcast_effects env (store w1) (WS_CLIENTS wg))
        | (Raise e, wg, t) =>
            (Raise e,
             on_record (fun s => <["game_id" := opt_str_value gid]> (title_field title s))
               login wg,
             t)
        end
    end.
Proof.
  unfold on_channel_update. rewrite bind_run. unfold gets at 1. cbv beta iota.
  rewrite for_in_find.
  destruct (find_uid uid (streamers (store w))) as [[login s]|]; [|done].
  assert (Htitle : forall w0,
    match title with
    | Some t => setitem login s "title" (VStr t)
    | None => mret s
    end w0 = (Ok (title_field title s), on_record (title_field title) login w0, [])).
  { intros w0. destruct title as [t|]; [done|].
    unfold title_field. by rewrite on_record_id. }
  rewrite bind_run, Htitle. cbv beta iota.
  unfold metadata_fields.
  destruct (truthy (opt_str_value gid)) eqn:Hg.
  - rewrite !bind_run, setitem_run. cbv beta iota.
    rewrite on_record_on_record, bind_run, game_name_for_frame.
    destruct (game_name_for env gid w) as [[[name|e] wg] t]; [|done].
    cbv beta iota. rewrite setitem_run, on_record_on_record. cbv beta iota.
    rewrite bind_run, persist_run. cbv beta iota. rewrite push_run.
    cbn. by rewrite !app_nil_r.
  - rewrite (game_name_for_falsy env gid w Hg).
    rewrite bind_run. change ((mret (title_field title s) : M World _)
      (on_record (title_field title) login w))
      with (Ok (title_field title s), on_record (title_field title) login w, @nil Effect).
    cbv beta iota. rewrite bind_run, persist_run. cbv beta iota. rewrite push_run.
    reflexivity.
Qed.
End ChannelUpdate.

(** *** Events for channels that are not tracked *)

Lemma admin_streamer_remove_run (env : Env) (login : string) (w : World) :
  admin_streamer_remove env login w
  = if od_mem (str_lower env (str_strip env login)) (streamers (store w)) then
      let w1 := set_store (set_streamers (od_del (str_lower env (str_strip env login)))) w in
      (Ok (RedirectResponse "/admin" 302), committed env w1,
       persist_effects env (store w1)
         ++ broadcast_effects env (store w1) (WS_CLIENTS w))
    else (Ok (RedirectResponse "/admin" 302), w, []).
Proof.
  unfold admin_streamer_remove. rewrite bind_run. unfold gets at 1. cbv beta iota.
  destruct (od_mem _ _).
  - rewrite !bind_run. unfold modify at 1. cbv beta iota.
    rewrite bind_run, persist_run. cbv beta iota. rewrite push_run.
    cbn. by rewrite !app_nil_r.
  - reflexivity.
Qed.

Lemma unique_ids_elem (sts : odict (gmap string value))
    (l1 l2 : string) (s1 s2 : gmap string value) :
  unique_ids sts -> (l1, s1) ∈ sts -> (l2, s2) ∈ sts ->
  py_get "user_id" s1 = py_get "user_id" s2 -> (l1, s1) = (l2, s2).
Proof.
  unfold unique_ids. induction sts as [|[l0 s0] sts IH]; csimpl; intros Hu H1 H2 Heq.
  - by apply elem_of_nil in H1.
  - apply NoDup_cons in Hu as [Hnew Hu].
    apply elem_of_cons in H1 as [H1|H1]; apply elem_of_cons in H2 as [H2|H2].
    + congruence.
    + inversion H1; subst. exfalso. apply Hnew.
      apply list_elem_of_fmap. exists (l2, s2). by split.
    + inversion H2; subst. exfalso. apply Hnew.
      apply list_elem_of_fmap. exists (l1, s1). by split.
    + by apply IH.
Qed.

Lemma removed_channel_unknown (uid : string) (w : World) :
  removed_from uid w -> find_uid uid (streamers (store w)) = None.
Proof.
  intros (env' & login & w0 & s & Hwf & Hu & Hget & Hs & ->).
  rewrite admin_streamer_remove_run. unfold od_mem. rewrite Hget. cbn.
  apply find_uid_None. intros l' s' Hin Hid.
  assert (Hin0 : (l', s') ∈ streamers (store w0)) by by apply (od_del_subseteq _ _ _ Hin).
  apply od_get_Some_elem in Hget.
  assert (Heq : (l', s') = (str_lower env' (str_strip env' login), s)).
  { apply (unique_ids_elem _ _ _ _ _ Hu Hin0 Hget). congruence. }
  inversion Heq; subst.
  apply (od_del_keys (str_lower env' (str_strip env' login)) (streamers (store w0)) Hwf).
  apply list_elem_of_fmap. by exists (str_lower env' (str_strip env' login), s).
Qed.

(** C3. An event whose channel id matches no tracked record -- in
    particular one that arrives after the administrator removed the channel
    that carried the id -- returns normally, leaves the whole process state
    as it was and makes no outside call: nothing is written, nothing is
    sent, nothing is posted. *)
Theorem unknown_channel_is_noop (env : Env) (ev : Event) (w : World) :
  find_uid (event_uid ev) (streamers (store w)) = None
    ∨ removed_from (event_uid ev) w ->
  handle env ev w = (Ok tt, w, []).
Proof.
  intros H.
  assert (Hnone : find_uid (event_uid ev) (streamers (store w)) = None).
  { destruct H as [H|H]; [done|by apply removed_channel_unknown]. }
  destruct ev as [uid started|uid|uid title gid]; simpl in *.
  - rewrite on_online_run. by rewrite Hnone.
  - rewrite on_offline_run. by rewrite Hnone.
  - rewrite on_channel_update_run. by rewrite Hnone.
Qed.

Lemma unknown_channel_is_noop_witness :
  handle Example.env0 (StreamOnline "42" "T3") Example.w_removed
  = (Ok tt, Example.w_removed, []).
Proof.
  apply unknown_channel_is_noop. right.
  exists Example.env0, "alice", Example.w_off,
    (offline_fields "2024-01-02T03:04:05+00:00" (live_fields "T1" Example.alice)).
  split_and!.
  - unfold od_wf. vm_compute. apply NoDup_singleton.
  - unfold unique_ids. vm_compute. apply NoDup_singleton.
  - vm_compute. reflexivity.
  - vm_compute. reflexivity.
  - reflexivity.
Defined.

(** *** Which effects a trace holds *)

Lemma posts_app (t1 t2 : list Effect) : posts (t1 ++ t2) = posts t1 ++ posts t2.
Proof. apply filter_app. Qed.

Lemma posts_broadcast (env : Env) (st : Store) (clients : list WebSocket) :
  posts (broadcast_effects env st clients) = [].
Proof. induction clients as [|ws clients IH]; [done|]. exact IH. Qed.

Lemma posts_notify (st : Store) (message : string) :
  posts (notify_effects st message) = notify_effects st message.
Proof. unfold notify_effects. by destruct (truthy _). Qed.

Lemma posts_lookups (t : list Effect) : Forall is_lookup t -> posts t = [].
Proof.
  induction 1 as [|e t He _ IH]; [done|].
  unfold posts. rewrite filter_cons_False; [exact IH|].
  destruct e; simpl in *; tauto.
Qed.

Lemma notify_effects_posts (st : Store) (message : string) :
  Forall is_post (notify_effects st message).
Proof. unfold notify_effects. destruct (truthy _); by repeat constructor. Qed.

(** *** Notifications and liveness edges *)

(** C1, as the specification words it, fails: a live event for a channel
    that is already live changes nothing in [is_live] and is posted to the
    webhook all the same. *)
Lemma repeated_live_notifies_again :
  let ev := StreamOnline "42" "T2" in
  let w := Example.w_live in
  is_live_of "alice" w = VBool true
  ∧ is_live_of "alice" (handle Example.env0 ev w).1.2 = VBool true
  ∧ posts (handle Example.env0 ev w).2
    = [HttpPost (VStr "https://discord.example/hook")
         (online_message Example.env0 "alice"
            (live_fields "T2" (live_fields "T1" Example.alice)))]
  ∧ ¬ notifies_iff_edge.
Proof.
  split_and!; [by vm_compute..|].
  intros H.
  specialize (H Example.env0 (StreamOnline "42" "T2") Example.w_live "alice"
                (live_fields "T1" Example.alice)).
  destruct H as [H _].
  - unfold od_wf. vm_compute. apply NoDup_singleton.
  - by vm_compute.
  - done.
  - by vm_compute.
  - apply H; by vm_compute.
Qed.

(** C1, amended. Every live or offline event on a tracked channel runs the
    notifier once, whatever [is_live] was before: its POSTs are exactly the
    notifier's -- the live message for a live event, the offline message
    for an offline event, built from the record as just updated -- so with
    a webhook configured there is one POST per event and without one there
    is none. *)
Theorem notifies_on_every_liveness_event (env : Env) (ev : Event) (w : World)
    (login : string) (s : gmap string value) :
  find_uid (event_uid ev) (streamers (store w)) = Some (login, s) ->
  liveness_event ev = true ->
  posts (handle env ev w).2 = notification env ev login s (store w)
  ∧ (truthy (webhook_of (store w)) = true ->
       exists message, posts (handle env ev w).2
                       = [HttpPost (webhook_of (store w)) message])
  ∧ (truthy (webhook_of (store w)) = false -> posts (handle env ev w).2 = []).
Proof.
  intros Hfind Hev.
  assert (Hposts : posts (handle env ev w).2 = notification env ev login s (store w)).
  { destruct ev as [uid started|uid|uid title gid]; [| |done]; simpl in *.
    - rewrite on_online_run, Hfind. cbn [snd].
      by rewrite !posts_app, posts_broadcast, posts_notify.
    - rewrite on_offline_run, Hfind. cbn [snd].
      by rewrite !posts_app, posts_broadcast, posts_notify. }
  rewrite Hposts. split; [done|].
  destruct ev as [uid started|uid|uid title gid]; [| |done];
    unfold notification, notify_effects; split; intros ->; eauto.
Qed.

Lemma notifies_on_every_liveness_event_witness :
  posts (handle Example.env0 (StreamOnline "42" "T2") Example.w_live).2
  = notification Example.env0 (StreamOnline "42" "T2") "alice"
      (live_fields "T1" Example.alice) (store Example.w_live)
  ∧ (truthy (webhook_of (store Example.w_live)) = true ->
       exists message,
         posts (handle Example.env0 (StreamOnline "42" "T2") Example.w_live).2
         = [HttpPost (webhook_of (store Example.w_live)) message])
  ∧ (truthy (webhook_of (store Example.w_live)) = false ->
       posts (handle Example.env0 (StreamOnline "42" "T2") Example.w_live).2 = []).
Proof.
  apply notifies_on_every_liveness_event.
  - vm_compute. reflexivity.
  - reflexivity.
Defined.

(** *** The order of a commit *)

Lemma filter_none (P : Effect -> bool) (t : list Effect) :
  Forall (fun e => P e = false) t -> filter P t = [].
Proof.
  induction 1 as [|e t He _ IH]; [done|].
  rewrite filter_cons_False; [exact IH|]. rewrite He. simpl. tauto.
Qed.

Lemma filter_all (P : Effect -> bool) (t : list Effect) :
  Forall (fun e => P e = true) t -> filter P t = t.
Proof.
  induction 1 as [|e t He _ IH]; [done|].
  rewrite filter_cons_True; [by rewrite IH|]. by rewrite He.
Qed.

Lemma broadcast_effects_sends (env : Env) (st : Store) (clients : list WebSocket) :
  Forall (fun e => is_send e = true ∧ is_persist e = false ∧ is_post e = false)
    (broadcast_effects env st clients).
Proof. induction clients as [|ws clients IH]; by constructor. Qed.

Lemma notify_effects_kind (st : Store) (message : string) :
  Forall (fun e => is_send e = false ∧ is_persist e = false ∧ is_post e = true)
    (notify_effects st message).
Proof. unfold notify_effects. destruct (truthy _); by repeat constructor. Qed.

Lemma lookups_kind (t : list Effect) :
  Forall is_lookup t ->
  Forall (fun e => is_send e = false ∧ is_persist e = false ∧ is_post e = false) t.
Proof. intros H. eapply Forall_impl; [exact H|]. intros e He. by destruct e. Qed.

Lemma committed_trace (env : Env) (st : Store) (clients : list WebSocket)
    (lookups note : list Effect) :
  Forall is_lookup lookups ->
  Forall (fun e => is_send e = false ∧ is_persist e = false ∧ is_post e = true) note ->
  let tr := lookups ++ persist_effects env st
              ++ broadcast_effects env st clients ++ note in
  filter is_persist tr = persist_effects env st
  ∧ filter is_send tr = broadcast_effects env st clients.
Proof.
  intros Hl Hn tr. subst tr. apply lookups_kind in Hl.
  pose proof (broadcast_effects_sends env st clients) as Hb.
  rewrite !filter_app.
  rewrite (filter_none is_persist lookups), (filter_none is_send lookups);
    [|eapply Forall_impl; [exact Hl|by intros e (?&?&?)]..].
  rewrite (filter_none is_persist (broadcast_effects _ _ _)),
    (filter_all is_send (broadcast_effects _ _ _));
    [|eapply Forall_impl; [exact Hb|by intros e (?&?&?)]..].
  rewrite (filter_none is_persist note), (filter_none is_send note);
    [|eapply Forall_impl; [exact Hn|by intros e (?&?&?)]..].
  change (filter (fun e => is_persist e) (persist_effects env st))
    with (persist_effects env st).
  change (filter (fun e => is_send e) (persist_effects env st)) with (@nil Effect).
  by rewrite !app_nil_r.
Qed.

(** C2, as the specification words it, fails: an offline event for a
    channel that is already offline is persisted, broadcast and then posted
    to the webhook although [is_live] did not change. *)
Lemma repeated_offline_notifies_last :
  let ev := StreamOffline "42" in
  let w := Example.w_off in
  let w' := (handle Example.env0 ev w).1.2 in
  is_live_of "alice" w = VBool false
  ∧ is_live_of "alice" w' = VBool false
  ∧ (handle Example.env0 ev w).2
    = persist_effects Example.env0 (store w')
        ++ broadcast_effects Example.env0 (store w') (WS_CLIENTS w)
        ++ [HttpPost (VStr "https://discord.example/hook")
              (offline_message Example.env0 "alice"
                 (default ∅ (od_get "alice" (streamers (store w')))))]
  ∧ ¬ notifies_last_only_on_edge.
Proof.
  split_and!; [by vm_compute..|].
  intros H.
  destruct (H Example.env0 (StreamOffline "42") Example.w_off "alice"
              (default ∅ (od_get "alice" (streamers (store Example.w_off)))))
    as (note & Htr & Hposts & Hedge).
  - unfold od_wf. vm_compute. apply NoDup_singleton.
  - by vm_compute.
  - by vm_compute.
  - destruct note as [|e note].
    + revert Htr. by vm_compute.
    + apply Hedge; by vm_compute.
Qed.

(** C2, amended. An event that commits a change to a tracked channel's
    record leaves this trace: the category lookup if it is a metadata
    update, then the store written and moved into place, then the snapshot
    of the registry sent to every subscriber, then -- for every live and
    every offline event, whether or not [is_live] changed, and never for a
    metadata update -- the notification.  There is exactly one persist and
    one send per subscriber; every send goes to a subscriber and carries
    the serialised [full_update] message that holds every record of the
    final registry; what is persisted and what is sent are taken from the
    same, final store, which is what the file then holds. *)
Theorem commit_order (env : Env) (ev : Event) (w : World)
    (login : string) (s : gmap string value) :
  find_uid (event_uid ev) (streamers (store w)) = Some (login, s) ->
  (handle env ev w).1.1 = Ok tt ->
  let w' := (handle env ev w).1.2 in
  let tr := (handle env ev w).2 in
  tr = lookup_effects env ev w
         ++ persist_effects env (store w')
         ++ broadcast_effects env (store w') (WS_CLIENTS w)
         ++ notification env ev login s (store w')
  ∧ filter is_persist tr = persist_effects env (store w')
  ∧ filter is_send tr = broadcast_effects env (store w') (WS_CLIENTS w)
  ∧ (forall ws text d, WsSend ws text d ∈ tr ->
       ws ∈ WS_CLIENTS w
       ∧ text = json_dumps env None (snapshot_message (streamers (store w'))))
  ∧ files w' !! STORE_PATH = Some (persisted_text env (store w')).
Proof.
  intros Hfind Hok w' tr.
  assert (Htr : tr = lookup_effects env ev w
                  ++ persist_effects env (store w')
                  ++ broadcast_effects env (store w') (WS_CLIENTS w)
                  ++ notification env ev login s (store w')
                ∧ Forall is_lookup (lookup_effects env ev w)
                ∧ files w' !! STORE_PATH = Some (persisted_text env (store w'))).
  { subst w' tr. destruct ev as [uid started|uid|uid title gid]; simpl in *.
    - rewrite on_online_run, Hfind. cbn [fst snd].
      split_and!; [done|constructor|apply lookup_insert_eq].
    - rewrite on_offline_run, Hfind. cbn [fst snd].
      split_and!; [done|constructor|apply lookup_insert_eq].
    - revert Hok. rewrite on_channel_update_run, Hfind.
      pose proof (game_name_for_keeps env gid w) as Hk.
      destruct (game_name_for env gid w) as [[[name|e] wg] t]; [|done].
      destruct Hk as (_ & _ & _ & Hc & Ht). intros _. cbn [fst snd].
      rewrite Hc, app_nil_r.
      split_and!; [done|done|apply lookup_insert_eq]. }
  destruct Htr as (Htr & Hl & Hfile).
  split; [done|]. rewrite Htr.
  destruct (committed_trace env (store w') (WS_CLIENTS w)
              (lookup_effects env ev w) (notification env ev login s (store w')) Hl)
    as [Hp Hs].
  { destruct ev; simpl; [apply notify_effects_kind..|constructor]. }
  split_and!; [done..| |done].
  intros ws text d Hin.
  assert (Hin' : WsSend ws text d ∈ filter is_send
            (lookup_effects env ev w ++ persist_effects env (store w')
               ++ broadcast_effects env (store w') (WS_CLIENTS w)
               ++ notification env ev login s (store w'))).
  { apply list_elem_of_filter. by split. }
  rewrite Hs in Hin'. unfold broadcast_effects in Hin'.
  apply list_elem_of_fmap in Hin' as (ws' & [= -> -> ->] & Hws). by split.
Qed.

Lemma commit_order_witness :
  let ev := StreamOffline "42" in
  let w := Example.w_off in
  let w' := (handle Example.env0 ev w).1.2 in
  let tr := (handle Example.env0 ev w).2 in
  tr = lookup_effects Example.env0 ev w
         ++ persist_effects Example.env0 (store w')
         ++ broadcast_effects Example.env0 (store w') (WS_CLIENTS w)
         ++ notification Example.env0 ev "alice"
              (offline_fields "2024-01-02T03:04:05+00:00"
                 (live_fields "T1" Example.alice)) (store w')
  ∧ filter is_persist tr = persist_effects Example.env0 (store w')
  ∧ filter is_send tr = broadcast_effects Example.env0 (store w') (WS_CLIENTS w)
  ∧ (forall ws text d, WsSend ws text d ∈ tr ->
       ws ∈ WS_CLIENTS w
       ∧ text = json_dumps Example.env0 None
                  (snapshot_message (streamers (store w'))))
  ∧ files w' !! STORE_PATH = Some (persisted_text Example.env0 (store w')).
Proof.
  apply commit_order.
  - vm_compute. reflexivity.
  - vm_compute. reflexivity.
Defined.

(** *** The registry after an event *)

Lemma find_uid_alter (uid k : string) (f : gmap string value -> gmap string value)
    (sts : odict (gmap string value)) :
  od_wf sts ->
  (forall s, py_get "user_id" (f s) = py_get "user_id" s) ->
  find_uid uid (od_alter f k sts)
  = (fun ls => (ls.1, if decide (ls.1 = k) then f ls.2 else ls.2))
      <$> find_uid uid sts.
Proof.
  unfold od_wf. intros Hwf Hf.
  induction sts as [|[l0 s0] sts IH]; [done|]. csimpl in *.
  apply NoDup_cons in Hwf as [Hl0 Hwf].
  destruct (decide (k = l0)) as [->|Hne]; simpl.
  - rewrite Hf. case_bool_decide as Hm; simpl.
    + by rewrite decide_True.
    + destruct (find_uid uid sts) as [[l1 s1]|] eqn:Hfind; [|done]. simpl.
      rewrite decide_False; [done|].
      intros ->. apply Hl0. apply find_uid_elem in Hfind as [Hin _].
      apply list_elem_of_fmap. by exists (l0, s1).
  - case_bool_decide as Hm; simpl.
    + rewrite decide_False; [done|congruence].
    + by apply IH.
Qed.

Lemma live_fields_lookup (started_at : string) (s : gmap string value) (k : string) :
  live_fields started_at s !! k
  = if decide (k = "started_at") then Some (VStr started_at)
    else if decide (k = "is_live") then Some (VBool true) else s !! k.
Proof.
  unfold live_fields. rewrite !lookup_insert. repeat case_decide; congruence.
Qed.

Lemma offline_fields_lookup (now : string) (s : gmap string value) (k : string) :
  offline_fields now s !! k
  = if decide (k = "last_live") then Some (VStr now)
    else if decide (k = "is_live") then Some (VBool false) else s !! k.
Proof.
  unfold offline_fields. rewrite !lookup_insert. repeat case_decide; congruence.
Qed.

Lemma title_field_lookup (title : option string) (s : gmap string value) (k : string) :
  title_field title s !! k
  = match title with
    | Some t => if decide (k = "title") then Some (VStr t) else s !! k
    | None => s !! k
    end.
Proof.
  destruct title as [t|]; [|done]. simpl. rewrite lookup_insert.
  repeat case_decide; congruence.
Qed.

(** A metadata update touches [title], [game_id] and [game_name] only. *)
Lemma event_fields_frame (env : Env) (ev : Event) (w : World)
    (s : gmap string value) (k : string) :
  k ≠ "title" -> k ≠ "game_id" -> k ≠ "game_name" ->
  k ≠ "is_live" -> k ≠ "started_at" -> k ≠ "last_live" ->
  event_fields env ev w s !! k = s !! k.
Proof.
  intros. destruct ev as [uid started|uid|uid title gid]; simpl.
  - rewrite live_fields_lookup. by rewrite !decide_False.
  - rewrite offline_fields_lookup. by rewrite !decide_False.
  - destruct (game_name_for env gid w).1.1; unfold metadata_fields;
      [destruct (truthy _)|];
      rewrite ?lookup_insert_ne, title_field_lookup by done;
      destruct title; by rewrite ?decide_False.
Qed.

Lemma event_fields_user_id (env : Env) (ev : Event) (w : World)
    (s : gmap string value) :
  py_get "user_id" (event_fields env ev w s) = py_get "user_id" s.
Proof. unfold py_get. by rewrite event_fields_frame. Qed.

Lemma event_fields_is_live (env : Env) (ev : Event) (w : World)
    (s : gmap string value) :
  event_fields env ev w s !! "is_live"
  = match ev with
    | StreamOnline _ _ => Some (VBool true)
    | StreamOffline _ => Some (VBool false)
    | ChannelUpdate _ _ _ => s !! "is_live"
    end.
Proof.
  destruct ev as [uid started|uid|uid title gid]; simpl.
  - by rewrite live_fields_lookup.
  - by rewrite offline_fields_lookup.
  - destruct (game_name_for env gid w).1.1; unfold metadata_fields;
      [destruct (truthy _)|];
      rewrite ?lookup_insert_ne, title_field_lookup by done;
      by destruct title.
Qed.

Lemma handle_streamers (env : Env) (ev : Event) (w : World) :
  streamers (store (handle env ev w).1.2)
  = match find_uid (event_uid ev) (streamers (store w)) with
    | None => streamers (store w)
    | Some (login, _) =>
        od_alter (event_fields env ev w) login (streamers (store w))
    end.
Proof.
  destruct ev as [uid started|uid|uid title gid]; simpl.
  - rewrite on_online_run.
    by destruct (find_uid uid (streamers (store w))) as [[login s]|].
  - rewrite on_offline_run.
    by destruct (find_uid uid (streamers (store w))) as [[login s]|].
  - rewrite on_channel_update_run.
    destruct (find_uid uid (streamers (store w))) as [[login s]|]; [|done].
    pose proof (game_name_for_keeps env gid w) as Hk.
    destruct (game_name_for env gid w) as [[[name|e] wg] t];
      destruct Hk as (Hs & _); cbn; by rewrite Hs.
Qed.

(** One event, seen from the record of a tracked channel. *)
Lemma handle_tracked (env : Env) (ev : Event) (w : World) (uid login : string)
    (s : gmap string value) :
  od_wf (streamers (store w)) ->
  find_uid uid (streamers (store w)) = Some (login, s) ->
  od_wf (streamers (store (handle env ev w).1.2))
  ∧ find_uid uid (streamers (store (handle env ev w).1.2))
    = Some (login, if decide (event_uid ev = uid)
                   then event_fields env ev w s else s).
Proof.
  intros Hwf Hfind. rewrite handle_streamers.
  destruct (find_uid (event_uid ev) (streamers (store w))) as [[l' s0]|] eqn:Hev.
  - split; [by apply od_alter_wf|].
    rewrite find_uid_alter, Hfind; [|done|apply event_fields_user_id]. simpl.
    destruct (decide (event_uid ev = uid)) as [Heq|Hne].
    + rewrite Heq, Hfind in Hev. injection Hev as <- <-. by rewrite decide_True.
    + rewrite decide_False; [done|]. intros <-.
      apply find_uid_elem in Hfind as [Hin Hid].
      apply find_uid_elem in Hev as [Hin' Hid'].
      apply (od_get_elem _ _ _ Hwf) in Hin.
      apply (od_get_elem _ _ _ Hwf) in Hin'.
      congruence.
  - split; [done|]. rewrite Hfind. rewrite decide_False; [done|]. congruence.
Qed.

Lemma run_events_tracked (evs : list (Env * Event)) (w : World) (uid login : string)
    (s : gmap string value) :
  od_wf (streamers (store w)) ->
  find_uid uid (streamers (store w)) = Some (login, s) ->
  od_wf (streamers (store (run_events evs w)))
  ∧ exists s', find_uid uid (streamers (store (run_events evs w))) = Some (login, s')
      ∧ s' !! "is_live" = match last_liveness uid evs with
                          | Some b => Some (VBool b)
                          | None => s !! "is_live"
                          end.
Proof.
  revert w s. induction evs as [|[env ev] evs IH]; intros w s Hwf Hfind; simpl.
  - split; [done|]. by exists s.
  - destruct (handle_tracked env ev w uid login s Hwf Hfind) as [Hwf1 Hfind1].
    destruct (IH _ _ Hwf1 Hfind1) as (Hwf' & s' & Hfind' & Hlive).
    split; [done|]. exists s'. split; [done|]. rewrite Hlive.
    destruct (last_liveness uid evs) as [b|]; [done|].
    destruct (decide (event_uid ev = uid)) as [Hu|Hu];
      [rewrite event_fields_is_live|];
      destruct ev as [u started|u|u title gid]; simpl in *;
      repeat case_decide; congruence.
Qed.

(** C4. Whatever sequence of events is applied -- live, offline and
    metadata events, for this channel and for others, each under its own
    outcomes of sends, posts and lookups -- the [is_live] field of a tracked
    channel ends as the last live or offline event for its id says: true
    after a live event, false after an offline event. *)
Theorem is_live_is_last_event (evs : list (Env * Event)) (w : World)
    (uid login : string) (s : gmap string value) (b : bool) :
  od_wf (streamers (store w)) ->
  find_uid uid (streamers (store w)) = Some (login, s) ->
  last_liveness uid evs = Some b ->
  is_live_of login (run_events evs w) = VBool b.
Proof.
  intros Hwf Hfind Hlast.
  destruct (run_events_tracked evs w uid login s Hwf Hfind)
    as (Hwf' & s' & Hfind' & Hlive).
  rewrite Hlast in Hlive.
  apply find_uid_elem in Hfind' as [Hin _].
  apply (od_get_elem _ _ _ Hwf') in Hin.
  unfold is_live_of, py_get. by rewrite Hin; simpl; rewrite Hlive.
Qed.

Lemma is_live_is_last_event_witness :
  is_live_of "alice"
    (run_events
       [(Example.env0, StreamOnline "42" "T1");
        (Example.env0, ChannelUpdate "42" (Some "Speedrun") (Some "509658"));
        (Example.env0, StreamOffline "42");
        (Example.env0, StreamOnline "7" "T2");
        (Example.env0, StreamOnline "42" "T3");
        (Example.env0, StreamOffline "7")]
       Example.w0)
  = VBool true.
Proof.
  apply (is_live_is_last_event _ _ "42" "alice" Example.alice true).
  - unfold od_wf. vm_compute. apply NoDup_singleton.
  - vm_compute. reflexivity.
  - vm_compute. reflexivity.
Defined.

(** *** Metadata updates *)

Lemma metadata_fields_lookup (title gid name : option string)
    (s : gmap string value) (k : string) :
  metadata_fields title gid name s !! k
  = if truthy (opt_str_value gid) then
      if decide (k = "game_name") then Some (opt_str_value name)
      else if decide (k = "game_id") then Some (opt_str_value gid)
      else title_field title s !! k
    else title_field title s !! k.
Proof.
  unfold metadata_fields. destruct (truthy _); [|done].
  rewrite !lookup_insert. repeat case_decide; congruence.
Qed.

Lemma posts_channel_update (env : Env) (uid : string) (title gid : option string)
    (w : World) :
  posts (on_channel_update env uid title gid w).2 = [].
Proof.
  rewrite on_channel_update_run.
  destruct (find_uid uid (streamers (store w))) as [[login s]|]; [|done].
  pose proof (game_name_for_keeps env gid w) as Hk.
  destruct (game_name_for env gid w) as [[[name|e] wg] t];
    destruct Hk as (_ & _ & _ & _ & Ht); cbn [snd].
  - by rewrite !posts_app, posts_broadcast, (posts_lookups t Ht).
  - by apply posts_lookups.
Qed.

(** C5. A metadata update on a tracked channel changes, in the record it
    matches, nothing but [title] (when the event has one) and [game_id]
    with [game_name] (when the event has a non-empty category id; the name
    is what the category lookup returned, null when it found none, and is
    left as it was when the lookup raised): [is_live], [started_at],
    [last_live], [user_id] and [display_name] -- every other field -- and
    every other record are as before, and nothing is posted to the
    webhook. *)
Theorem metadata_update_frame (env : Env) (uid : string)
    (title gid : option string) (w : World) (login : string)
    (s : gmap string value) :
  od_wf (streamers (store w)) ->
  find_uid uid (streamers (store w)) = Some (login, s) ->
  let w' := (on_channel_update env uid title gid w).1.2 in
  let tr := (on_channel_update env uid title gid w).2 in
  exists s',
    od_get login (streamers (store w')) = Some s'
    ∧ (forall k, k ≠ "title" -> k ≠ "game_id" -> k ≠ "game_name" ->
         s' !! k = s !! k)
    ∧ s' !! "is_live" = s !! "is_live"
    ∧ s' !! "started_at" = s !! "started_at"
    ∧ s' !! "last_live" = s !! "last_live"
    ∧ s' !! "user_id" = s !! "user_id"
    ∧ s' !! "display_name" = s !! "display_name"
    ∧ s' !! "title" = match title with
                      | Some t => Some (VStr t)
                      | None => s !! "title"
                      end
    ∧ (if truthy (opt_str_value gid) then
         s' !! "game_id" = Some (opt_str_value gid)
         ∧ s' !! "game_name" = match (game_name_for env gid w).1.1 with
                               | Ok name => Some (opt_str_value name)
                               | Raise _ => s !! "game_name"
                               end
       else s' !! "game_id" = s !! "game_id"
            ∧ s' !! "game_name" = s !! "game_name")
    ∧ (forall l, l ≠ login ->
         od_get l (streamers (store w')) = od_get l (streamers (store w)))
    ∧ posts tr = [].
Proof.
  intros Hwf Hfind w' tr.
  pose (ev := ChannelUpdate uid title gid).
  destruct (handle_tracked env ev w uid login s Hwf Hfind) as [Hwf' Hfind'].
  rewrite decide_True in Hfind' by done.
  exists (event_fields env ev w s).
  assert (Hframe : forall k, k ≠ "title" -> k ≠ "game_id" -> k ≠ "game_name" ->
            event_fields env ev w s !! k = s !! k).
  { intros k H1 H2 H3. simpl.
    destruct (game_name_for env gid w).1.1.
    - rewrite metadata_fields_lookup, title_field_lookup.
      destruct (truthy _), title; repeat case_decide; done.
    - rewrite lookup_insert_ne, title_field_lookup by done.
      destruct title; repeat case_decide; done. }
  split_and!; try (by apply Hframe).
  - apply find_uid_elem in Hfind' as [Hin _].
    by apply (od_get_elem _ _ _ Hwf').
  - simpl. destruct (game_name_for env gid w).1.1.
    + rewrite metadata_fields_lookup, title_field_lookup.
      destruct (truthy _), title; repeat case_decide; done.
    + rewrite lookup_insert_ne, title_field_lookup by done.
      destruct title; repeat case_decide; done.
  - simpl. destruct (truthy (opt_str_value gid)) eqn:Hg.
    + destruct (game_name_for env gid w).1.1.
      * rewrite !metadata_fields_lookup, Hg. repeat case_decide; done.
      * rewrite lookup_insert_eq, lookup_insert_ne, title_field_lookup by done.
        split; [done|]. destruct title; repeat case_decide; done.
    + rewrite game_name_for_falsy by done. simpl.
      rewrite !metadata_fields_lookup, Hg, !title_field_lookup.
      destruct title; repeat case_decide; done.
  - intros l Hl. subst w'. change (on_channel_update env uid title gid w)
      with (handle env ev w).
    rewrite handle_streamers. simpl. rewrite Hfind.
    by rewrite od_get_alter_ne.
  - apply posts_channel_update.
Qed.

Lemma metadata_update_frame_witness :
  let w' := (on_channel_update Example.env0 "42" (Some "Speedrun") None
               Example.w_live).1.2 in
  let tr := (on_channel_update Example.env0 "42" (Some "Speedrun") None
               Example.w_live).2 in
  exists s',
    od_get "alice" (streamers (store w')) = Some s'
    ∧ (forall k, k ≠ "title" -> k ≠ "game_id" -> k ≠ "game_name" ->
         s' !! k = live_fields "T1" Example.alice !! k)
    ∧ s' !! "is_live" = live_fields "T1" Example.alice !! "is_live"
    ∧ s' !! "started_at" = live_fields "T1" Example.alice !! "started_at"
    ∧ s' !! "last_live" = live_fields "T1" Example.alice !! "last_live"
    ∧ s' !! "user_id" = live_fields "T1" Example.alice !! "user_id"
    ∧ s' !! "display_name" = live_fields "T1" Example.alice !! "display_name"
    ∧ s' !! "title" = Some (VStr "Speedrun")
    ∧ (s' !! "game_id" = live_fields "T1" Example.alice !! "game_id"
       ∧ s' !! "game_name" = live_fields "T1" Example.alice !! "game_name")
    ∧ (forall l, l ≠ "alice" ->
         od_get l (streamers (store w')) = od_get l (streamers (store Example.w_live)))
    ∧ posts tr = [].
Proof.
  apply (metadata_update_frame Example.env0 "42" (Some "Speedrun") None
           Example.w_live "alice" (live_fields "T1" Example.alice)).
  - unfold od_wf. vm_compute. apply NoDup_singleton.
  - vm_compute. reflexivity.
Defined.

(** *** EventSub lifecycle *)

Section Lifecycle.
Context (env : Env).

Lemma es_subscribe_run (uid : value) (t : Topic) (w : World) :
  es_subscribe env uid t w
  = match es_listen_topic env uid t with
    | None =>
        (Ok tt,
         set_es (match es w with
                 | Some e => Some {| subscriptions := subscriptions e ++ [(uid, t)] |}
                 | None => None
                 end) w,
         [EsSubscribe uid t])
    | Some e => (Raise e, w, [EsSubscribe uid t])
    end.
Proof.
  unfold es_subscribe. rewrite !bind_run. unfold emit at 1. cbv beta iota.
  rewrite bind_run.
  destruct (es_listen_topic env uid t); reflexivity.
Qed.

Lemma wanted_subscriptions_cons (item : string * gmap string value)
    (items : odict (gmap string value)) :
  wanted_subscriptions (item :: items)
  = wanted_subscriptions [item] ++ wanted_subscriptions items.
Proof. unfold wanted_subscriptions. simpl. by rewrite app_nil_r. Qed.

(** The body of the subscription loop of [start_eventsub]. *)
Definition subscribe_body : string * gmap string value -> M World flow :=
  fun '(login, s) =>
    let uid := py_get "user_id" s in
    if negb (truthy uid) then mret Next
    else
      es_subscribe env uid stream_online;;
      es_subscribe env uid stream_offline;;
      es_subscribe env uid channel_update;;
      mret Next.

Lemma set_es_set_es (a b : option EventSubWebsocket) (w : World) :
  set_es a (set_es b w) = set_es a w.
Proof. reflexivity. Qed.

Lemma subscribe_body_run (login : string) (s : gmap string value) (w : World)
    (e0 : EventSubWebsocket) (w' : World) (t : list Effect) :
  es w = Some e0 ->
  subscribe_body (login, s) w = (Ok Next, w', t) ->
  w' = set_es (Some {| subscriptions :=
                         subscriptions e0 ++ wanted_subscriptions [(login, s)] |}) w
  ∧ t = subscribe_effects (wanted_subscriptions [(login, s)]).
Proof.
  intros He0. unfold subscribe_body, wanted_subscriptions. cbn [flat_map snd].
  cbv zeta. rewrite !app_nil_r.
  destruct (truthy (py_get "user_id" s)) eqn:Hu; cbn [negb].
  - rewrite !bind_run, es_subscribe_run.
    destruct (es_listen_topic env _ stream_online); [done|].
    cbv beta iota. rewrite bind_run, es_subscribe_run.
    destruct (es_listen_topic env _ stream_offline); [done|].
    cbv beta iota. rewrite bind_run, es_subscribe_run.
    destruct (es_listen_topic env _ channel_update); [done|].
    cbn. rewrite He0. cbn. intros [= <- <-].
    rewrite !set_es_set_es, <- !app_assoc. done.
  - intros [= <- <-]. rewrite app_nil_r. destruct w, e0; simpl in *. by subst.
Qed.

Lemma subscribe_body_flow (item : string * gmap string value) (w w' : World)
    (fl : flow) (t : list Effect) :
  subscribe_body item w = (Ok fl, w', t) -> fl = Next.
Proof.
  destruct item as [login s]. unfold subscribe_body. cbv zeta.
  destruct (truthy (py_get "user_id" s)); cbn [negb].
  - rewrite !bind_run.
    destruct (es_subscribe env _ stream_online w) as [[[[]|] ?] ?]; [|done].
    rewrite bind_run.
    destruct (es_subscribe env _ stream_offline _) as [[[[]|] ?] ?]; [|done].
    rewrite bind_run.
    destruct (es_subscribe env _ channel_update _) as [[[[]|] ?] ?]; [|done].
    by intros [= <- _ _].
  - by intros [= <- _ _].
Qed.

Lemma subscribe_loop (items : odict (gmap string value)) (w : World)
    (e0 : EventSubWebsocket) (w' : World) (t : list Effect) :
  es w = Some e0 ->
  for_in items subscribe_body w = (Ok tt, w', t) ->
  w' = set_es (Some {| subscriptions :=
                         subscriptions e0 ++ wanted_subscriptions items |}) w
  ∧ t = subscribe_effects (wanted_subscriptions items).
Proof.
  revert w e0 w' t.
  induction items as [|[login s] items IH]; intros w e0 w' t He0.
  - simpl. intros [= <- <-]. rewrite app_nil_r. destruct w, e0; simpl in *. by subst.
  - cbn [for_in]. rewrite bind_run.
    destruct (subscribe_body (login, s) w) as [[[fl|e] w1] t1] eqn:Hbody; [|done].
    pose proof (subscribe_body_flow _ _ _ _ _ Hbody) as ->.
    destruct (subscribe_body_run _ _ _ _ _ _ He0 Hbody) as [-> ->].
    destruct (for_in items subscribe_body _) as [[[[]|e] w2] t2] eqn:Hrest; [|done].
    intros [= <- <-].
    eapply IH in Hrest; [|reflexivity]. destruct Hrest as [-> ->].
    cbn [subscriptions].
    rewrite set_es_set_es, (wanted_subscriptions_cons (login, s) items).
    split; [by rewrite app_assoc|].
    unfold subscribe_effects. by rewrite <- map_app.
Qed.

(** With the socket and the client in place the call does nothing. *)
Lemma start_eventsub_when_started (w : World) :
  is_Some (es w) -> is_Some (twitch w) -> start_eventsub env w = (Ok tt, w, []).
Proof.
  intros [e He] [c Hc].
  destruct w as [[au ap [cid csec ta ex] dc sts] fs tw e' gc cl]. simpl in *. subst.
  unfold start_eventsub, ensure_twitch_client. munfold. cbn.
  by destruct (bool_decide (cid = "") || bool_decide (csec = "")).
Qed.
End Lifecycle.

Lemma ensure_twitch_client_None (env : Env) (w : World) :
  (ensure_twitch_client env w).1.1 = Ok None ->
  client_id (twitch_section (store w)) = ""
  ∨ client_secret (twitch_section (store w)) = "".
Proof.
  destruct w as [[au ap [cid csec ta ex] dc sts] fs tw e gc cl].
  unfold ensure_twitch_client. munfold. cbn.
  destruct (bool_decide (cid = "")) eqn:H1; [apply bool_decide_eq_true in H1; by left|].
  destruct (bool_decide (csec = "")) eqn:H2; [apply bool_decide_eq_true in H2; by right|].
  cbn. destruct tw; [done|]. by destruct (Twitch_new env cid csec).
Qed.

(** What a call of [start_eventsub] that finds no socket and returns
    normally has done. *)
Lemma start_eventsub_first (env : Env) (w : World) :
  client_id (twitch_section (store w)) ≠ "" ->
  client_secret (twitch_section (store w)) ≠ "" ->
  es w = None ->
  (start_eventsub env w).1.1 = Ok tt ->
  exists (w1 : World) (lookups : list Effect),
    start_eventsub env w
    = (Ok tt,
       set_es (Some {| subscriptions :=
                         wanted_subscriptions (streamers (store w)) |}) w1,
       lookups ++ [EsNew; EsListen]
         ++ subscribe_effects (wanted_subscriptions (streamers (store w)))
         ++ [EsRun])
    ∧ Forall is_lookup lookups
    ∧ is_Some (twitch w1)
    ∧ store w1 = store w ∧ files w1 = files w
    ∧ WS_CLIENTS w1 = WS_CLIENTS w ∧ GAME_CACHE w1 = GAME_CACHE w.
Proof.
  intros Hcid Hcsec Hes Hok.
  destruct (start_eventsub env w) as [[r w'] tr] eqn:Hrun. simpl in Hok. subst r.
  revert Hrun. unfold start_eventsub. rewrite bind_run.
  pose proof (ensure_twitch_client_keeps env w) as Hk.
  pose proof (ensure_twitch_client_None env w) as Hnone.
  destruct (ensure_twitch_client env w) as [[[[c|]|e] w1] t1]; [| |done].
  2:{ destruct Hnone as [?|?]; done. }
  destruct Hk as (Hs & Hf & He & Hc & Hg & Ht & Htw & _).
  cbv beta iota. rewrite bind_run. unfold gets at 1. cbv beta iota.
  rewrite He, Hes.
  rewrite bind_run. unfold emit at 1. cbv beta iota.
  rewrite bind_run. unfold modify at 1. cbv beta iota.
  rewrite bind_run. unfold emit at 1. cbv beta iota.
  rewrite bind_run.
  destruct (es_listen env) as [e|]; [done|].
  unfold outcome.
  change ((mret tt : M World unit) (set_es (Some {| subscriptions := [] |}) w1))
    with (Ok tt, set_es (Some {| subscriptions := [] |}) w1, @nil Effect).
  cbv beta iota. rewrite bind_run. unfold gets at 1. cbv beta iota.
  rewrite bind_run. fold (subscribe_body env).
  change (streamers (store (set_es (Some {| subscriptions := [] |}) w1)))
    with (streamers (store w1)).
  rewrite Hs.
  destruct (for_in (streamers (store w)) (subscribe_body env) _)
    as [[[[]|e] w2] t2] eqn:Hloop; [|done].
  eapply subscribe_loop in Hloop; [|reflexivity].
  destruct Hloop as [-> ->]. cbn. intros [= <- <-].
  exists w1, t1.
  split_and!; try done.
  by exists c; apply Htw.
Qed.

Lemma filter_eventsub_subscribe (subs : list (value * Topic)) :
  filter is_eventsub (subscribe_effects subs) = subscribe_effects subs.
Proof.
  apply filter_all. unfold subscribe_effects.
  induction subs as [|ut subs IH]; by constructor.
Qed.

(** C8. [start_eventsub] is idempotent.  A first call that finds
    credentials and no socket and returns normally has created the socket,
    opened it once, and subscribed it, for every tracked record with a
    usable [user_id] and for no other, to the three topics (online,
    offline, channel update), in the order of the registry, before starting
    it; the registry is untouched.  Any later call, while that socket and
    the client are in place, returns normally, changes nothing and makes no
    outside call: no new connection, no new subscription. *)
Theorem start_eventsub_idempotent (env : Env) (w : World) :
  client_id (twitch_section (store w)) ≠ "" ->
  client_secret (twitch_section (store w)) ≠ "" ->
  es w = None ->
  (start_eventsub env w).1.1 = Ok tt ->
  let w' := (start_eventsub env w).1.2 in
  let tr := (start_eventsub env w).2 in
  let wanted := wanted_subscriptions (streamers (store w)) in
  es w' = Some {| subscriptions := wanted |}
  ∧ filter is_eventsub tr = [EsNew; EsListen] ++ subscribe_effects wanted ++ [EsRun]
  ∧ (forall uid t, (uid, t) ∈ wanted <->
       t ∈ topics ∧ truthy uid = true
       ∧ exists login s, (login, s) ∈ streamers (store w) ∧ py_get "user_id" s = uid)
  ∧ store w' = store w
  ∧ (forall env2 w2, es w2 = es w' -> twitch w2 = twitch w' ->
       start_eventsub env2 w2 = (Ok tt, w2, [])).
Proof.
  intros Hcid Hcsec Hes Hok w' tr wanted.
  destruct (start_eventsub_first env w Hcid Hcsec Hes Hok)
    as (w1 & lookups & Hrun & Hl & Htw & Hs & _).
  subst w' tr. rewrite Hrun. cbn [fst snd]. fold wanted.
  split_and!.
  - reflexivity.
  - rewrite filter_app, (filter_none is_eventsub lookups).
    + rewrite !filter_app, filter_eventsub_subscribe. reflexivity.
    + eapply Forall_impl; [exact Hl|]. intros e He. by destruct e.
  - intros uid t. subst wanted. unfold wanted_subscriptions.
    rewrite list_elem_of_In, in_flat_map. split.
    + intros ([login s] & Hin & Hut). cbv zeta in Hut. cbn [snd] in Hut.
      destruct (truthy (py_get "user_id" s)) eqn:Hu; [|done].
      apply in_map_iff in Hut as (t0 & [= <- <-] & Ht0).
      split_and!; [by apply list_elem_of_In|done|]. exists login, s.
      split; [|done]. by apply list_elem_of_In.
    + intros (Ht & Hu & login & s & Hin & <-). exists (login, s).
      split; [by apply list_elem_of_In|]. cbv zeta. cbn [snd]. rewrite Hu.
      apply in_map. by apply list_elem_of_In.
  - exact Hs.
  - intros env2 w2 He2 Ht2. apply start_eventsub_when_started.
    + rewrite He2. by eexists.
    + by rewrite Ht2.
Qed.

Lemma start_eventsub_idempotent_witness :
  let w' := (start_eventsub Example.env0 Example.w0).1.2 in
  let tr := (start_eventsub Example.env0 Example.w0).2 in
  let wanted := wanted_subscriptions (streamers (store Example.w0)) in
  es w' = Some {| subscriptions := wanted |}
  ∧ filter is_eventsub tr = [EsNew; EsListen] ++ subscribe_effects wanted ++ [EsRun]
  ∧ (forall uid t, (uid, t) ∈ wanted <->
       t ∈ topics ∧ truthy uid = true
       ∧ exists login s, (login, s) ∈ streamers (store Example.w0)
                         ∧ py_get "user_id" s = uid)
  ∧ store w' = store Example.w0
  ∧ (forall env2 w2, es w2 = es w' -> twitch w2 = twitch w' ->
       start_eventsub env2 w2 = (Ok tt, w2, [])).
Proof.
  apply (start_eventsub_idempotent Example.env0 Example.w0).
  - vm_compute. discriminate.
  - vm_compute. discriminate.
  - reflexivity.
  - vm_compute. reflexivity.
Defined.

(** *** Computations that leave the store alone *)

Definition keeps_store {A} (m : M World A) : Prop :=
  forall w, store (m w).1.2 = store w.

Lemma bind_world {A B} (m : M World A) (f : A -> M World B) (w : World) :
  ((m ≫= f) w).1.2
  = match (m w).1.1 with
    | Ok a => (f a (m w).1.2).1.2
    | Raise _ => (m w).1.2
    end.
Proof.
  rewrite bind_run. destruct (m w) as [[[a|e] w1] t1]; [|done].
  simpl. by destruct (f a w1) as [[r w2] t2].
Qed.

Lemma keeps_bind {A B} (m : M World A) (f : A -> M World B) :
  keeps_store m -> (forall a, keeps_store (f a)) -> keeps_store (m ≫= f).
Proof.
  intros Hm Hf w. rewrite bind_world.
  destruct (m w).1.1 as [a|e]; [|apply Hm].
  by rewrite Hf, Hm.
Qed.

Lemma keeps_ret {A} (a : A) : keeps_store (mret a).
Proof. by intros w. Qed.

Lemma keeps_gets {A} (f : World -> A) : keeps_store (gets f).
Proof. by intros w. Qed.

Lemma keeps_emit (e : Effect) : keeps_store (emit e).
Proof. by intros w. Qed.

Lemma keeps_raise {A} (e : exn) : keeps_store (raise e : M World A).
Proof. by intros w. Qed.

Lemma keeps_outcome (o : option exn) : keeps_store (outcome o).
Proof. destruct o; [apply keeps_raise|apply keeps_ret]. Qed.

Lemma keeps_of_result {A} (r : result A) : keeps_store (of_result r).
Proof. destruct r; [apply keeps_ret|apply keeps_raise]. Qed.

Lemma keeps_for_in {A} (l : list A) (body : A -> M World flow) :
  (forall x, keeps_store (body x)) -> keeps_store (for_in l body).
Proof.
  intros Hbody. induction l as [|x l IH]; [apply keeps_ret|].
  simpl. apply keeps_bind; [apply Hbody|].
  intros [|]; [exact IH|apply keeps_ret].
Qed.

Section KeepsStore.
Context (env : Env).

Lemma keeps_ensure_twitch_client : keeps_store (ensure_twitch_client env).
Proof.
  intros w. pose proof (ensure_twitch_client_keeps env w) as Hk.
  destruct (ensure_twitch_client env w) as [[r w'] t]. by destruct Hk as [Hs _].
Qed.

Lemma keeps_resolve_login_to_user (login : string) :
  keeps_store (resolve_login_to_user env login).
Proof.
  unfold resolve_login_to_user.
  apply keeps_bind; [apply keeps_ensure_twitch_client|].
  intros [c|]; [|apply keeps_ret].
  apply keeps_bind; [apply keeps_emit|]. intros _.
  apply keeps_bind; [apply keeps_of_result|].
  intros [|u us]; apply keeps_ret.
Qed.

Lemma keeps_persist : keeps_store (persist env).
Proof. intros w. by rewrite persist_run. Qed.

Lemma keeps_push_update_to_clients : keeps_store (push_update_to_clients env).
Proof. intros w. by rewrite push_run. Qed.

Lemma keeps_es_subscribe (uid : value) (t : Topic) :
  keeps_store (es_subscribe env uid t).
Proof.
  intros w. rewrite es_subscribe_run. by destruct (es_listen_topic env uid t).
Qed.

Lemma keeps_start_eventsub : keeps_store (start_eventsub env).
Proof.
  unfold start_eventsub.
  apply keeps_bind; [apply keeps_ensure_twitch_client|].
  intros [c|]; [|apply keeps_ret].
  apply keeps_bind; [apply keeps_gets|].
  intros [e|]; [apply keeps_ret|].
  apply keeps_bind; [apply keeps_emit|]. intros _.
  apply keeps_bind; [by intros w|]. intros _.
  apply keeps_bind; [apply keeps_emit|]. intros _.
  apply keeps_bind; [apply keeps_outcome|]. intros _.
  apply keeps_bind; [apply keeps_gets|]. intros items.
  apply keeps_bind; [|intros _; apply keeps_emit].
  apply keeps_for_in. intros [login s]. cbv zeta.
  destruct (negb _); [apply keeps_ret|].
  repeat (apply keeps_bind; [apply keeps_es_subscribe|intros _]).
  apply keeps_ret.
Qed.
End KeepsStore.

(** *** Adding a streamer *)

Lemma admin_streamer_add_streamers (env : Env) (login : string) (w : World)
    (uid dn : string) :
  str_lower env (str_strip env login) ≠ "" ->
  (resolve_login_to_user env (str_lower env (str_strip env login)) w).1.1 = Ok (Some (uid, dn)) ->
  streamers (store (admin_streamer_add env login w).1.2)
  = od_set (str_lower env (str_strip env login))
      (new_record uid dn
         (py_get_default "last_live" (VStr "")
            (default ∅ (od_get (str_lower env (str_strip env login)) (streamers (store w))))))
      (streamers (store w)).
Proof.
  intros Hl Hres. unfold admin_streamer_add. cbv zeta.
  rewrite bool_decide_eq_false_2 by done.
  rewrite bind_world, Hres.
  pose proof (keeps_resolve_login_to_user env (str_lower env (str_strip env login)) w) as Hs.
  set (w1 := (resolve_login_to_user env (str_lower env (str_strip env login)) w).1.2) in *.
  rewrite bind_world. cbn [gets fst snd].
  rewrite bind_world. cbn [modify fst snd].
  rewrite Hs.
  match goal with
  | |- context [store (?rest ?w2).1.2] =>
      assert (Hrest : keeps_store rest); [|rewrite (Hrest w2)]
  end.
  { apply keeps_bind; [apply keeps_persist|]. intros _.
    apply keeps_bind; [apply keeps_start_eventsub|]. intros _.
    apply keeps_bind; [apply keeps_gets|]. intros e.
    apply keeps_bind.
    - destruct e; [|apply keeps_ret].
      repeat (apply keeps_bind; [apply keeps_es_subscribe|intros _]).
      apply keeps_es_subscribe.
    - intros _. apply keeps_bind; [apply keeps_push_update_to_clients|].
      intros _. apply keeps_ret. }
  cbn. by rewrite Hs.
Qed.

Lemma new_record_fields (uid dn : string) (last : value) :
  new_record uid dn last !! "user_id" = Some (VStr uid)
  ∧ new_record uid dn last !! "display_name" = Some (VStr dn)
  ∧ new_record uid dn last !! "is_live" = Some (VBool false)
  ∧ new_record uid dn last !! "last_live" = Some last
  ∧ new_record uid dn last !! "started_at" = Some (VStr "")
  ∧ new_record uid dn last !! "title" = Some (VStr "")
  ∧ new_record uid dn last !! "game_id" = Some (VStr "")
  ∧ new_record uid dn last !! "game_name" = Some (VStr "").
Proof.
  unfold new_record. cbn [list_to_map foldr uncurry fst snd].
  split_and!; by simplify_map_eq.
Qed.

Lemma od_get_del {V} (k : string) (d : odict V) :
  od_wf d -> od_get k (od_del k d) = None.
Proof. intros Hwf. apply od_get_None. by apply od_del_keys. Qed.

Lemma removed_login_untracked (env : Env) (login : string) (w : World) :
  od_wf (streamers (store w)) ->
  od_get (str_lower env (str_strip env login))
    (streamers (store (admin_streamer_remove env login w).1.2)) = None.
Proof.
  intros Hwf. rewrite admin_streamer_remove_run. unfold od_mem.
  destruct (od_get (str_lower env (str_strip env login)) (streamers (store w))) eqn:Hget; cbn.
  - by apply od_get_del.
  - done.
Qed.

(** C9. Adding a login, once it is resolved, stores under its normalised
    form [l] -- what [login.strip().lower()] returns -- a reset record:
    [user_id] and [display_name] from the fresh resolution,
    [is_live] false, [started_at], [title], [game_id] and [game_name]
    empty.  Its [last_live] is the one of the record the login had (empty
    when that record had none); it is empty when [l] was not tracked, as
    it is after the administrator removed a login with that normalised
    form -- so a re-add never empties a [last_live], only a removal before
    it does.  The records of other logins stay as they are. *)
Theorem re_add_keeps_last_live (env : Env) (login : string) (w : World)
    (uid dn : string) :
  str_lower env (str_strip env login) ≠ "" ->
  (resolve_login_to_user env (str_lower env (str_strip env login)) w).1.1 = Ok (Some (uid, dn)) ->
  let l := str_lower env (str_strip env login) in
  let sts := streamers (store w) in
  let sts' := streamers (store (admin_streamer_add env login w).1.2) in
  exists s',
    od_get l sts' = Some s'
    ∧ s' = new_record uid dn
             (py_get_default "last_live" (VStr "") (default ∅ (od_get l sts)))
    ∧ s' !! "user_id" = Some (VStr uid)
    ∧ s' !! "display_name" = Some (VStr dn)
    ∧ s' !! "is_live" = Some (VBool false)
    ∧ s' !! "started_at" = Some (VStr "")
    ∧ s' !! "title" = Some (VStr "")
    ∧ s' !! "game_id" = Some (VStr "")
    ∧ s' !! "game_name" = Some (VStr "")
    ∧ (forall old v, od_get l sts = Some old -> old !! "last_live" = Some v ->
         s' !! "last_live" = Some v)
    ∧ (forall old, od_get l sts = Some old -> old !! "last_live" = None ->
         s' !! "last_live" = Some (VStr ""))
    ∧ (od_get l sts = None -> s' !! "last_live" = Some (VStr ""))
    ∧ (forall env0 login0 w0, od_wf (streamers (store w0)) ->
         str_lower env0 (str_strip env0 login0) = l ->
         w = (admin_streamer_remove env0 login0 w0).1.2 ->
         s' !! "last_live" = Some (VStr ""))
    ∧ (s' !! "last_live" = Some (VStr "") ->
         od_get l sts = None
         ∨ exists old, od_get l sts = Some old
             ∧ (old !! "last_live" = None ∨ old !! "last_live" = Some (VStr "")))
    ∧ (forall l', l' ≠ l -> od_get l' sts' = od_get l' sts).
Proof.
  intros Hl Hres l sts sts'.
  pose proof (admin_streamer_add_streamers env login w uid dn Hl Hres) as Hadd.
  fold l sts sts' in Hadd.
  set (last := py_get_default "last_live" (VStr "") (default ∅ (od_get l sts))) in *.
  exists (new_record uid dn last).
  destruct (new_record_fields uid dn last)
    as (Hu & Hd & Hlive & Hlast & Hst & Hti & Hgi & Hgn).
  assert (Hnone : od_get l sts = None -> last = VStr "").
  { intros Hget. subst last. by rewrite Hget. }
  split_and!; try done.
  - rewrite Hadd. apply od_get_set.
  - intros old v Hget Hv. rewrite Hlast. subst last.
    rewrite Hget. unfold py_get_default. simpl. by rewrite Hv.
  - intros old Hget Hv. rewrite Hlast. subst last.
    rewrite Hget. unfold py_get_default. simpl. by rewrite Hv.
  - intros Hget. by rewrite Hlast, Hnone.
  - intros env0 login0 w0 Hwf Hnorm ->. rewrite Hlast, Hnone; [done|].
    unfold sts. rewrite <- Hnorm. by apply removed_login_untracked.
  - rewrite Hlast. intros [= Hempty]. subst last.
    destruct (od_get l sts) as [old|] eqn:Hget; [|by left].
    right. exists old. split; [done|].
    unfold py_get_default in Hempty. simpl in Hempty.
    destruct (old !! "last_live") as [v|]; [|by left].
    right. simpl in Hempty. by subst.
  - intros l' Hne. rewrite Hadd. by apply od_get_set_ne.
Qed.

Lemma re_add_keeps_last_live_witness :
  let login := " Alice" +:+ Example.nbsp in
  let l := str_lower Example.env_utf8 (str_strip Example.env_utf8 login) in
  let sts := streamers (store Example.w_off) in
  let sts' := streamers (store (admin_streamer_add Example.env_utf8 login
                                  Example.w_off).1.2) in
  l = "alice" ∧
  exists s',
    od_get l sts' = Some s'
    ∧ s' = new_record "42" "Alice"
             (py_get_default "last_live" (VStr "") (default ∅ (od_get l sts)))
    ∧ s' !! "user_id" = Some (VStr "42")
    ∧ s' !! "display_name" = Some (VStr "Alice")
    ∧ s' !! "is_live" = Some (VBool false)
    ∧ s' !! "started_at" = Some (VStr "")
    ∧ s' !! "title" = Some (VStr "")
    ∧ s' !! "game_id" = Some (VStr "")
    ∧ s' !! "game_name" = Some (VStr "")
    ∧ (forall old v, od_get l sts = Some old -> old !! "last_live" = Some v ->
         s' !! "last_live" = Some v)
    ∧ (forall old, od_get l sts = Some old -> old !! "last_live" = None ->
         s' !! "last_live" = Some (VStr ""))
    ∧ (od_get l sts = None -> s' !! "last_live" = Some (VStr ""))
    ∧ (forall env0 login0 w0, od_wf (streamers (store w0)) ->
         str_lower env0 (str_strip env0 login0) = l ->
         Example.w_off = (admin_streamer_remove env0 login0 w0).1.2 ->
         s' !! "last_live" = Some (VStr ""))
    ∧ (s' !! "last_live" = Some (VStr "") ->
         od_get l sts = None
         ∨ exists old, od_get l sts = Some old
             ∧ (old !! "last_live" = None ∨ old !! "last_live" = Some (VStr "")))
    ∧ (forall l', l' ≠ l -> od_get l' sts' = od_get l' sts).
Proof.
  split; [vm_compute; reflexivity|].
  apply (re_add_keeps_last_live Example.env_utf8 (" Alice" +:+ Example.nbsp)
           Example.w_off "42" "Alice").
  - vm_compute. discriminate.
  - vm_compute. reflexivity.
Defined.

(** *** Loading the store *)

Lemma read_text_run (p : string) (fs : gmap string string) :
  read_text p fs
  = match fs !! p with
    | Some t => (Ok t, fs, [])
    | None => (Raise OSError, fs, [])
    end.
Proof.
  unfold read_text. rewrite bind_run. unfold gets, id. cbv beta iota.
  by destruct (fs !! p).
Qed.

Lemma write_text_run (p t : string) (fs : gmap string string) :
  write_text p t fs = (Ok tt, <[p := t]> fs, [FsWrite p t]).
Proof. reflexivity. Qed.

(** C10. When [store.json] is absent, or is there and does not parse,
    [load_store] returns normally: it writes the default store over the
    file -- whatever the file held is gone, and no error reports it -- and
    returns that default store (admin/changeme, empty client id and
    secret, empty webhook, no streamer), read back from the file it has
    just written. *)
Theorem load_store_defaults (env : Env) (fs : gmap string string) :
  fs !! STORE_PATH = None
    ∨ (exists t e, fs !! STORE_PATH = Some t ∧ json_loads env t = Raise e) ->
  json_loads env (json_dumps env (Some 2%nat) DEFAULT_STORE) = Ok DEFAULT_STORE ->
  load_store env fs
  = (Ok DEFAULT_STORE,
     <[STORE_PATH := json_dumps env (Some 2%nat) DEFAULT_STORE]> fs,
     [FsWrite STORE_PATH (json_dumps env (Some 2%nat) DEFAULT_STORE)])
  ∧ DEFAULT_STORE = store_to_json default_store
  ∧ streamers default_store = [].
Proof.
  intros Hfile Hround. split; [|split; [by rewrite default_store_json|done]].
  unfold load_store. rewrite bind_run. unfold path_exists, gets at 1. cbv beta iota.
  assert (Hloaded :
    (if bool_decide (is_Some (fs !! STORE_PATH)) then
       try_except
         (t ← read_text STORE_PATH;
          j ← of_result (json_loads env t);
          mret (Some j))
         is_Exception (mret None)
     else mret None) fs = (Ok None, fs, [])).
  { destruct Hfile as [Hnone|(t & e & Hsome & Hbad)].
    - rewrite bool_decide_eq_false_2; [done|]. rewrite Hnone. by intros [? ?].
    - rewrite bool_decide_eq_true_2 by (by rewrite Hsome).
      unfold try_except. rewrite bind_run, read_text_run, Hsome.
      cbv beta iota. rewrite bind_run, Hbad. reflexivity. }
  rewrite bind_run, Hloaded. cbv beta iota.
  rewrite bind_run, write_text_run. cbv beta iota.
  rewrite bind_run, read_text_run, lookup_insert_eq. cbv beta iota.
  rewrite Hround. reflexivity.
Qed.

Lemma load_store_defaults_witness :
  load_store Example.env0 {[ STORE_PATH := "{oops" ]}
  = (Ok DEFAULT_STORE,
     <[STORE_PATH := json_dumps Example.env0 (Some 2%nat) DEFAULT_STORE]>
       {[ STORE_PATH := "{oops" ]},
     [FsWrite STORE_PATH (json_dumps Example.env0 (Some 2%nat) DEFAULT_STORE)])
  ∧ DEFAULT_STORE = store_to_json default_store
  ∧ streamers default_store = [].
Proof.
  apply (load_store_defaults Example.env0 {[ STORE_PATH := "{oops" ]}).
  - right. exists "{oops", JSONDecodeError. split.
    + apply lookup_singleton_eq.
    + vm_compute. reflexivity.
  - vm_compute. reflexivity.
Defined.

(** * The rest of the program

    The operations of [app.py] around the engine: the socket endpoint of
    the browsers, the rebuild of the subscriptions, the start-up hook and
    the administration of the webhook and of the credentials.  Outside
    calls that the environment above has no answer for take their outcome
    as an argument. *)

Definition set_discord (f : gmap string value -> gmap string value) (s : Store) : Store :=
  {| admin_username := admin_username s; admin_password := admin_password s;
     twitch_section := twitch_section s; discord := f (discord s);
     streamers := streamers s |}.


(** [except WebSocketDisconnect] *)
Definition is_WebSocketDisconnect (e : exn) : bool :=
  match e with
  | WebSocketDisconnect => true
  | _ => false
  end.

(** [try: m  finally: fin]: [fin] runs in every case; an exception of [m]
    is raised again after it, unless [fin] itself raises. *)
Definition try_finally {S A} (m : M S A) (fin : M S unit) : M S A :=
  fun s =>
    match m s with
    | (r, s1, t1) =>
        match fin s1 with
        | (Ok _, s2, t2) => (r, s2, t1 ++ t2)
        | (Raise e, s2, t2) => (Raise e, s2, t1 ++ t2)
        end
    end.

Section Surroundings.
Context (env : Env).

(** [ws_endpoint], up to its first [await ws.receive_text()]: the socket is
    accepted ([accepted] is what [ws.accept()] does), registered, and sent
    the current state. *)
Definition ws_endpoint_open (accepted : option exn) (ws : WebSocket) : M World unit :=
  outcome accepted;;
  modify (fun w => set_WS_CLIENTS (WS_CLIENTS w ++ [ws]) w);;
  sts ← gets (fun w => streamers (store w));
  send_text env ws (json_dumps env None (full_update sts)).

(** [ws_endpoint], from the exception [closing] with which
    [ws.receive_text()] at last leaves the [while True] loop (messages
    received before are dropped). *)
Definition ws_endpoint_close (closing : exn) (ws : WebSocket) : M World unit :=
  try_finally
    (try_except (raise closing) is_WebSocketDisconnect (mret tt))
    (try_except (WS_CLIENTS_remove ws) is_ValueError (mret tt)).

(** [ws_endpoint] for a connection that ends with [closing]. *)
Definition ws_endpoint (accepted : option exn) (closing : exn) (ws : WebSocket)
    : M World unit :=
  ws_endpoint_open accepted ws;;
  ws_endpoint_close closing ws.

(** [resubscribe_all]; [stopped] is what [es.stop()] does. *)
Definition resubscribe_all (stopped : option exn) : M World unit :=
  e ← gets es;
  match e with
  | Some _ =>
      try_except (outcome stopped) is_Exception (mret tt);;
      modify (set_es None)
  | None => mret tt
  end;;
  start_eventsub env.

Definition on_startup : M World unit :=
  ensure_twitch_client env;;
  start_eventsub env.

Definition admin_webhook (webhook : string) : M World Response :=
  modify (set_store (set_discord (insert "webhook" (VStr (str_strip env webhook)))));;
  persist env;;
  mret (RedirectResponse "/admin" 302).

Definition admin_webhook_test : M World Response :=
  discord_notify_online env "test_channel"
    (list_to_map [("display_name", VStr "Test"); ("title", VStr "Hello");
                  ("game_name", VStr "Demo"); ("started_at", VStr (now_iso env))]);;
  mret (RedirectResponse "/admin" 302).


(** [api_status] *)
Definition api_status : M World json :=
  sts ← gets (fun w => streamers (store w));
  mret (JDict [("streamers", streamers_to_json sts)]).
End Surroundings.

(** * Further properties *)

(** ** Storage *)

Lemma load_store_existing (env : Env) (fs : gmap string string)
    (t : string) (j : json) :
  fs !! STORE_PATH = Some t -> json_loads env t = Ok j ->
  load_store env fs = (Ok j, fs, []).
Proof.
  intros Hfile Hparse. unfold load_store.
  rewrite bind_run. unfold path_exists, gets at 1. cbv beta iota.
  rewrite bool_decide_eq_true_2 by (by rewrite Hfile).
  rewrite bind_run. unfold try_except.
  rewrite bind_run, read_text_run, Hfile. cbv beta iota.
  rewrite bind_run, Hparse. reflexivity.
Qed.

(** X2. A store file that parses is returned as parsed, whatever it
    holds; nothing is written and no file changes. *)
Theorem load_store_reads_existing (env : Env) (fs : gmap string string)
    (t : string) (j : json) :
  fs !! STORE_PATH = Some t ->
  json_loads env t = Ok j ->
  load_store env fs = (Ok j, fs, []).
Proof. apply load_store_existing. Qed.

Lemma load_store_reads_existing_witness :
  load_store Example.env0 {[ STORE_PATH := "[1, 2]" ]}
  = (Ok (JList [JInt 1; JInt 2]), {[ STORE_PATH := "[1, 2]" ]}, []).
Proof.
  apply (load_store_reads_existing Example.env0 _ "[1, 2]").
  - apply lookup_singleton_eq.
  - vm_compute. reflexivity.
Defined.

(** X3. Saving and loading round-trip: when the JSON library reads back
    what it printed for the store, [load_store] after [save_store] returns
    the store's document, writes nothing and leaves the files as
    [save_store] left them. *)
Theorem save_then_load (env : Env) (st : Store) (fs : gmap string string) :
  json_loads env (persisted_text env st) = Ok (store_to_json st) ->
  let fs' := (save_store env st fs).1.2 in
  load_store env fs' = (Ok (store_to_json st), fs', []).
Proof.
  intros Hround fs'. subst fs'. rewrite save_store_run. cbn [fst snd].
  apply (load_store_existing env _ (persisted_text env st)); [|done].
  unfold saved. apply lookup_insert_eq.
Qed.

Lemma save_then_load_witness :
  let fs' := (save_store Example.env0 (store Example.w_off) ∅).1.2 in
  load_store Example.env0 fs' = (Ok (store_to_json (store Example.w_off)), fs', []).
Proof.
  apply (save_then_load Example.env0 (store Example.w_off) ∅).
  vm_compute. reflexivity.
Defined.

(** ** The Twitch client and the lookups *)

Lemma ensure_twitch_client_run (env : Env) (w : World) :
  ensure_twitch_client env w
  = let cid := client_id (twitch_section (store w)) in
    let csec := client_secret (twitch_section (store w)) in
    if bool_decide (cid = "") || bool_decide (csec = "") then (Ok None, w, [])
    else
      match twitch w with
      | Some c => (Ok (Some c), w, [])
      | None =>
          match Twitch_new env cid csec with
          | None =>
              (Ok (Some {| app_id := cid; app_secret := csec |}),
               set_twitch (Some {| app_id := cid; app_secret := csec |}) w,
               [TwitchNew cid csec])
          | Some e => (Raise e, w, [TwitchNew cid csec])
          end
      end.
Proof.
  destruct w as [[au ap [cid csec ta ex] dc sts] fs tw e gc cl].
  unfold ensure_twitch_client. munfold. cbn.
  destruct (bool_decide (cid = "") || bool_decide (csec = "")); [done|].
  destruct tw; [done|]. by destruct (Twitch_new env cid csec).
Qed.

(** X4. Without a client id or without a client secret
    [ensure_twitch_client] answers [None], contacts nobody and changes
    nothing -- also when a client built earlier is still there. *)
Theorem no_credentials_no_client (env : Env) (w : World) :
  client_id (twitch_section (store w)) = ""
    ∨ client_secret (twitch_section (store w)) = "" ->
  ensure_twitch_client env w = (Ok None, w, []).
Proof.
  intros H. rewrite ensure_twitch_client_run. cbv zeta.
  destruct H as [-> | ->]; [done|].
  by rewrite orb_true_r.
Qed.

Lemma no_credentials_no_client_witness :
  ensure_twitch_client Example.env0
    (set_twitch (Some {| app_id := "id"; app_secret := "secret" |})
       (set_store (fun _ => default_store) Example.w0))
  = (Ok None,
     set_twitch (Some {| app_id := "id"; app_secret := "secret" |})
       (set_store (fun _ => default_store) Example.w0),
     []).
Proof. apply no_credentials_no_client. left. reflexivity. Defined.

(** X5. The client is built at most once.  After a call that returned a
    client, that client is the one kept, and every later call under
    non-empty credentials -- the same or changed ones -- returns it again
    without constructing a new one. *)
Theorem twitch_client_built_once (env : Env) (w : World) (c : TwitchClient) :
  (ensure_twitch_client env w).1.1 = Ok (Some c) ->
  let w' := (ensure_twitch_client env w).1.2 in
  twitch w' = Some c
  ∧ (forall env2 w2,
       twitch w2 = twitch w' ->
       client_id (twitch_section (store w2)) ≠ "" ->
       client_secret (twitch_section (store w2)) ≠ "" ->
       ensure_twitch_client env2 w2 = (Ok (Some c), w2, [])).
Proof.
  intros Hres w'.
  assert (Htw : twitch w' = Some c).
  { pose proof (ensure_twitch_client_keeps env w) as Hk. subst w'.
    destruct (ensure_twitch_client env w) as [[r w1] t]. simpl in *.
    destruct Hk as (_ & _ & _ & _ & _ & _ & Hc & _). by apply Hc. }
  split; [done|].
  intros env2 w2 H2 Hcid Hcsec. rewrite ensure_twitch_client_run. cbv zeta.
  rewrite !bool_decide_eq_false_2 by done. simpl. by rewrite H2, Htw.
Qed.

Lemma twitch_client_built_once_witness :
  let w' := (ensure_twitch_client Example.env0 Example.w0).1.2 in
  twitch w' = Some {| app_id := "id"; app_secret := "secret" |}
  ∧ (forall env2 w2,
       twitch w2 = twitch w' ->
       client_id (twitch_section (store w2)) ≠ "" ->
       client_secret (twitch_section (store w2)) ≠ "" ->
       ensure_twitch_client env2 w2
       = (Ok (Some {| app_id := "id"; app_secret := "secret" |}), w2, [])).
Proof.
  apply (twitch_client_built_once Example.env0 Example.w0).
  vm_compute. reflexivity.
Defined.

(** X6. When the construction of the client raises, the exception reaches
    the caller and no client is kept: the state is as before, so the next
    call tries again. *)
Theorem failed_client_is_not_kept (env : Env) (w : World) (e : exn) :
  twitch w = None ->
  client_id (twitch_section (store w)) ≠ "" ->
  client_secret (twitch_section (store w)) ≠ "" ->
  Twitch_new env (client_id (twitch_section (store w)))
    (client_secret (twitch_section (store w))) = Some e ->
  ensure_twitch_client env w
  = (Raise e, w,
     [TwitchNew (client_id (twitch_section (store w)))
        (client_secret (twitch_section (store w)))]).
Proof.
  intros Htw Hcid Hcsec Hnew. rewrite ensure_twitch_client_run. cbv zeta.
  rewrite !bool_decide_eq_false_2 by done. simpl. by rewrite Htw, Hnew.
Qed.

(** An environment in which every outside call fails. *)
Module Outage.

Definition env_down : Env := {|
  str_strip := ascii_strip;
  str_lower := ascii_lower;
  json_dumps := MiniJson.dumps;
  json_loads := MiniJson.loads;
  utc_now_isoformat := "2024-01-02T03:04:05+00:00";
  fromisoformat_strftime := fun _ => None;
  ws_send_text := fun _ _ => Some RuntimeError;
  httpx_post := fun _ _ => Some HTTPError;
  Twitch_new := fun _ _ => Some TwitchAPIException;
  get_users := fun _ => Raise TwitchAPIException;
  get_games := fun _ => Raise TwitchAPIException;
  es_listen := Some RuntimeError;
  es_listen_topic := fun _ _ => Some TwitchAPIException
|}.

(** Twitch answers but knows no user and no game; the socket cannot be
    opened. *)
Definition env_empty : Env := {|
  str_strip := ascii_strip;
  str_lower := ascii_lower;
  json_dumps := MiniJson.dumps;
  json_loads := MiniJson.loads;
  utc_now_isoformat := "2024-01-02T03:04:05+00:00";
  fromisoformat_strftime := fun _ => None;
  ws_send_text := fun _ _ => None;
  httpx_post := fun _ _ => None;
  Twitch_new := fun _ _ => None;
  get_users := fun _ => Ok [];
  get_games := fun _ => Ok [];
  es_listen := Some RuntimeError;
  es_listen_topic := fun _ _ => None
|}.

(** Twitch resolves every login to Alice; the socket cannot be opened. *)
Definition env_no_socket : Env := {|
  str_strip := ascii_strip;
  str_lower := ascii_lower;
  json_dumps := MiniJson.dumps;
  json_loads := MiniJson.loads;
  utc_now_isoformat := "2024-01-02T03:04:05+00:00";
  fromisoformat_strftime := fun _ => None;
  ws_send_text := fun _ _ => None;
  httpx_post := fun _ _ => None;
  Twitch_new := fun _ _ => None;
  get_users := fun _ => Ok [("42", "Alice")];
  get_games := fun _ => Ok [];
  es_listen := Some RuntimeError;
  es_listen_topic := fun _ _ => None
|}.

End Outage.

Lemma failed_client_is_not_kept_witness :
  ensure_twitch_client Outage.env_down Example.w0
  = (Raise TwitchAPIException, Example.w0, [TwitchNew "id" "secret"]).
Proof.
  apply (failed_client_is_not_kept Outage.env_down Example.w0 TwitchAPIException);
    (reflexivity || (vm_compute; discriminate)).
Defined.

Lemma game_name_for_run (env : Env) (g : string) (w : World) :
  g ≠ "" ->
  game_name_for env (Some g) w
  = match GAME_CACHE w !! g with
    | Some name => (Ok (Some name), w, [])
    | None =>
        match ensure_twitch_client env w with
        | (Ok (Some _), w1, t1) =>
            match get_games env g with
            | Ok (name :: _) =>
                (Ok (Some name), set_GAME_CACHE (insert g name) w1,
                 t1 ++ [GetGames g])
            | Ok [] => (Ok None, w1, t1 ++ [GetGames g])
            | Raise e => (Raise e, w1, t1 ++ [GetGames g])
            end
        | (Ok None, w1, t1) => (Ok None, w1, t1)
        | (Raise e, w1, t1) => (Raise e, w1, t1)
        end
    end.
Proof.
  intros Hg. unfold game_name_for. rewrite bool_decide_eq_false_2 by done.
  rewrite bind_run. unfold gets at 1. cbv beta iota.
  destruct (GAME_CACHE w !! g) as [name|]; [done|].
  rewrite bind_run.
  destruct (ensure_twitch_client env w) as [[[[c|]|e] w1] t1]; [| |done].
  - munfold. cbn. destruct (get_games env g) as [[|name names]|e]; cbn;
      by rewrite ?app_nil_r.
  - cbn. by rewrite app_nil_r.
Qed.

(** X7. Category names are cached by id: once [game_name_for] has returned
    a name for an id, the cache holds it, and every later lookup of that id
    -- under any outcomes of the outside calls, in any state whose cache
    still holds it -- returns that name, contacts nobody and changes
    nothing. *)
Theorem game_names_are_cached (env : Env) (g name : string) (w : World) :
  (game_name_for env (Some g) w).1.1 = Ok (Some name) ->
  let w' := (game_name_for env (Some g) w).1.2 in
  GAME_CACHE w' !! g = Some name
  ∧ (forall env2 w2, GAME_CACHE w2 !! g = Some name ->
       game_name_for env2 (Some g) w2 = (Ok (Some name), w2, [])).
Proof.
  intros Hres w'.
  assert (Hg : g ≠ "").
  { intros ->. by rewrite (game_name_for_falsy env (Some "") w) in Hres. }
  split.
  - subst w'. revert Hres. rewrite game_name_for_run by done.
    destruct (GAME_CACHE w !! g) as [cached|] eqn:Hc.
    + simpl. by intros [= ->].
    + destruct (ensure_twitch_client env w) as [[[[c|]|e] w1] t1]; [| |done].
      * destruct (get_games env g) as [[|n ns]|e]; [done| |done].
        simpl. intros [= ->]. apply lookup_insert_eq.
      * done.
  - intros env2 w2 H2. rewrite game_name_for_run by done. by rewrite H2.
Qed.

Lemma game_names_are_cached_witness :
  let w' := (game_name_for Example.env0 (Some "509658") Example.w0).1.2 in
  GAME_CACHE w' !! "509658" = Some "Chess"
  ∧ (forall env2 w2, GAME_CACHE w2 !! "509658" = Some "Chess" ->
       game_name_for env2 (Some "509658") w2 = (Ok (Some "Chess"), w2, [])).
Proof.
  apply (game_names_are_cached Example.env0 "509658" "Chess" Example.w0).
  vm_compute. reflexivity.
Defined.

(** X8. An id that Twitch does not know is not cached: the answer is
    [None], the cache is as before, and the next lookup asks Twitch
    again. *)
Theorem unknown_game_is_not_cached (env : Env) (g : string) (w : World)
    (c : TwitchClient) :
  g ≠ "" ->
  GAME_CACHE w !! g = None ->
  twitch w = Some c ->
  client_id (twitch_section (store w)) ≠ "" ->
  client_secret (twitch_section (store w)) ≠ "" ->
  get_games env g = Ok [] ->
  game_name_for env (Some g) w = (Ok None, w, [GetGames g]).
Proof.
  intros Hg Hcache Htw Hcid Hcsec Hgames.
  rewrite game_name_for_run by done. rewrite Hcache.
  rewrite ensure_twitch_client_run. cbv zeta.
  rewrite !bool_decide_eq_false_2 by done. simpl. by rewrite Htw, Hgames.
Qed.

Lemma unknown_game_is_not_cached_witness :
  game_name_for Outage.env_empty (Some "1")
    (set_twitch (Some {| app_id := "id"; app_secret := "secret" |}) Example.w0)
  = (Ok None,
     set_twitch (Some {| app_id := "id"; app_secret := "secret" |}) Example.w0,
     [GetGames "1"]).
Proof.
  apply (unknown_game_is_not_cached Outage.env_empty "1" _
           {| app_id := "id"; app_secret := "secret" |});
    (reflexivity || (vm_compute; discriminate) || done).
Defined.

(** ** Adding and removing streamers *)

Lemma resolve_login_to_user_keeps (env : Env) (login : string) (w : World) :
  match resolve_login_to_user env login w with
  | (r, w', t) =>
      store w' = store w ∧ files w' = files w ∧ es w' = es w
      ∧ WS_CLIENTS w' = WS_CLIENTS w ∧ GAME_CACHE w' = GAME_CACHE w
      ∧ Forall is_lookup t
      ∧ (is_Some (twitch w) -> w' = w)
      ∧ (forall u, r = Ok (Some u) -> is_Some (twitch w'))
  end.
Proof.
  unfold resolve_login_to_user. rewrite bind_run.
  pose proof (ensure_twitch_client_keeps env w) as Hk.
  destruct (ensure_twitch_client env w) as [[[[c|]|e] w1] t1];
    destruct Hk as (Hs & Hf & He & Hc & Hg & Ht & Htw & Hsame).
  - munfold. cbn.
    assert (Hl : Forall is_lookup (t1 ++ [GetUsers login])).
    { apply Forall_app. split; [done|by repeat constructor]. }
    assert (Hw : is_Some (twitch w) -> w1 = w) by (intros H; by apply Hsame).
    assert (Hc1 : is_Some (twitch w1)) by (exists c; by apply Htw).
    destruct (get_users env login) as [[|u us]|e]; cbn;
      rewrite ?app_nil_r; split_and!; try done.
  - cbn. rewrite app_nil_r. split_and!; try done. intros H. by apply Hsame.
  - split_and!; try done. intros H. by apply Hsame.
Qed.

Lemma admin_streamer_add_run (env : Env) (login : string) (w w1 : World)
    (uid dn : string) (t1 : list Effect) :
  str_lower env (str_strip env login) ≠ "" ->
  resolve_login_to_user env (str_lower env (str_strip env login)) w = (Ok (Some (uid, dn)), w1, t1) ->
  admin_streamer_add env login w
  = let l := str_lower env (str_strip env login) in
    let rec := new_record uid dn
                 (py_get_default "last_live" (VStr "")
                    (default ∅ (od_get l (streamers (store w1))))) in
    let w2 := set_store (set_streamers (od_set l rec)) w1 in
    let w3 := set_files (fun fs => saved env (store w2) fs) w2 in
    match start_eventsub env w3 with
    | (Ok _, w4, t4) =>
        match
          match es w4 with
          | Some _ =>
              es_subscribe env (VStr uid) stream_online;;
              es_subscribe env (VStr uid) stream_offline;;
              es_subscribe env (VStr uid) channel_update
          | None => mret tt
          end w4
        with
        | (Ok _, w5, t5) =>
            (Ok (RedirectResponse "/admin" 302),
             set_WS_CLIENTS (survivors env (store w5) (WS_CLIENTS w5)) w5,
             t1 ++ persist_effects env (store w2) ++ t4 ++ t5
               ++ broadcast_effects env (store w5) (WS_CLIENTS w5))
        | (Raise e, w5, t5) =>
            (Raise e, w5, t1 ++ persist_effects env (store w2) ++ t4 ++ t5)
        end
    | (Raise e, w4, t4) =>
        (Raise e, w4, t1 ++ persist_effects env (store w2) ++ t4)
    end.
Proof.
  intros Hl Hres. unfold admin_streamer_add. cbv zeta.
  rewrite bool_decide_eq_false_2 by done.
  rewrite bind_run, Hres. cbv beta iota.
  rewrite bind_run. unfold gets at 1. cbv beta iota.
  rewrite bind_run. unfold modify at 1. cbv beta iota.
  rewrite bind_run, persist_run. cbv beta iota.
  rewrite bind_run.
  destruct (start_eventsub env _) as [[[[]|e] w4] t4]; [|by cbn].
  rewrite bind_run. unfold gets at 1. cbv beta iota.
  rewrite bind_run.
  match goal with
  | |- context [match es w4 with Some _ => ?a | None => ?b end w4] =>
      destruct (match es w4 with Some _ => a | None => b end w4)
        as [[[[]|e] w5] t5]
  end.
  - rewrite bind_run, push_run. cbn. by rewrite !app_nil_r.
  - by cbn.
Qed.

Lemma resolve_Some_credentials (env : Env) (login : string) (w : World)
    (u : string * string) :
  (resolve_login_to_user env login w).1.1 = Ok (Some u) ->
  client_id (twitch_section (store w)) ≠ ""
  ∧ client_secret (twitch_section (store w)) ≠ "".
Proof.
  unfold resolve_login_to_user. rewrite bind_run, ensure_twitch_client_run.
  cbv zeta.
  destruct (bool_decide (client_id (twitch_section (store w)) = "")) eqn:H1;
    [done|].
  destruct (bool_decide (client_secret (twitch_section (store w)) = "")) eqn:H2;
    [done|].
  intros _. split.
  - by apply bool_decide_eq_false in H1.
  - by apply bool_decide_eq_false in H2.
Qed.

(** X9. An add that is turned down changes nothing: for a login that
    [login.strip().lower()] leaves empty the answer is the redirect and no
    outside call is made; for a login that resolves to no user the answer is "User not
    found" with status 400 and only the lookup has been made.  In both
    cases the store, the files, the subscribers and the socket are as
    before. *)
Theorem rejected_add_changes_nothing (env : Env) (login : string) (w : World) :
  str_lower env (str_strip env login) = ""
    ∨ (resolve_login_to_user env (str_lower env (str_strip env login)) w).1.1 = Ok None ->
  let out := admin_streamer_add env login w in
  out.1.1 = Ok (if bool_decide (str_lower env (str_strip env login) = "")
                then RedirectResponse "/admin" 302
                else PlainTextResponse "User not found" 400)
  ∧ (str_lower env (str_strip env login) = "" -> out = (Ok (RedirectResponse "/admin" 302), w, []))
  ∧ store out.1.2 = store w ∧ files out.1.2 = files w
  ∧ WS_CLIENTS out.1.2 = WS_CLIENTS w ∧ es out.1.2 = es w
  ∧ Forall is_lookup out.2.
Proof.
  intros H out. subst out. unfold admin_streamer_add. cbv zeta.
  case_bool_decide as Hl.
  { cbn. split_and!; try done. }
  destruct H as [H|H]; [done|].
  rewrite bind_run.
  pose proof (resolve_login_to_user_keeps env (str_lower env (str_strip env login)) w) as Hk.
  destruct (resolve_login_to_user env (str_lower env (str_strip env login)) w)
    as [[[[u|]|e] w1] t1]; try done.
  destruct Hk as (Hs & Hf & He & Hc & _ & Ht & _).
  cbn. rewrite app_nil_r. split_and!; try done.
Qed.

Lemma rejected_add_changes_nothing_witness :
  let login := Example.nbsp +:+ " " in
  let out := admin_streamer_add Example.env_utf8 login Example.w0 in
  str_lower Example.env_utf8 (str_strip Example.env_utf8 login) = ""
  ∧ out = (Ok (RedirectResponse "/admin" 302), Example.w0, []).
Proof.
  assert (Hblank : str_lower Example.env_utf8
                     (str_strip Example.env_utf8 (Example.nbsp +:+ " ")) = "")
    by (vm_compute; reflexivity).
  split; [exact Hblank|].
  apply (rejected_add_changes_nothing Example.env_utf8 (Example.nbsp +:+ " ")
           Example.w0 (or_introl Hblank)).
  exact Hblank.
Defined.

Lemma wanted_subscriptions_elem (sts : odict (gmap string value))
    (login : string) (s : gmap string value) (t : Topic) :
  (login, s) ∈ sts -> truthy (py_get "user_id" s) = true -> t ∈ topics ->
  (py_get "user_id" s, t) ∈ wanted_subscriptions sts.
Proof.
  intros Hin Hu Ht. unfold wanted_subscriptions.
  apply list_elem_of_In, in_flat_map. exists (login, s).
  split; [by apply list_elem_of_In|]. cbv zeta. cbn [snd]. rewrite Hu.
  apply in_map. by apply list_elem_of_In.
Qed.

Lemma subscribe_three (env : Env) (uid : value) (w w' : World) (t : list Effect)
    (e0 : EventSubWebsocket) :
  es w = Some e0 ->
  (es_subscribe env uid stream_online;;
   es_subscribe env uid stream_offline;;
   es_subscribe env uid channel_update) w = (Ok tt, w', t) ->
  w' = set_es (Some {| subscriptions :=
                         subscriptions e0 ++ map (pair uid) topics |}) w
  ∧ t = subscribe_effects (map (pair uid) topics).
Proof.
  intros He0. rewrite bind_run, es_subscribe_run.
  destruct (es_listen_topic env uid stream_online); [done|].
  cbv beta iota. rewrite bind_run, es_subscribe_run.
  destruct (es_listen_topic env uid stream_offline); [done|].
  cbv beta iota. rewrite es_subscribe_run.
  destruct (es_listen_topic env uid channel_update); [done|].
  cbn. rewrite He0. cbn. intros [= <- <-].
  by rewrite !set_es_set_es, <- !app_assoc.
Qed.

(** X10. The first streamer added while no socket exists is subscribed
    twice.  The record is stored before [start_eventsub] runs, so the
    start-up loop already subscribes the new channel with all the others,
    and the add then subscribes its three topics once more: after a
    successful add the socket's subscriptions are those of the whole new
    registry followed by the three of the new channel again. *)
Theorem first_add_subscribes_twice (env : Env) (login : string) (w : World)
    (uid dn : string) :
  str_lower env (str_strip env login) ≠ "" ->
  uid ≠ "" ->
  (resolve_login_to_user env (str_lower env (str_strip env login)) w).1.1 = Ok (Some (uid, dn)) ->
  es w = None ->
  (admin_streamer_add env login w).1.1 = Ok (RedirectResponse "/admin" 302) ->
  let w' := (admin_streamer_add env login w).1.2 in
  let sts' := streamers (store w') in
  es w' = Some {| subscriptions :=
                    wanted_subscriptions sts' ++ map (pair (VStr uid)) topics |}
  ∧ (forall t, t ∈ topics -> (VStr uid, t) ∈ wanted_subscriptions sts').
Proof.
  intros Hl Huid Hres Hes Hok w' sts'.
  pose proof (resolve_Some_credentials _ _ _ _ Hres) as [Hcid Hcsec].
  pose proof (resolve_login_to_user_keeps env (str_lower env (str_strip env login)) w) as Hk.
  destruct (resolve_login_to_user env (str_lower env (str_strip env login)) w)
    as [[r w1] t1] eqn:Hrun. simpl in Hres. subst r.
  destruct Hk as (Hs & Hf & He & Hc & _ & Ht & _ & Htw).
  subst w' sts'. revert Hok.
  rewrite (admin_streamer_add_run env login w w1 uid dn t1 Hl Hrun). cbv zeta.
  set (rec := new_record uid dn _).
  set (w2 := set_store (set_streamers (od_set (str_lower env (str_strip env login)) rec)) w1).
  set (w3 := set_files _ w2).
  destruct (start_eventsub env w3) as [[[[]|e] w4] t4] eqn:Hstart; [|done].
  assert (Hfirst := start_eventsub_first env w3).
  rewrite Hstart in Hfirst. cbn [fst snd] in Hfirst.
  destruct Hfirst as (w0 & lookups & [= -> ->] & _ & _ & Hs0 & _).
  { subst w3 w2. cbn. by rewrite Hs. }
  { subst w3 w2. cbn. by rewrite Hs. }
  { subst w3 w2. cbn. by rewrite He. }
  { done. }
  cbn [es set_es].
  match goal with
  | |- context [(?m) (set_es ?e0 w0)] =>
      destruct (m (set_es e0 w0)) as [[[[]|e] w5] t5] eqn:Hsub; [|done]
  end.
  eapply subscribe_three in Hsub; [|reflexivity]. destruct Hsub as [-> ->].
  intros _. cbn [fst snd store es set_es set_WS_CLIENTS subscriptions].
  rewrite Hs0. split; [done|].
  intros t Ht0. subst w3 w2. cbn.
  assert (Hrec : py_get "user_id" rec = VStr uid).
  { unfold py_get, rec. by rewrite (proj1 (new_record_fields uid dn _)). }
  rewrite <- Hrec.
  apply (wanted_subscriptions_elem _ (str_lower env (str_strip env login)) rec); [| |done].
  - apply od_get_Some_elem, od_get_set.
  - rewrite Hrec. simpl. by rewrite bool_decide_eq_false_2.
Qed.

Lemma first_add_subscribes_twice_witness :
  let w' := (admin_streamer_add Example.env0 "alice" Example.w_removed).1.2 in
  let sts' := streamers (store w') in
  es w' = Some {| subscriptions :=
                    wanted_subscriptions sts' ++ map (pair (VStr "42")) topics |}
  ∧ (forall t, t ∈ topics -> (VStr "42", t) ∈ wanted_subscriptions sts').
Proof.
  apply (first_add_subscribes_twice Example.env0 "alice" Example.w_removed
           "42" "Alice").
  - vm_compute. discriminate.
  - discriminate.
  - vm_compute. reflexivity.
  - vm_compute. reflexivity.
  - vm_compute. reflexivity.
Defined.

Lemma filter_eventsub_broadcast (env : Env) (st : Store) (clients : list WebSocket) :
  filter is_eventsub (broadcast_effects env st clients) = [].
Proof. induction clients as [|ws clients IH]; [done|]. exact IH. Qed.

Lemma filter_eventsub_lookups (t : list Effect) :
  Forall is_lookup t -> filter is_eventsub t = [].
Proof.
  intros H. apply filter_none. eapply Forall_impl; [exact H|].
  intros e He. by destruct e.
Qed.

(** X11. An add while the socket is up leaves the connection and the
    subscriptions of the other channels alone: [start_eventsub] does
    nothing, and the only calls on the socket are the three subscriptions
    of the new channel, appended to those it had. *)
Theorem later_add_subscribes_new_channel_only (env : Env) (login : string)
    (w : World) (uid dn : string) (e0 : EventSubWebsocket) :
  str_lower env (str_strip env login) ≠ "" ->
  (resolve_login_to_user env (str_lower env (str_strip env login)) w).1.1 = Ok (Some (uid, dn)) ->
  es w = Some e0 ->
  is_Some (twitch w) ->
  (admin_streamer_add env login w).1.1 = Ok (RedirectResponse "/admin" 302) ->
  let w' := (admin_streamer_add env login w).1.2 in
  let tr := (admin_streamer_add env login w).2 in
  es w' = Some {| subscriptions :=
                    subscriptions e0 ++ map (pair (VStr uid)) topics |}
  ∧ filter is_eventsub tr = subscribe_effects (map (pair (VStr uid)) topics).
Proof.
  intros Hl Hres Hes Htw Hok w' tr.
  pose proof (resolve_login_to_user_keeps env (str_lower env (str_strip env login)) w) as Hk.
  destruct (resolve_login_to_user env (str_lower env (str_strip env login)) w)
    as [[r w1] t1] eqn:Hrun. simpl in Hres. subst r.
  destruct Hk as (_ & _ & _ & _ & _ & Ht & Hsame & _).
  specialize (Hsame Htw). subst w1.
  subst w' tr. revert Hok.
  rewrite (admin_streamer_add_run env login w w uid dn t1 Hl Hrun). cbv zeta.
  rewrite start_eventsub_when_started; [|by cbn; rewrite Hes|by cbn].
  cbn [es set_files set_store]. rewrite Hes.
  match goal with
  | |- context [(?m) ?w3] =>
      lazymatch m with
      | mbind _ _ =>
          destruct (m w3) as [[[[]|e] w5] t5] eqn:Hsub; [|done]
      end
  end.
  eapply subscribe_three in Hsub; [|by cbn; rewrite Hes].
  destruct Hsub as [-> ->]. intros _.
  cbn [fst snd es set_es set_WS_CLIENTS]. split; [done|].
  rewrite !filter_app, filter_eventsub_lookups, filter_eventsub_broadcast by done.
  cbn [app]. rewrite filter_eventsub_subscribe, app_nil_r.
  reflexivity.
Qed.

Lemma later_add_subscribes_new_channel_only_witness :
  let w := set_twitch (Some {| app_id := "id"; app_secret := "secret" |})
             (set_es (Some {| subscriptions := [(VStr "7", stream_online)] |})
                Example.w_removed) in
  let w' := (admin_streamer_add Example.env0 "alice" w).1.2 in
  let tr := (admin_streamer_add Example.env0 "alice" w).2 in
  es w' = Some {| subscriptions :=
                    [(VStr "7", stream_online)] ++ map (pair (VStr "42")) topics |}
  ∧ filter is_eventsub tr = subscribe_effects (map (pair (VStr "42")) topics).
Proof.
  apply (later_add_subscribes_new_channel_only Example.env0 "alice" _ "42" "Alice"
           {| subscriptions := [(VStr "7", stream_online)] |}).
  - vm_compute. discriminate.
  - vm_compute. reflexivity.
  - reflexivity.
  - by eexists.
  - vm_compute. reflexivity.
Defined.

(** ** The life of the EventSub socket *)

Lemma start_eventsub_listen_fails (env : Env) (w : World) (c : TwitchClient)
    (e : exn) :
  (ensure_twitch_client env w).1.1 = Ok (Some c) ->
  es w = None ->
  es_listen env = Some e ->
  start_eventsub env w
  = (Raise e,
     set_es (Some {| subscriptions := [] |}) (ensure_twitch_client env w).1.2,
     (ensure_twitch_client env w).2 ++ [EsNew; EsListen]).
Proof.
  intros Hc Hes Hlisten. unfold start_eventsub. rewrite bind_run.
  pose proof (ensure_twitch_client_keeps env w) as Hk.
  destruct (ensure_twitch_client env w) as [[r w1] t1]. simpl in Hc. subst r.
  destruct Hk as (_ & _ & He & _).
  cbv beta iota. rewrite bind_run. unfold gets at 1. cbv beta iota.
  rewrite He, Hes.
  rewrite bind_run. unfold emit at 1. cbv beta iota.
  rewrite bind_run. unfold modify at 1. cbv beta iota.
  rewrite bind_run. unfold emit at 1. cbv beta iota.
  rewrite bind_run, Hlisten. reflexivity.
Qed.

(** X12. A socket that fails to open stays in the way.  [start_eventsub]
    stores the new socket before it opens it; when opening raises, the call
    raises with the socket kept and nothing subscribed, and from then on
    every call of [start_eventsub] finds a socket and does nothing: no
    channel is subscribed until the socket is dropped. *)
Theorem failed_socket_blocks_later_starts (env : Env) (w : World)
    (c : TwitchClient) (e : exn) :
  (ensure_twitch_client env w).1.1 = Ok (Some c) ->
  es w = None ->
  es_listen env = Some e ->
  let out := start_eventsub env w in
  out.1.1 = Raise e
  ∧ es out.1.2 = Some {| subscriptions := [] |}
  ∧ filter is_eventsub out.2 = [EsNew; EsListen]
  ∧ (forall env2, start_eventsub env2 out.1.2 = (Ok tt, out.1.2, [])).
Proof.
  intros Hc Hes Hlisten out. subst out.
  rewrite (start_eventsub_listen_fails env w c e Hc Hes Hlisten). cbn [fst snd].
  pose proof (ensure_twitch_client_keeps env w) as Hk.
  destruct (ensure_twitch_client env w) as [[r w1] t1]. simpl in *. subst r.
  destruct Hk as (_ & _ & _ & _ & _ & Ht & Htw & _).
  split_and!; try done.
  - by rewrite filter_app, filter_eventsub_lookups.
  - intros env2. apply start_eventsub_when_started; [by eexists|].
    cbn. exists c. by apply Htw.
Qed.

Lemma failed_socket_blocks_later_starts_witness :
  let out := start_eventsub Outage.env_empty Example.w0 in
  out.1.1 = Raise RuntimeError
  ∧ es out.1.2 = Some {| subscriptions := [] |}
  ∧ filter is_eventsub out.2 = [EsNew; EsListen]
  ∧ (forall env2, start_eventsub env2 out.1.2 = (Ok tt, out.1.2, [])).
Proof.
  apply (failed_socket_blocks_later_starts Outage.env_empty Example.w0
           {| app_id := "id"; app_secret := "secret" |} RuntimeError);
    reflexivity.
Defined.

(** X13. An add whose socket start fails has already taken effect.  The
    record is stored and written to disk before [start_eventsub] runs, so
    when the socket cannot be opened the request ends with that exception
    while the new record is in the registry and in [store.json]; the
    browsers are sent nothing. *)
Theorem add_is_stored_before_socket_failure (env : Env) (login : string)
    (w : World) (uid dn : string) (e : exn) :
  str_lower env (str_strip env login) ≠ "" ->
  (resolve_login_to_user env (str_lower env (str_strip env login)) w).1.1 = Ok (Some (uid, dn)) ->
  es w = None ->
  es_listen env = Some e ->
  let out := admin_streamer_add env login w in
  out.1.1 = Raise e
  ∧ (exists s', od_get (str_lower env (str_strip env login)) (streamers (store out.1.2)) = Some s'
       ∧ s' !! "user_id" = Some (VStr uid))
  ∧ files out.1.2 !! STORE_PATH = Some (persisted_text env (store out.1.2))
  ∧ filter is_send out.2 = [].
Proof.
  intros Hl Hres Hes Hlisten out. subst out.
  pose proof (resolve_Some_credentials _ _ _ _ Hres) as [Hcid Hcsec].
  pose proof (resolve_login_to_user_keeps env (str_lower env (str_strip env login)) w) as Hk.
  destruct (resolve_login_to_user env (str_lower env (str_strip env login)) w)
    as [[r w1] t1] eqn:Hrun. simpl in Hres. subst r.
  destruct Hk as (Hs & Hf & He & Hc & _ & Ht & _ & Htw).
  destruct (Htw _ eq_refl) as [c Hc1].
  rewrite (admin_streamer_add_run env login w w1 uid dn t1 Hl Hrun). cbv zeta.
  set (rec := new_record uid dn _).
  set (w2 := set_store (set_streamers (od_set (str_lower env (str_strip env login)) rec)) w1).
  set (w3 := set_files _ w2).
  assert (Hens : ensure_twitch_client env w3 = (Ok (Some c), w3, [])).
  { rewrite ensure_twitch_client_run. cbv zeta. subst w3 w2. cbn.
    rewrite Hs, !bool_decide_eq_false_2 by done. simpl. by rewrite Hc1. }
  rewrite (start_eventsub_listen_fails env w3 c e);
    [|by rewrite Hens|by subst w3 w2; cbn; rewrite He|done].
  rewrite Hens. cbn [fst snd store files set_es].
  split_and!.
  - done.
  - exists rec. subst w3 w2. cbn. split; [apply od_get_set|].
    apply new_record_fields.
  - subst w3 w2. cbn. apply lookup_insert_eq.
  - rewrite !filter_app.
    rewrite (filter_none is_send t1);
      [|eapply Forall_impl; [exact Ht|]; intros x Hx; by destruct x].
    reflexivity.
Qed.

Lemma add_is_stored_before_socket_failure_witness :
  let out := admin_streamer_add Outage.env_no_socket "Alice" Example.w_removed in
  out.1.1 = Raise RuntimeError
  ∧ (exists s', od_get (str_lower Outage.env_no_socket (str_strip Outage.env_no_socket "Alice")) (streamers (store out.1.2)) = Some s'
       ∧ s' !! "user_id" = Some (VStr "42"))
  ∧ files out.1.2 !! STORE_PATH
    = Some (persisted_text Outage.env_no_socket (store out.1.2))
  ∧ filter is_send out.2 = [].
Proof.
  apply (add_is_stored_before_socket_failure Outage.env_no_socket "Alice"
           Example.w_removed "42" "Alice" RuntimeError).
  - vm_compute. discriminate.
  - vm_compute. reflexivity.
  - vm_compute. reflexivity.
  - reflexivity.
Defined.

Lemma wanted_subscriptions_spec (sts : odict (gmap string value))
    (uid : value) (t : Topic) :
  (uid, t) ∈ wanted_subscriptions sts
  <-> t ∈ topics ∧ truthy uid = true
      ∧ exists login s, (login, s) ∈ sts ∧ py_get "user_id" s = uid.
Proof.
  split.
  - unfold wanted_subscriptions. rewrite list_elem_of_In, in_flat_map.
    intros ([login s] & Hin & Hut). cbv zeta in Hut. cbn [snd] in Hut.
    destruct (truthy (py_get "user_id" s)) eqn:Hu; [|done].
    apply in_map_iff in Hut as (t0 & [= <- <-] & Ht0).
    split_and!; [by apply list_elem_of_In|done|]. exists login, s.
    split; [|done]. by apply list_elem_of_In.
  - intros (Ht & Hu & login & s & Hin & <-).
    by apply (wanted_subscriptions_elem sts login s).
Qed.

Lemma resubscribe_all_run (env : Env) (stopped : option exn) (w : World) :
  resubscribe_all env stopped w = start_eventsub env (set_es None w).
Proof.
  unfold resubscribe_all. rewrite bind_run. unfold gets at 1. cbv beta iota.
  rewrite bind_run.
  destruct (es w) as [e0|] eqn:Hes.
  - rewrite bind_run. unfold try_except, modify.
    destruct stopped as [e|]; cbn;
      by destruct (start_eventsub env (set_es None w)) as [[r w'] t].
  - cbn. replace (set_es None w) with w by (destruct w; simpl in *; by subst).
    by destruct (start_eventsub env w) as [[r w'] t].
Qed.

(** X14. [resubscribe_all] rebuilds the subscriptions from the registry.
    Whether or not a socket existed, and whatever stopping the old one did
    (an exception of [es.stop()] is swallowed), a call that returns
    normally under credentials leaves a fresh socket subscribed to exactly
    the three topics of each record with a usable [user_id]: what the old
    socket was subscribed to, for removed channels or twice, is gone. *)
Theorem resubscribe_all_rebuilds (env : Env) (stopped : option exn) (w : World) :
  client_id (twitch_section (store w)) ≠ "" ->
  client_secret (twitch_section (store w)) ≠ "" ->
  (resubscribe_all env stopped w).1.1 = Ok tt ->
  let w' := (resubscribe_all env stopped w).1.2 in
  let tr := (resubscribe_all env stopped w).2 in
  es w' = Some {| subscriptions := wanted_subscriptions (streamers (store w)) |}
  ∧ store w' = store w
  ∧ filter is_eventsub tr
    = [EsNew; EsListen]
        ++ subscribe_effects (wanted_subscriptions (streamers (store w)))
        ++ [EsRun]
  ∧ (forall uid t, (uid, t) ∈ wanted_subscriptions (streamers (store w)) <->
       t ∈ topics ∧ truthy uid = true
       ∧ exists login s, (login, s) ∈ streamers (store w)
                         ∧ py_get "user_id" s = uid).
Proof.
  intros Hcid Hcsec Hok w' tr. subst w' tr. revert Hok.
  rewrite resubscribe_all_run. intros Hok.
  destruct (start_eventsub_first env (set_es None w) Hcid Hcsec eq_refl Hok)
    as (w1 & lookups & Hrun & Hl & _ & Hs & _).
  rewrite Hrun. cbn [fst snd es set_es store].
  split_and!; try done.
  - rewrite filter_app, filter_eventsub_lookups by done.
    by rewrite !filter_app, filter_eventsub_subscribe.
  - intros uid t. apply wanted_subscriptions_spec.
Qed.

Lemma resubscribe_all_rebuilds_witness :
  let w := set_es (Some {| subscriptions := [(VStr "7", stream_online)] |})
             Example.w_off in
  let w' := (resubscribe_all Example.env0 (Some RuntimeError) w).1.2 in
  let tr := (resubscribe_all Example.env0 (Some RuntimeError) w).2 in
  es w' = Some {| subscriptions := wanted_subscriptions (streamers (store w)) |}
  ∧ store w' = store w
  ∧ filter is_eventsub tr
    = [EsNew; EsListen]
        ++ subscribe_effects (wanted_subscriptions (streamers (store w)))
        ++ [EsRun]
  ∧ (forall uid t, (uid, t) ∈ wanted_subscriptions (streamers (store w)) <->
       t ∈ topics ∧ truthy uid = true
       ∧ exists login s, (login, s) ∈ streamers (store w)
                         ∧ py_get "user_id" s = uid).
Proof.
  apply (resubscribe_all_rebuilds Example.env0 (Some RuntimeError)).
  - vm_compute. discriminate.
  - vm_compute. discriminate.
  - vm_compute. reflexivity.
Defined.

(** X15. Started without credentials the program contacts nobody: the
    start-up hook returns normally with no client, no socket and no
    subscription, and the state as it was. *)
Theorem startup_without_credentials (env : Env) (w : World) :
  client_id (twitch_section (store w)) = ""
    ∨ client_secret (twitch_section (store w)) = "" ->
  on_startup env w = (Ok tt, w, []).
Proof.
  intros H. unfold on_startup, start_eventsub.
  assert (Hnone : ensure_twitch_client env w = (Ok None, w, [])).
  { rewrite ensure_twitch_client_run. cbv zeta.
    destruct H as [-> | ->]; [done|]. by rewrite orb_true_r. }
  rewrite bind_run, Hnone. cbv beta iota. rewrite bind_run, Hnone. reflexivity.
Qed.

Lemma startup_without_credentials_witness :
  on_startup Example.env0 (set_store (fun _ => default_store) Example.w0)
  = (Ok tt, set_store (fun _ => default_store) Example.w0, []).
Proof. apply startup_without_credentials. left. reflexivity. Defined.

Lemma od_get_del_ne {V} (k k' : string) (d : odict V) :
  k ≠ k' -> od_get k' (od_del k d) = od_get k' d.
Proof.
  intros Hne. induction d as [|[k0 v0] d IH]; [done|]. simpl.
  case_decide as Hk; simpl.
  - subst k0. case_decide; [congruence|done].
  - case_decide; [done|apply IH].
Qed.

(** X16. Removing a streamer takes the record of the normalised login
    (what [login.strip().lower()] returns) out of the registry and leaves
    everything else alone: the other records, the Twitch client, the name
    cache and the EventSub socket with all its subscriptions -- nothing is
    unsubscribed.  Removing a login that is not tracked does nothing at
    all. *)
Theorem remove_leaves_socket_alone (env : Env) (login : string) (w : World) :
  od_wf (streamers (store w)) ->
  let l := str_lower env (str_strip env login) in
  let out := admin_streamer_remove env login w in
  out.1.1 = Ok (RedirectResponse "/admin" 302)
  ∧ od_get l (streamers (store out.1.2)) = None
  ∧ (forall l', l' ≠ l ->
       od_get l' (streamers (store out.1.2)) = od_get l' (streamers (store w)))
  ∧ es out.1.2 = es w ∧ twitch out.1.2 = twitch w
  ∧ GAME_CACHE out.1.2 = GAME_CACHE w
  ∧ filter is_eventsub out.2 = []
  ∧ (od_get l (streamers (store w)) = None ->
       out = (Ok (RedirectResponse "/admin" 302), w, [])).
Proof.
  intros Hwf l out.
  assert (Hgone : od_get l (streamers (store out.1.2)) = None)
    by by apply removed_login_untracked.
  subst out. revert Hgone. rewrite admin_streamer_remove_run. fold l.
  unfold od_mem. destruct (od_get l (streamers (store w))) as [s|] eqn:Hget.
  - cbn. intros Hgone. split_and!; try done.
    + intros l' Hne. by apply od_get_del_ne.
    + apply filter_eventsub_broadcast.
  - cbn. intros _. split_and!; done.
Qed.

Lemma remove_leaves_socket_alone_witness :
  let w := set_es (Some {| subscriptions := map (pair (VStr "42")) topics |})
             Example.w_off in
  let l := str_lower Example.env0 (str_strip Example.env0 " ALICE ") in
  let out := admin_streamer_remove Example.env0 " ALICE " w in
  out.1.1 = Ok (RedirectResponse "/admin" 302)
  ∧ od_get l (streamers (store out.1.2)) = None
  ∧ (forall l', l' ≠ l ->
       od_get l' (streamers (store out.1.2)) = od_get l' (streamers (store w)))
  ∧ es out.1.2 = es w ∧ twitch out.1.2 = twitch w
  ∧ GAME_CACHE out.1.2 = GAME_CACHE w
  ∧ filter is_eventsub out.2 = []
  ∧ (od_get l (streamers (store w)) = None ->
       out = (Ok (RedirectResponse "/admin" 302), w, [])).
Proof.
  apply (remove_leaves_socket_alone Example.env0 " ALICE ").
  unfold od_wf. vm_compute. apply NoDup_singleton.
Defined.

(** ** What events leave alone *)

Lemma od_alter_fmap {V B} (g : V -> B) (f : V -> V) (k : string) (d : odict V) :
  (forall v, g (f v) = g v) ->
  (fun kv => g kv.2) <$> od_alter f k d = (fun kv => g kv.2) <$> d.
Proof.
  intros Hg. induction d as [|[k' v'] d IH]; [done|]. simpl.
  case_decide; csimpl; [by rewrite Hg|by rewrite IH].
Qed.

(** X17. Events never add, remove, rename or reorder channels: after any
    event, whether it was applied, dropped or ended in an exception, the
    registry has the same logins in the same order, each with the
    [user_id] and the [display_name] it had. *)
Theorem events_keep_the_channels (env : Env) (ev : Event) (w : World) :
  let sts := streamers (store w) in
  let sts' := streamers (store (handle env ev w).1.2) in
  sts'.*1 = sts.*1
  ∧ (fun kv => kv.2 !! "user_id") <$> sts' = (fun kv => kv.2 !! "user_id") <$> sts
  ∧ (fun kv => kv.2 !! "display_name") <$> sts'
    = (fun kv => kv.2 !! "display_name") <$> sts.
Proof.
  intros sts sts'. subst sts sts'. rewrite handle_streamers.
  destruct (find_uid (event_uid ev) (streamers (store w))) as [[login s]|];
    [|done].
  split_and!.
  - apply od_alter_keys.
  - apply (od_alter_fmap (fun s => s !! "user_id")).
    intros v. by apply event_fields_frame.
  - apply (od_alter_fmap (fun s => s !! "display_name")).
    intros v. by apply event_fields_frame.
Qed.

(** X18. An event changes one record at most, the first in registry order
    whose [user_id] is the event's: that record gets the event's field
    assignments, and the record of every other login -- one with the same
    [user_id] included -- is as before. *)
Theorem event_changes_first_match_only (env : Env) (ev : Event) (w : World)
    (login : string) (s : gmap string value) :
  od_wf (streamers (store w)) ->
  find_uid (event_uid ev) (streamers (store w)) = Some (login, s) ->
  let sts' := streamers (store (handle env ev w).1.2) in
  od_get login sts' = Some (event_fields env ev w s)
  ∧ (forall l, l ≠ login -> od_get l sts' = od_get l (streamers (store w))).
Proof.
  intros Hwf Hfind sts'. subst sts'. rewrite handle_streamers, Hfind.
  split.
  - rewrite od_get_alter.
    apply find_uid_elem in Hfind as [Hin _].
    by rewrite (od_get_elem _ _ _ Hwf Hin).
  - intros l Hne. by apply od_get_alter_ne.
Qed.

Lemma event_changes_first_match_only_witness :
  let w := set_store (set_streamers (fun sts =>
             sts ++ [("alice_alt", new_record "42" "Alice Alt" (VStr ""))]))
             Example.w0 in
  let sts' := streamers (store (handle Example.env0 (StreamOnline "42" "T1") w).1.2) in
  od_get "alice" sts'
  = Some (event_fields Example.env0 (StreamOnline "42" "T1") w Example.alice)
  ∧ (forall l, l ≠ "alice" -> od_get l sts' = od_get l (streamers (store w))).
Proof.
  apply (event_changes_first_match_only Example.env0 (StreamOnline "42" "T1")).
  - unfold od_wf. vm_compute. apply NoDup_cons. split.
    + intros H. apply list_elem_of_singleton in H. discriminate.
    + apply NoDup_singleton.
  - vm_compute. reflexivity.
Defined.

(** X19. Going offline does not forget the session.  An offline event on a
    tracked channel sets [is_live] to false and [last_live] to the current
    time and leaves every other field as it was: [started_at] keeps the
    start of the session that has ended.  Likewise a live event sets
    [is_live] and [started_at] and keeps [last_live]. *)
Theorem liveness_events_keep_other_fields (env : Env) (ev : Event) (w : World)
    (login : string) (s : gmap string value) :
  od_wf (streamers (store w)) ->
  find_uid (event_uid ev) (streamers (store w)) = Some (login, s) ->
  liveness_event ev = true ->
  exists s',
    od_get login (streamers (store (handle env ev w).1.2)) = Some s'
    ∧ match ev with
      | StreamOffline _ =>
          s' !! "is_live" = Some (VBool false)
          ∧ s' !! "last_live" = Some (VStr (utc_now_isoformat env))
          ∧ (forall k, k ≠ "is_live" -> k ≠ "last_live" -> s' !! k = s !! k)
          ∧ s' !! "started_at" = s !! "started_at"
      | StreamOnline _ started_at =>
          s' !! "is_live" = Some (VBool true)
          ∧ s' !! "started_at" = Some (VStr started_at)
          ∧ (forall k, k ≠ "is_live" -> k ≠ "started_at" -> s' !! k = s !! k)
          ∧ s' !! "last_live" = s !! "last_live"
      | ChannelUpdate _ _ _ => True
      end.
Proof.
  intros Hwf Hfind Hev. exists (event_fields env ev w s). split.
  - rewrite handle_streamers, Hfind, od_get_alter.
    apply find_uid_elem in Hfind as [Hin _].
    by rewrite (od_get_elem _ _ _ Hwf Hin).
  - destruct ev as [uid started|uid|uid title gid]; [| |done]; simpl.
    + rewrite !live_fields_lookup. split_and!; try done.
      intros k H1 H2. rewrite live_fields_lookup. by rewrite !decide_False.
    + rewrite !offline_fields_lookup. split_and!; try done.
      intros k H1 H2. rewrite offline_fields_lookup. by rewrite !decide_False.
Qed.

Lemma liveness_events_keep_other_fields_witness :
  exists s',
    od_get "alice"
      (streamers (store (handle Example.env0 (StreamOffline "42") Example.w_live).1.2))
    = Some s'
    ∧ s' !! "is_live" = Some (VBool false)
    ∧ s' !! "last_live" = Some (VStr (utc_now_isoformat Example.env0))
    ∧ (forall k, k ≠ "is_live" -> k ≠ "last_live" ->
         s' !! k = live_fields "T1" Example.alice !! k)
    ∧ s' !! "started_at" = live_fields "T1" Example.alice !! "started_at".
Proof.
  apply (liveness_events_keep_other_fields Example.env0 (StreamOffline "42")
           Example.w_live "alice" (live_fields "T1" Example.alice)).
  - unfold od_wf. vm_compute. apply NoDup_singleton.
  - vm_compute. reflexivity.
  - reflexivity.
Defined.

(** X20. A metadata update whose category lookup raises is half applied.
    The handler has assigned [title] and [game_id] in the record before it
    looks the name up, and it persists and broadcasts only afterwards: when
    the lookup raises, the exception leaves the handler with the record
    already changed in memory, while no file is written and no subscriber
    is sent anything. *)
Theorem failed_lookup_leaves_unsaved_change (env : Env) (uid : string)
    (title gid : option string) (w : World) (login : string)
    (s : gmap string value) (e : exn) :
  od_wf (streamers (store w)) ->
  find_uid uid (streamers (store w)) = Some (login, s) ->
  (game_name_for env gid w).1.1 = Raise e ->
  let out := on_channel_update env uid title gid w in
  out.1.1 = Raise e
  ∧ od_get login (streamers (store out.1.2))
    = Some (<["game_id" := opt_str_value gid]> (title_field title s))
  ∧ files out.1.2 = files w
  ∧ filter is_persist out.2 = []
  ∧ filter is_send out.2 = [].
Proof.
  intros Hwf Hfind Hraise out. subst out.
  rewrite on_channel_update_run, Hfind.
  pose proof (game_name_for_keeps env gid w) as Hk.
  destruct (game_name_for env gid w) as [[r wg] t]. simpl in Hraise. subst r.
  destruct Hk as (Hs & Hf & _ & _ & Ht). cbn [fst snd].
  apply lookups_kind in Ht.
  split_and!; try done.
  - unfold on_record. cbn. rewrite Hs, od_get_alter.
    apply find_uid_elem in Hfind as [Hin _].
    by rewrite (od_get_elem _ _ _ Hwf Hin).
  - apply filter_none. eapply Forall_impl; [exact Ht|]. by intros x (?&?&?).
  - apply filter_none. eapply Forall_impl; [exact Ht|]. by intros x (?&?&?).
Qed.

Lemma failed_lookup_leaves_unsaved_change_witness :
  let w := set_twitch (Some {| app_id := "id"; app_secret := "secret" |})
             Example.w_live in
  let out := on_channel_update Outage.env_down "42" (Some "Speedrun")
               (Some "509658") w in
  out.1.1 = Raise TwitchAPIException
  ∧ od_get "alice" (streamers (store out.1.2))
    = Some (<["game_id" := VStr "509658"]>
              (title_field (Some "Speedrun") (live_fields "T1" Example.alice)))
  ∧ files out.1.2 = files w
  ∧ filter is_persist out.2 = []
  ∧ filter is_send out.2 = [].
Proof.
  apply (failed_lookup_leaves_unsaved_change Outage.env_down "42"
           (Some "Speedrun") (Some "509658") _ "alice"
           (live_fields "T1" Example.alice) TwitchAPIException).
  - unfold od_wf. vm_compute. apply NoDup_singleton.
  - vm_compute. reflexivity.
  - vm_compute. reflexivity.
Defined.

(** ** The subscribers *)

Lemma filter_idem (P : WebSocket -> bool) (l : list WebSocket) :
  filter P (filter P l) = filter P l.
Proof.
  induction l as [|x l IH]; [done|].
  destruct (P x) eqn:Hx.
  - rewrite (filter_cons_True P x l) by (by rewrite Hx).
    rewrite filter_cons_True by (by rewrite Hx). by rewrite IH.
  - rewrite (filter_cons_False P x l); [done|]. rewrite Hx. simpl. tauto.
Qed.

(** X21. A broadcast cleans the subscriber list once: under the same
    outcomes of the sends, a second broadcast of the same state reaches
    every subscriber that is left, each with a delivered send, and removes
    nobody. *)
Theorem second_broadcast_removes_nobody (env : Env) (w : World) :
  let w1 := (push_update_to_clients env w).1.2 in
  let text := broadcast_text env (store w) in
  push_update_to_clients env w1
  = (Ok tt, w1, map (fun ws => WsSend ws text true) (WS_CLIENTS w1)).
Proof.
  intros w1 text. subst w1. rewrite !push_run. cbn [fst snd].
  unfold survivors, broadcast_effects. cbn [store WS_CLIENTS set_WS_CLIENTS].
  fold text. rewrite filter_idem. f_equal.
  apply map_ext_in. intros ws Hin. f_equal.
  apply list_elem_of_In, list_elem_of_filter in Hin as [Hd _].
  by destruct (delivered env text ws).
Qed.

Lemma ws_endpoint_open_run (env : Env) (accepted : option exn) (ws : WebSocket)
    (w : World) :
  ws_endpoint_open env accepted ws w
  = match accepted with
    | Some e => (Raise e, w, [])
    | None =>
        let text := broadcast_text env (store w) in
        (match ws_send_text env ws text with
         | None => Ok tt
         | Some e => Raise e
         end,
         set_WS_CLIENTS (WS_CLIENTS w ++ [ws]) w,
         [WsSend ws text (delivered env text ws)])
    end.
Proof.
  unfold ws_endpoint_open. destruct accepted as [e|]; [done|].
  unfold send_text, delivered, broadcast_text. munfold. cbn.
  by destruct (ws_send_text env ws _).
Qed.

Lemma ws_endpoint_close_run (closing : exn) (ws : WebSocket) (w : World) :
  ws_endpoint_close closing ws w
  = (if is_WebSocketDisconnect closing then Ok tt else Raise closing,
     set_WS_CLIENTS (default (WS_CLIENTS w) (list_remove ws (WS_CLIENTS w))) w,
     []).
Proof.
  unfold ws_endpoint_close, try_finally, try_except, WS_CLIENTS_remove.
  munfold.
  destruct (is_WebSocketDisconnect closing); cbn;
    destruct (list_remove ws (WS_CLIENTS w)) as [l'|]; cbn;
    by rewrite ?set_WS_CLIENTS_same.
Qed.

(** X22. A browser that has connected is a subscriber from then on,
    also when its first message could not be sent.  The next broadcast
    goes to the subscribers there were and then, last, to the new socket;
    the socket is left in the list if that send goes through and is taken
    out if it fails, so a connection whose first send raised is cleaned
    away by the broadcast that follows, while what happens to the other
    subscribers is what would have happened without it. *)
Theorem registered_browser_gets_next_broadcast (env env2 : Env) (ws : WebSocket)
    (w : World) :
  let w1 := (ws_endpoint_open env None ws w).1.2 in
  let text := json_dumps env2 None (snapshot_message (streamers (store w))) in
  let out := push_update_to_clients env2 w1 in
  out.1.1 = Ok tt
  ∧ out.2 = (push_update_to_clients env2 w).2
              ++ [WsSend ws text (delivered env2 text ws)]
  ∧ WS_CLIENTS out.1.2
    = WS_CLIENTS (push_update_to_clients env2 w).1.2
        ++ (if delivered env2 text ws then [ws] else [])
  ∧ (ws_send_text env2 ws text ≠ None ->
       out.1.2 = (push_update_to_clients env2 w).1.2).
Proof.
  intros w1 text out. subst w1 out.
  rewrite ws_endpoint_open_run, !push_run. cbn [fst snd].
  unfold broadcast_effects, survivors, broadcast_text.
  cbn [store WS_CLIENTS set_WS_CLIENTS]. fold text.
  rewrite map_app, filter_app. cbn [map].
  assert (Hlast : filter (fun ws0 => delivered env2 text ws0) [ws]
                  = if delivered env2 text ws then [ws] else []).
  { destruct (delivered env2 text ws) eqn:Hd.
    - rewrite filter_cons_True by (by rewrite Hd). done.
    - rewrite filter_cons_False; [done|]. rewrite Hd. simpl. tauto. }
  rewrite Hlast. split_and!; try done.
  intros Hfail. unfold delivered.
  destruct (ws_send_text env2 ws text); [|done].
  rewrite app_nil_r. by destruct w.
Qed.

Lemma registered_browser_gets_next_broadcast_witness :
  let w1 := (ws_endpoint_open Example.env0 None 2%nat
               (set_WS_CLIENTS [1%nat] Example.w0)).1.2 in
  WS_CLIENTS w1 = [1; 2]%nat
  ∧ WS_CLIENTS (push_update_to_clients Example.env0 w1).1.2 = [1%nat].
Proof.
  split; [reflexivity|].
  pose proof (registered_browser_gets_next_broadcast Example.env0 Example.env0
                2%nat (set_WS_CLIENTS [1%nat] Example.w0)) as (_ & _ & _ & H).
  cbv zeta in H. rewrite H; [reflexivity|discriminate].
Defined.

(** X23. A connection from its opening to its end.  When the first send
    succeeds, the endpoint ends by taking the socket out of the subscriber
    list again, whatever ended the connection: an ordinary disconnect is
    swallowed, any other exception is passed on after the removal; a socket
    that was not registered before leaves the list as it was.  When the
    first send raises, the removal is never reached: the exception is
    passed on and the socket stays registered. *)
Theorem connection_round_trip (env : Env) (closing : exn) (ws : WebSocket)
    (w : World) :
  ws ∉ WS_CLIENTS w ->
  let out := ws_endpoint env None closing ws w in
  let text := broadcast_text env (store w) in
  match ws_send_text env ws text with
  | None =>
      out = (if is_WebSocketDisconnect closing then Ok tt else Raise closing,
             w, [WsSend ws text true])
  | Some e =>
      out = (Raise e, set_WS_CLIENTS (WS_CLIENTS w ++ [ws]) w,
             [WsSend ws text false])
  end.
Proof.
  intros Hnew out text. subst out. unfold ws_endpoint.
  rewrite bind_run, ws_endpoint_open_run. cbv zeta. fold text.
  unfold delivered. destruct (ws_send_text env ws text) as [e|]; [done|].
  rewrite ws_endpoint_close_run. cbn [WS_CLIENTS set_WS_CLIENTS].
  pose proof (list_remove_app ws (WS_CLIENTS w) [] Hnew) as Hrm.
  rewrite Hrm, app_nil_r. cbn.
  change (set_WS_CLIENTS (WS_CLIENTS w) (set_WS_CLIENTS (WS_CLIENTS w ++ [ws]) w))
    with (set_WS_CLIENTS (WS_CLIENTS w) w).
  by rewrite set_WS_CLIENTS_same.
Qed.

Lemma connection_round_trip_witness :
  ws_endpoint Example.env0 None RuntimeError 7%nat Example.w0
  = (Raise RuntimeError, Example.w0,
     [WsSend 7%nat (broadcast_text Example.env0 (store Example.w0)) true]).
Proof.
  apply (connection_round_trip Example.env0 RuntimeError 7%nat Example.w0).
  vm_compute. intros H. repeat (apply elem_of_cons in H as [H|H]; [discriminate|]).
  by apply elem_of_nil in H.
Defined.

(** ** Administration of the webhook and of the credentials *)

(** X24. Setting the webhook takes effect at once and is persisted: the
    text as [webhook.strip()] returns it is stored under [webhook] and the
    store file holds the new store; the registry is untouched and the
    browsers are sent nothing.  From then on the notifier posts to that
    address -- or, when stripping left nothing, posts nothing: saving a
    blank webhook switches the notifications off. *)
Theorem webhook_setting_takes_effect (env : Env) (url : string) (w : World) :
  let out := admin_webhook env url w in
  let w' := out.1.2 in
  out.1.1 = Ok (RedirectResponse "/admin" 302)
  ∧ discord (store w') !! "webhook" = Some (VStr (str_strip env url))
  ∧ files w' !! STORE_PATH = Some (persisted_text env (store w'))
  ∧ streamers (store w') = streamers (store w)
  ∧ filter is_send out.2 = []
  ∧ (forall env2 login s,
       discord_notify_online env2 login s w'
       = (Ok tt, w',
          if bool_decide (str_strip env url = "") then []
          else [HttpPost (VStr (str_strip env url)) (online_message env2 login s)])
       ∧ discord_notify_offline env2 login s w'
         = (Ok tt, w',
            if bool_decide (str_strip env url = "") then []
            else [HttpPost (VStr (str_strip env url)) (offline_message env2 login s)])).
Proof.
  intros out w'. subst w' out.
  destruct (admin_webhook env url w) as [[r w'] tr] eqn:Hrun.
  revert Hrun. unfold admin_webhook.
  rewrite bind_run. unfold modify at 1. cbv beta iota.
  rewrite bind_run, persist_run. cbn. intros [= <- <- <-].
  cbn [fst snd store files set_files set_store set_discord discord streamers].
  split_and!; try done.
  - apply lookup_insert_eq.
  - apply lookup_insert_eq.
  - intros env2 login s.
    rewrite notify_online_run, notify_offline_run.
    unfold notify_effects, webhook_of, py_get.
    cbn [store set_files set_store set_discord discord].
    rewrite lookup_insert_eq. unfold py_or, truthy, id. cbn [default].
    case_bool_decide as Hurl; cbn.
    + by rewrite !(bool_decide_eq_true_2 ("" = "")).
    + by rewrite !(bool_decide_eq_false_2 (str_strip env url = "")).
Qed.



(** X26. Adding does not keep channel ids unique.  When the login resolves
    to a [user_id] that the record of another login already carries, the
    add stores a second record with that id beside it; the registry then
    holds the id twice. *)
Theorem add_can_duplicate_an_id (env : Env) (login : string) (w : World)
    (uid dn other : string) (s : gmap string value) :
  str_lower env (str_strip env login) ≠ "" ->
  (resolve_login_to_user env (str_lower env (str_strip env login)) w).1.1 = Ok (Some (uid, dn)) ->
  other ≠ str_lower env (str_strip env login) ->
  od_get other (streamers (store w)) = Some s ->
  s !! "user_id" = Some (VStr uid) ->
  let sts' := streamers (store (admin_streamer_add env login w).1.2) in
  od_get other sts' = Some s
  ∧ (exists s', od_get (str_lower env (str_strip env login)) sts' = Some s'
       ∧ s' !! "user_id" = Some (VStr uid))
  ∧ ¬ unique_ids sts'.
Proof.
  intros Hl Hres Hother Hget Hid sts'. subst sts'.
  rewrite (admin_streamer_add_streamers env login w uid dn Hl Hres).
  set (rec := new_record uid dn _).
  assert (H1 : od_get other (od_set (str_lower env (str_strip env login)) rec (streamers (store w)))
               = Some s).
  { rewrite od_get_set_ne by done. exact Hget. }
  assert (H2 : od_get (str_lower env (str_strip env login))
                 (od_set (str_lower env (str_strip env login)) rec (streamers (store w)))
               = Some rec) by apply od_get_set.
  split_and!.
  - exact H1.
  - exists rec. split; [exact H2|]. apply new_record_fields.
  - intros Hu.
    apply od_get_Some_elem in H1. apply od_get_Some_elem in H2.
    assert (Heq : (other, s) = (str_lower env (str_strip env login), rec)).
    { apply (unique_ids_elem _ _ _ _ _ Hu H1 H2).
      destruct (new_record_fields uid dn
                  (py_get_default "last_live" (VStr "")
                     (default ∅ (od_get (str_lower env (str_strip env login))
                                   (streamers (store w)))))) as [Hn _].
      unfold py_get. fold rec in Hn. by rewrite Hid, Hn. }
    by inversion Heq.
Qed.

Lemma add_can_duplicate_an_id_witness :
  let sts' := streamers (store (admin_streamer_add Outage.env_no_socket
                                  "Alice_TV" Example.w_off).1.2) in
  od_get "alice" sts'
  = Some (offline_fields "2024-01-02T03:04:05+00:00"
            (live_fields "T1" Example.alice))
  ∧ (exists s', od_get (str_lower Outage.env_no_socket (str_strip Outage.env_no_socket "Alice_TV")) sts' = Some s'
       ∧ s' !! "user_id" = Some (VStr "42"))
  ∧ ¬ unique_ids sts'.
Proof.
  apply (add_can_duplicate_an_id Outage.env_no_socket "Alice_TV" Example.w_off
           "42" "Alice" "alice").
  - vm_compute. discriminate.
  - vm_compute. reflexivity.
  - vm_compute. discriminate.
  - vm_compute. reflexivity.
  - vm_compute. reflexivity.
Defined.
